(** * Clueless Closet: the wardrobe script (script.js), embedded and verified

    The script keeps one global object [app] (two garment arrays, two
    selections, the saved outfits), mirrors it to one localStorage slot as
    JSON, and exports/imports it as a JSON file.  This development embeds
    the functions of script.js that carry the persistence and aggregate
    contracts, over a small model of the JavaScript values they handle:

    - JavaScript values with a store of objects, so that two references to
      one garment object are one location (aliasing is kept);
    - the browser (JSON text codec, clock, the answer of localStorage to a
      write) as a class, the draws of [Math.random()], the answer of the
      [confirm] dialog and what the file reader makes of a file as arguments;
    - the DOM is left out: form fields are passed as arguments, and
      rendering only reads the state; the handlers come twice, first up to
      their render calls and then, in [Rendered], whole: a render call
      returns or throws according to what it reads;
    - a handler that awaits a file read runs to its end before the next
      handler starts. *)

From Stdlib Require Import Ascii String QArith Qround Qabs Lqa.
From Stdlib Require SpecFloat.
From stdpp Require Import base option list gmap strings pretty.

#[local] Set Warnings "-register-all".

Local Open Scope string_scope.
Local Open Scope Z_scope.

(** ** JavaScript values and the object store *)

(** Object references.  Every object literal and every object built by
    [JSON.parse] lives at a location of the store. *)
Abbreviation loc := positive.

(** The values the script handles.  Numbers are the integers the script
    computes with (millisecond timestamps, counts); a file with other numbers
    is outside the model.  Arrays are kept by value: the script never holds
    two references to one array beyond a temporary object literal, so
    [a.push(x)] is [a := a ++ [x]]. *)
Inductive value :=
  | VUndef
  | VNull
  | VBool (b : bool)
  | VNum (n : Z)
  | VStr (s : string)
  | VArr (elems : list value)
  | VRef (l : loc).

(** An object: its own properties, in insertion order. *)
Abbreviation object := (list (string * value)).

(** A JSON document: what [JSON.stringify] prints and [JSON.parse] builds. *)
Inductive json :=
  | JNull
  | JBool (b : bool)
  | JNum (n : Z)
  | JStr (s : string)
  | JArr (elems : list json)
  | JObj (props : list (string * json)).

(** JavaScript truthiness ([!x], [x || y]). *)
Definition truthy (v : value) : bool :=
  match v with
  | VUndef | VNull => false
  | VBool b => b
  | VNum n => negb (Z.eqb n 0)
  | VStr s => negb (String.eqb s "")
  | VArr _ | VRef _ => true
  end.

(** [a || b] *)
Definition js_or (a b : value) : value := if truthy a then a else b.

(** Lookup of a property in an object's own properties. *)
Fixpoint assoc {A} (k : string) (ps : list (string * A)) : option A :=
  match ps with
  | [] => None
  | (k', v) :: ps' => if String.eqb k k' then Some v else assoc k ps'
  end.

(** [v.k] for the property names the script reads ([topwear], [bottomwear],
    [savedOutfits], [id], [top], [bottom]): a [TypeError] ([None]) on [null]
    and [undefined], the own property of an object, and [undefined] on
    every other value (no array, string, number or boolean has one of these
    names on its prototype). *)
Definition get_prop (h : gmap loc object) (v : value) (k : string) : option value :=
  match v with
  | VUndef | VNull => None
  | VRef l =>
      match h !! l with
      | Some o => Some (default VUndef (assoc k o))
      | None => Some VUndef
      end
  | _ => Some VUndef
  end.

(** Allocation of a new object. *)
Definition alloc (h : gmap loc object) (o : object) : loc * gmap loc object :=
  let l := fresh (dom h) in (l, <[l := o]> h).

(** The properties of an object as [JSON.stringify] prints them: a property
    whose value is [undefined] is left out. *)
Definition props_to_json (f : value → option json) : object → option (list (string * json)) :=
  fix go (ps : object) : option (list (string * json)) :=
    match ps with
    | [] => Some []
    | (k, v) :: ps' =>
        match v with
        | VUndef => go ps'
        | _ => j ← f v; js ← go ps'; Some ((k, j) :: js)
        end
    end.

(** The traversal [JSON.stringify] makes of a value: references are followed
    through the store, and [undefined] prints as [null] inside an array.  The
    fuel bounds the number of nested objects on a path: a cyclic structure
    runs out of it, which is the [TypeError] of [JSON.stringify] on circular
    structures. *)
Fixpoint to_json_fuel (fuel : nat) (h : gmap loc object) : value → option json :=
  fix go (v : value) : option json :=
    match v with
    | VUndef | VNull => Some JNull
    | VBool b => Some (JBool b)
    | VNum n => Some (JNum n)
    | VStr s => Some (JStr s)
    | VArr vs => JArr <$> mapM go vs
    | VRef l =>
        match fuel with
        | O => None
        | S n => o ← h !! l; JObj <$> props_to_json (to_json_fuel n h) o
        end
    end.

(** A path without a repeated object has at most [size h] objects. *)
Definition to_json (h : gmap loc object) (v : value) : option json :=
  to_json_fuel (S (size h)) h v.

(** [JSON.stringify] of an object literal [{k1: v1, ...}] (the literal
    itself is a temporary and is not kept in the store). *)
Definition literal_to_json (h : gmap loc object) (ps : object) : option json :=
  JObj <$> props_to_json (to_json h) ps.

(** Building a list of values one after the other in the store. *)
Definition build_list {A B} (f : A → gmap loc object → B * gmap loc object) :
    list A → gmap loc object → list B * gmap loc object :=
  fix go (xs : list A) (h : gmap loc object) : list B * gmap loc object :=
    match xs with
    | [] => ([], h)
    | x :: xs' =>
        let '(y, h1) := f x h in
        let '(ys, h2) := go xs' h1 in
        (y :: ys, h2)
    end.

(** The object graph [JSON.parse] builds for a document: every JSON object
    becomes a new object of the store. *)
Fixpoint from_json (j : json) (h : gmap loc object) : value * gmap loc object :=
  match j with
  | JNull => (VNull, h)
  | JBool b => (VBool b, h)
  | JNum n => (VNum n, h)
  | JStr s => (VStr s, h)
  | JArr js =>
      let '(vs, h') := build_list from_json js h in
      (VArr vs, h')
  | JObj ps =>
      let '(o, h') :=
        build_list (λ p h, let '(v, h1) := from_json p.2 h in ((p.1, v), h1)) ps h in
      let '(l, h'') := alloc h' o in
      (VRef l, h'')
  end.

(** ** The state of the page *)

(** [const app = {...}] (script.js, lines 7-13). *)
Record App := mkApp {
  topwear : value;
  bottomwear : value;
  selectedTop : value;
  selectedBottom : value;
  savedOutfits : value;
}.

(** A toast shown by [showNotification(message, type)]. *)
Definition notification : Type := string * string.

(** The page: the global [app], the objects it refers to, the localStorage
    slot [STORAGE_KEY] ([None]: no such key), the number of clock readings
    made so far, and the toasts shown so far. *)
Record state := mkState {
  app : App;
  heap : gmap loc object;
  localStorage : option string;
  ticks : nat;
  notifications : list notification;
}.

Definition set_app (a : App) (s : state) : state :=
  mkState a (heap s) (localStorage s) (ticks s) (notifications s).
Definition set_heap (h : gmap loc object) (s : state) : state :=
  mkState (app s) h (localStorage s) (ticks s) (notifications s).
Definition set_localStorage (v : option string) (s : state) : state :=
  mkState (app s) (heap s) v (ticks s) (notifications s).
Definition tick (s : state) : state :=
  mkState (app s) (heap s) (localStorage s) (S (ticks s)) (notifications s).

Definition set_topwear (v : value) (a : App) : App :=
  mkApp v (bottomwear a) (selectedTop a) (selectedBottom a) (savedOutfits a).
Definition set_bottomwear (v : value) (a : App) : App :=
  mkApp (topwear a) v (selectedTop a) (selectedBottom a) (savedOutfits a).
Definition set_selectedTop (v : value) (a : App) : App :=
  mkApp (topwear a) (bottomwear a) v (selectedBottom a) (savedOutfits a).
Definition set_selectedBottom (v : value) (a : App) : App :=
  mkApp (topwear a) (bottomwear a) (selectedTop a) v (savedOutfits a).
Definition set_savedOutfits (v : value) (a : App) : App :=
  mkApp (topwear a) (bottomwear a) (selectedTop a) (selectedBottom a) v.

(** The state when the script is loaded. *)
Definition initial_state : state :=
  mkState (mkApp (VArr []) (VArr []) VNull VNull (VArr [])) ∅ None 0 [].

(** [showNotification(message, type)]: the toast is recorded. *)
Definition showNotification (message type : string) (s : state) : state :=
  mkState (app s) (heap s) (localStorage s) (ticks s) (notifications s ++ [(message, type)]).

(** [a.push(x)]: a [TypeError] ([None]) when [a] is not an array. *)
Definition push (a x : value) : option value :=
  match a with
  | VArr vs => Some (VArr (vs ++ [x]))
  | _ => None
  end.

(** A file handed over by a file input: its name, its declared media type,
    its size in bytes, and what [FileReader.readAsDataURL] makes of it
    ([None]: the reader fires [onerror]). *)
Record File := mkFile {
  f_name : string;
  f_type : string;
  f_size : Z;
  f_dataURL : option string;
}.

(** How a function of the script ends when it has no handler for an
    exception of its own. *)
Inductive outcome :=
  | Done (s : state)
  | Uncaught (error_name : string) (s : state).

(** Storage constants (script.js, lines 2-4). *)
Definition MAX_IMAGE_SIZE : Z := 5 * 1024 * 1024.
Definition STORAGE_LIMIT : Z := 5 * 1024 * 1024.

(** [Math.round(x)]: the nearest integer, a tie going up. *)
Definition Math_round (x : Q) : Z := Qfloor (x + (1 # 2))%Q.

(** [Math.floor(x)] *)
Definition Math_floor (x : Q) : Z := Qfloor x.

(** [Math.round((length / 1024 / 1024) * 100) / 100] (script.js, line 25).
    The quotient by 1024 twice and the product by 100 are exact in double
    precision for every length below 2^46, so the rational value is the
    argument [Math.round] receives; the result is the double nearest to
    the rational returned here. *)
Definition usage_of_length (length : Z) : Q :=
  (inject_Z (Math_round ((inject_Z length / 1024 / 1024) * 100)) / 100)%Q.

(** [getStorageUsage()] (script.js, lines 20-29). *)
Definition getStorageUsage (s : state) : Q :=
  match localStorage s with
  | None => 0%Q
  | Some stored =>
      if truthy (VStr stored)
      then usage_of_length (Z.of_nat (String.length stored))
      else 0%Q
  end.

(** [array[i]]: [undefined] out of range. *)
Definition js_index (vs : list value) (i : Z) : value :=
  if i <? 0 then VUndef else default VUndef (vs !! Z.to_nat i).

(** [Math.floor(r * array.length)] for a draw [r] of [Math.random()], in
    exact arithmetic; [Rendered.random_index] has the product of doubles. *)
Definition random_index (r : Q) (length : nat) : Z :=
  Math_floor (r * inject_Z (Z.of_nat length))%Q.

(** [file.name.split('.')[0]] *)
Fixpoint before_dot (s : string) : string :=
  match s with
  | EmptyString => EmptyString
  | String c r => if Ascii.eqb c "."%char then EmptyString else String c (before_dot r)
  end.

(** [validateImageFile(file)] (script.js, lines 118-132). *)
Definition validTypes : list string := ["image/jpeg"; "image/png"].

Definition validateImageFile (file : File) (s : state) : bool * state :=
  if negb (bool_decide (f_type file ∈ validTypes)) then
    (false, showNotification "✗ Only JPG and PNG images are supported" "error" s)
  else if MAX_IMAGE_SIZE <? f_size file then
    (false, showNotification "✗ Image must be smaller than 5MB" "error" s)
  else (true, s).

(** [clearAllData()] (script.js, lines 90-101); [confirmed] is the answer of
    the [confirm] dialog. *)
Definition clearAllData (confirmed : bool) (s : state) : state :=
  if confirmed then
    let s1 := set_localStorage None s in
    let s2 := set_app (set_topwear (VArr []) (app s1)) s1 in
    let s3 := set_app (set_bottomwear (VArr []) (app s2)) s2 in
    let s4 := set_app (set_savedOutfits (VArr []) (app s3)) s3 in
    let s5 := set_app (set_selectedTop VNull (app s4)) s4 in
    let s6 := set_app (set_selectedBottom VNull (app s5)) s5 in
    showNotification "✓ All data cleared" "success" s6
  else s.

(** [shuffleOutfit()] (script.js, lines 330-339); [r1] and [r2] are the two
    draws of [Math.random()].  [None]: the script reads the [length] of a
    collection that is not an array, which only an imported file of another
    shape can bring about; what JavaScript makes of [length] and indexing on
    such a value is not modelled. *)
Definition shuffleOutfit (r1 r2 : Q) (s : state) : option state :=
  let failed :=
    showNotification "Please add at least one top and one bottom first" "error" s in
  match topwear (app s) with
  | VArr tops =>
      if (length tops =? 0)%nat then Some failed
      else
        match bottomwear (app s) with
        | VArr bottoms =>
            if (length bottoms =? 0)%nat then Some failed
            else
              let s1 := set_app (set_selectedTop
                          (js_index tops (random_index r1 (length tops))) (app s)) s in
              let s2 := set_app (set_selectedBottom
                          (js_index bottoms (random_index r2 (length bottoms))) (app s1)) s1 in
              Some s2
        | _ => None
        end
  | _ => None
  end.

(** ** The browser *)

(** What the script asks of the browser, apart from the DOM. *)
Class Browser := {
  (** [JSON.stringify(v, null, indent)], on the document of [v] *)
  JSON_stringify : nat → json → string;
  (** [JSON.parse(text)]; [None]: a [SyntaxError] *)
  JSON_parse : string → option json;
  (** the millisecond clock: [clock k] is its k-th reading *)
  clock : nat → Z;
  (** [new Date(ms).toISOString()] *)
  toISOString : Z → string;
  (** [localStorage.setItem(STORAGE_KEY, text)]: [None] when the text is
      stored, [Some name] when the call throws an exception of that name *)
  setItem_error : string → option string;
}.

Section Script.

Context `{Browser}.

(** [Date.now()] *)
Definition Date_now (s : state) : Z * state := (clock (ticks s), tick s).

(** [new Date().toISOString()] *)
Definition Date_toISOString (s : state) : string * state :=
  (toISOString (clock (ticks s)), tick s).

(** [saveToLocalStorage()] (script.js, lines 34-53). *)
Definition saveToLocalStorage (s : state) : state :=
  let '(savedAt, s1) := Date_toISOString s in
  match literal_to_json (heap s1)
          [("topwear", topwear (app s1));
           ("bottomwear", bottomwear (app s1));
           ("savedOutfits", savedOutfits (app s1));
           ("savedAt", VStr savedAt)] with
  | None => (* JSON.stringify throws a TypeError *)
      showNotification "✗ Error saving data" "error" s1
  | Some data =>
      let text := JSON_stringify 0 data in
      match setItem_error text with
      | None => set_localStorage (Some text) s1
      | Some name =>
          if String.eqb name "QuotaExceededError" then
            showNotification
              "⚠️ Storage limit exceeded! Delete some items to free up space." "error" s1
          else
            showNotification "✗ Error saving data" "error" s1
      end
  end.

(** [loadFromLocalStorage()] (script.js, lines 58-75). *)
Definition loadFromLocalStorage (s : state) : bool * state :=
  let failed s := (false, showNotification "✗ Error loading saved data" "error" s) in
  match localStorage s with
  | Some stored =>
      if truthy (VStr stored) then
        match JSON_parse stored with
        | None => failed s
        | Some j =>
            let '(data, h1) := from_json j (heap s) in
            let s := set_heap h1 s in
            match get_prop (heap s) data "topwear" with
            | None => failed s
            | Some t =>
                let s := set_app (set_topwear (js_or t (VArr [])) (app s)) s in
                match get_prop (heap s) data "bottomwear" with
                | None => failed s
                | Some b =>
                    let s := set_app (set_bottomwear (js_or b (VArr [])) (app s)) s in
                    match get_prop (heap s) data "savedOutfits" with
                    | None => failed s
                    | Some o =>
                        let s := set_app (set_savedOutfits (js_or o (VArr [])) (app s)) s in
                        (true, s)
                    end
                end
            end
        end
      else (false, s)
  | None => (false, s)
  end.

(** The [reader.onload] handler of [importWardrobe()] (script.js, lines
    414-428); [text] is the text of the chosen file. *)
Definition importWardrobe (text : string) (s : state) : state :=
  let failed s := showNotification "✗ Error importing config" "error" s in
  match JSON_parse text with
  | None => failed s
  | Some j =>
      let '(config, h1) := from_json j (heap s) in
      let s := set_heap h1 s in
      match get_prop (heap s) config "topwear" with
      | None => failed s
      | Some t =>
          let s := set_app (set_topwear (js_or t (VArr [])) (app s)) s in
          match get_prop (heap s) config "bottomwear" with
          | None => failed s
          | Some b =>
              let s := set_app (set_bottomwear (js_or b (VArr [])) (app s)) s in
              match get_prop (heap s) config "savedOutfits" with
              | None => failed s
              | Some o =>
                  let s := set_app (set_savedOutfits (js_or o (VArr [])) (app s)) s in
                  let s := saveToLocalStorage s in
                  showNotification "✓ Wardrobe imported successfully!" "success" s
              end
          end
      end
  end.

(** [exportWardrobe()] (script.js, lines 386-402): the name and the text
    of the file offered for download. *)
Definition exportWardrobe (s : state) : option (string * string) * outcome :=
  let '(exportDate, s1) := Date_toISOString s in
  match literal_to_json (heap s1)
          [("topwear", topwear (app s1));
           ("bottomwear", bottomwear (app s1));
           ("savedOutfits", savedOutfits (app s1));
           ("exportDate", VStr exportDate)] with
  | None => (None, Uncaught "TypeError" s1)
  | Some config =>
      let json := JSON_stringify 2 config in
      let '(now, s2) := Date_now s1 in
      let download := "clueless-closet-backup-" +:+ pretty now +:+ ".json" in
      (Some (download, json), Done (showNotification "✓ Wardrobe exported!" "success" s2))
  end.

(** [saveOutfit()] (script.js, lines 344-360). *)
Definition saveOutfit (s : state) : outcome :=
  if negb (truthy (selectedTop (app s))) || negb (truthy (selectedBottom (app s))) then
    Done (showNotification "Please select a complete outfit first" "error" s)
  else
    let '(now, s1) := Date_now s in
    let '(outfit, h1) :=
      alloc (heap s1)
        [("id", VNum now);
         ("top", selectedTop (app s1));
         ("bottom", selectedBottom (app s1))] in
    let s2 := set_heap h1 s1 in
    match push (savedOutfits (app s2)) (VRef outfit) with
    | None => Uncaught "TypeError" s2
    | Some outfits =>
        let s3 := set_app (set_savedOutfits outfits (app s2)) s2 in
        let s4 := saveToLocalStorage s3 in
        Done (showNotification "❤️ Outfit saved!" "success" s4)
    end.

(** [o.id === outfitId] for an outfit id, a number: a [TypeError] ([None])
    when [o] is [null] or [undefined]. *)
Definition has_id (h : gmap loc object) (outfitId : Z) (o : value) : option bool :=
  match get_prop h o "id" with
  | Some (VNum n) => Some (Z.eqb n outfitId)
  | Some _ => Some false
  | None => None
  end.

(** [outfits.filter(o => o.id !== outfitId)] *)
Fixpoint filter_outfits (h : gmap loc object) (outfitId : Z) (outfits : list value) :
    option (list value) :=
  match outfits with
  | [] => Some []
  | o :: outfits' =>
      match has_id h outfitId o, filter_outfits h outfitId outfits' with
      | Some same, Some rest => Some (if same then rest else o :: rest)
      | _, _ => None
      end
  end.

(** [outfits.find(o => o.id === outfitId)]: the first match, or [undefined]. *)
Fixpoint find_outfit (h : gmap loc object) (outfitId : Z) (outfits : list value) :
    option value :=
  match outfits with
  | [] => Some VUndef
  | o :: outfits' =>
      match has_id h outfitId o with
      | Some same => if same then Some o else find_outfit h outfitId outfits'
      | None => None
      end
  end.

(** [removeOutfit(outfitId)] (script.js, lines 365-369); the id is the
    number carried by a rendered outfit card. *)
Definition removeOutfit (outfitId : Z) (s : state) : outcome :=
  match savedOutfits (app s) with
  | VArr outfits =>
      match filter_outfits (heap s) outfitId outfits with
      | None => Uncaught "TypeError" s
      | Some kept =>
          let s1 := set_app (set_savedOutfits (VArr kept) (app s)) s in
          Done (saveToLocalStorage s1)
      end
  | _ => Uncaught "TypeError" s
  end.

(** [loadSavedOutfit(outfitId)] (script.js, lines 374-381). *)
Definition loadSavedOutfit (outfitId : Z) (s : state) : outcome :=
  match savedOutfits (app s) with
  | VArr outfits =>
      match find_outfit (heap s) outfitId outfits with
      | None => Uncaught "TypeError" s
      | Some outfit =>
          if truthy outfit then
            match get_prop (heap s) outfit "top" with
            | None => Uncaught "TypeError" s
            | Some top =>
                let s1 := set_app (set_selectedTop top (app s)) s in
                match get_prop (heap s1) outfit "bottom" with
                | None => Uncaught "TypeError" s1
                | Some bottom => Done (set_app (set_selectedBottom bottom (app s1)) s1)
                end
            end
          else Done s
      end
  | _ => Uncaught "TypeError" s
  end.

(** The click handlers of the thumbnails (script.js, lines 463-466 and
    488-491): [app.selectedTop = item], [app.selectedBottom = item]. *)
Definition selectTop (item : value) (s : state) : state :=
  set_app (set_selectedTop item (app s)) s.

Definition selectBottom (item : value) (s : state) : state :=
  set_app (set_selectedBottom item (app s)) s.

(** The object literal [newItem] of [bulkImportImages()] (script.js, lines
    289-297), for the file at index [i]. *)
Definition newItem (i : nat) (file : File) (base64Image : string) (s : state) :
    object * state :=
  let fileName := before_dot (f_name file) in
  let '(now, s1) := Date_now s in
  let '(uploadedAt, s2) := Date_toISOString s1 in
  ([("id", VNum (now + Z.of_nat i));
    ("brand", VStr "Imported");
    ("name", VStr fileName);
    ("image", VStr base64Image);
    ("link", VNull);
    ("source", VStr "local");
    ("uploadedAt", VStr uploadedAt)], s2).

(** [if (category === 'topwear') app.topwear.push(item) else
    app.bottomwear.push(item)]; [None] is the [TypeError] of [push]. *)
Definition push_item (category : string) (item : value) (s : state) : option state :=
  if String.eqb category "topwear" then
    a ← push (topwear (app s)) item; Some (set_app (set_topwear a (app s)) s)
  else
    a ← push (bottomwear (app s)) item; Some (set_app (set_bottomwear a (app s)) s).

(** The [for] loop of [bulkImportImages()] (script.js, lines 275-310) from
    index [i] on, [files] being the files from that index.  The inner
    [try] turns a failed read and a failed [push] into one more failure;
    the loop goes on with the next file in every case. *)
Fixpoint bulkImport_loop (category : string) (i : nat) (files : list File)
    (successCount failCount : nat) (s : state) : nat * nat * state :=
  match files with
  | [] => (successCount, failCount, s)
  | file :: files' =>
      let '(valid, s1) := validateImageFile file s in
      if negb valid then
        bulkImport_loop category (S i) files' successCount (S failCount) s1
      else
        match f_dataURL file with
        | None => bulkImport_loop category (S i) files' successCount (S failCount) s1
        | Some base64Image =>
            let '(item, s2) := newItem i file base64Image s1 in
            let '(l, h) := alloc (heap s2) item in
            let s3 := set_heap h s2 in
            match push_item category (VRef l) s3 with
            | None => bulkImport_loop category (S i) files' successCount (S failCount) s3
            | Some s4 => bulkImport_loop category (S i) files' (S successCount) failCount s4
            end
        end
  end.

(** The message of the closing toast (script.js, lines 316-318). *)
Definition bulk_message (successCount failCount : nat) : string :=
  if (0 <? failCount)%nat then
    "✓ Imported " +:+ pretty successCount +:+ " items (" +:+ pretty failCount +:+ " failed)"
  else
    "✓ Successfully imported " +:+ pretty successCount +:+ " items!".

(** [bulkImportImages()] (script.js, lines 262-325); [files] and [category]
    are the values of the two form fields.  The files are read one after
    the other, no other event handler running in between. *)
Definition bulkImportImages (files : list File) (category : string) (s : state) : state :=
  if (length files =? 0)%nat then
    showNotification "Please select at least one image" "error" s
  else
    let '(successCount, failCount, s1) := bulkImport_loop category 0 files 0 0 s in
    let s2 := saveToLocalStorage s1 in
    showNotification (bulk_message successCount failCount) "success" s2.

(** The object literals [data] of [saveToLocalStorage()] and [config] of
    [exportWardrobe()], for the statements below. *)
Definition saved_data (s : state) : object :=
  [("topwear", topwear (app s));
   ("bottomwear", bottomwear (app s));
   ("savedOutfits", savedOutfits (app s));
   ("savedAt", VStr (toISOString (clock (ticks s))))].

Definition exported_config (s : state) : object :=
  [("topwear", topwear (app s));
   ("bottomwear", bottomwear (app s));
   ("savedOutfits", savedOutfits (app s));
   ("exportDate", VStr (toISOString (clock (ticks s))))].

(** [addItem()] (script.js, lines 209-257); the arguments are the chosen
    file, if any, and the trimmed values of the form fields. *)
Definition addItem (imageFile : option File) (brand productName category shoppingLink : string)
    (s : state) : state :=
  match imageFile with
  | None => showNotification "Please fill in all required fields" "error" s
  | Some file =>
      if negb (truthy (VStr brand)) || negb (truthy (VStr productName)) then
        showNotification "Please fill in all required fields" "error" s
      else
        let '(valid, s1) := validateImageFile file s in
        if negb valid then s1
        else
          let failed s := showNotification "✗ Error processing image" "error" s in
          match f_dataURL file with
          | None => failed s1
          | Some base64Image =>
              let '(now, s2) := Date_now s1 in
              let '(uploadedAt, s3) := Date_toISOString s2 in
              let '(l, h) :=
                alloc (heap s3)
                  [("id", VNum now);
                   ("brand", VStr brand);
                   ("name", VStr productName);
                   ("image", VStr base64Image);
                   ("link", js_or (VStr shoppingLink) VNull);
                   ("source", VStr "local");
                   ("uploadedAt", VStr uploadedAt)] in
              let s4 := set_heap h s3 in
              match push_item category (VRef l) s4 with
              | None => failed s4
              | Some s5 =>
                  showNotification "✓ Item added successfully!" "success"
                    (saveToLocalStorage s5)
              end
          end
  end.

(** The collection [bulkImportImages()] pushes to, by the value of the
    category field, and its replacement. *)
Definition collection (category : string) (a : App) : value :=
  if String.eqb category "topwear" then topwear a else bottomwear a.

Definition set_collection (category : string) (v : value) (a : App) : App :=
  if String.eqb category "topwear" then set_topwear v a else set_bottomwear v a.

(** A file passes validation; a file passes validation and is read. *)
Definition accepted (file : File) : bool :=
  bool_decide (f_type file ∈ validTypes) && negb (MAX_IMAGE_SIZE <? f_size file).

Definition imports (file : File) : bool :=
  accepted file && match f_dataURL file with Some _ => true | None => false end.

(** The object made for the file at index [i] when the clock has been read
    [tk] times, and the objects a batch makes from index [i] on. *)
Definition item_at (tk i : nat) (file : File) (base64Image : string) : object :=
  [("id", VNum (clock tk + Z.of_nat i));
   ("brand", VStr "Imported");
   ("name", VStr (before_dot (f_name file)));
   ("image", VStr base64Image);
   ("link", VNull);
   ("source", VStr "local");
   ("uploadedAt", VStr (toISOString (clock (S tk))))].

Fixpoint imported (i : nat) (files : list File) (tk : nat) : list object :=
  match files with
  | [] => []
  | file :: files' =>
      match f_dataURL file with
      | Some base64Image =>
          if accepted file
          then item_at tk i file base64Image :: imported (S i) files' (S (S tk))
          else imported (S i) files' tk
      | None => imported (S i) files' tk
      end
  end.

(** The top-level field [k] of a document, if it is an object that has it. *)
Definition document_field (j : json) (k : string) : option json :=
  match j with
  | JObj ps => assoc k ps
  | _ => None
  end.

(** [v.k || []] *)
Definition field_or_empty (h : gmap loc object) (v : value) (k : string) : value :=
  js_or (default VUndef (get_prop h v k)) (VArr []).

(** [app] after the three assignments of [loadFromLocalStorage()] and
    [importWardrobe()] from the parsed value [data]. *)
Definition assigned (h : gmap loc object) (data : value) (a : App) : App :=
  mkApp (field_or_empty h data "topwear") (field_or_empty h data "bottomwear")
        (selectedTop a) (selectedBottom a) (field_or_empty h data "savedOutfits").

(** The two messages of a failed save. *)
Definition quota_message : string :=
  "⚠️ Storage limit exceeded! Delete some items to free up space.".
Definition save_error_message : string := "✗ Error saving data".

(** The handlers of the page as the actions of a session, and a session as
    a list of actions.  An uncaught exception ends the handler with the state
    it had reached; a shuffle on a collection that is not an array is left
    out of the model and skipped; a click selects the item a thumbnail
    stands for, when there is such a thumbnail. *)
Inductive action :=
  | AddItem (imageFile : option File) (brand productName category shoppingLink : string)
  | BulkImport (files : list File) (category : string)
  | SelectTop (i : nat)
  | SelectBottom (i : nat)
  | Shuffle (r1 r2 : Q)
  | SaveOutfit
  | RemoveOutfit (outfitId : Z)
  | LoadSavedOutfit (outfitId : Z)
  | Export
  | Import (text : string)
  | Load
  | Clear (confirmed : bool).

Definition final (o : outcome) : state :=
  match o with
  | Done s => s
  | Uncaught _ s => s
  end.

(** The item of the i-th thumbnail of a collection. *)
Definition thumbnail (collection : value) (i : nat) : option value :=
  match collection with
  | VArr items => items !! i
  | _ => None
  end.

Definition perform (a : action) (s : state) : state :=
  match a with
  | AddItem imageFile brand productName category shoppingLink =>
      addItem imageFile brand productName category shoppingLink s
  | BulkImport files category => bulkImportImages files category s
  | SelectTop i =>
      match thumbnail (topwear (app s)) i with
      | Some item => selectTop item s
      | None => s
      end
  | SelectBottom i =>
      match thumbnail (bottomwear (app s)) i with
      | Some item => selectBottom item s
      | None => s
      end
  | Shuffle r1 r2 => default s (shuffleOutfit r1 r2 s)
  | SaveOutfit => final (saveOutfit s)
  | RemoveOutfit outfitId => final (removeOutfit outfitId s)
  | LoadSavedOutfit outfitId => final (loadSavedOutfit outfitId s)
  | Export => final (exportWardrobe s).2
  | Import text => importWardrobe text s
  | Load => (loadFromLocalStorage s).2
  | Clear confirmed => clearAllData confirmed s
  end.

Definition run (actions : list action) (s : state) : state :=
  foldl (λ s a, perform a s) s actions.

(** Every value [app] holds prints as a document: what a page is made of
    as long as no object refers back to itself. *)
Definition printable_in (h : gmap loc object) (a : App) : Prop :=
  is_Some (to_json h (topwear a)) ∧
  is_Some (to_json h (bottomwear a)) ∧
  is_Some (to_json h (selectedTop a)) ∧
  is_Some (to_json h (selectedBottom a)) ∧
  is_Some (to_json h (savedOutfits a)).

Definition printable (s : state) : Prop := printable_in (heap s) (app s).

End Script.

(** ** Further notions for the statements *)

Section Notions.

Context `{Browser}.

(** [o.id === outfitId], [false] where reading [o.id] throws. *)
Definition same_id (h : gmap loc object) (outfitId : Z) (o : value) : bool :=
  default false (has_id h outfitId o).


(** A value whose properties can be read: neither [null] nor [undefined]. *)
Definition non_null (v : value) : Prop := v ≠ VNull ∧ v ≠ VUndef.

(** The collections as the script itself makes them: three arrays of
    truthy elements (the script only ever pushes objects). *)
Definition all_truthy (vs : list value) : Prop := Forall (λ v, truthy v = true) vs.


(** The three collections are truthy: reading a property of one of them
    never throws. *)
Definition collections_truthy (a : App) : Prop :=
  truthy (topwear a) = true ∧
  truthy (bottomwear a) = true ∧
  truthy (savedOutfits a) = true.

(** The object [addItem()] makes (script.js, lines 228-236) when the clock
    has been read [tk] times. *)
Definition added_item (tk : nat) (brand productName base64Image shoppingLink : string) :
    object :=
  [("id", VNum (clock tk));
   ("brand", VStr brand);
   ("name", VStr productName);
   ("image", VStr base64Image);
   ("link", if String.eqb shoppingLink "" then VNull else VStr shoppingLink);
   ("source", VStr "local");
   ("uploadedAt", VStr (toISOString (clock (S tk))))].

End Notions.

(** ** Rendering

    The render functions write to the document only: no field of the page
    state changes.  What matters to the handlers is whether a call returns
    or throws, which is decided by the data it reads. *)

(** [String(v)], the conversion that [img.src = v], [img.alt = v],
    [div.textContent = v] and [a + b] apply to a value that is not a string:
    [true] when it returns.  A plain object converts by
    [Object.prototype.toString] unless it has an own property [toString],
    which is never callable in a parsed document; an array joins the
    conversions of its elements, [null] and [undefined] counting as empty. *)
Fixpoint coercible (h : gmap loc object) (v : value) : bool :=
  match v with
  | VArr vs =>
      forallb (λ v, match v with VUndef | VNull => true | _ => coercible h v end) vs
  | VRef l =>
      match h !! l with
      | Some o => match assoc "toString" o with Some _ => false | None => true end
      | None => true
      end
  | _ => true
  end.

(** [v.length]: [None] is the [TypeError] on [null] and [undefined]. *)
Definition length_of (h : gmap loc object) (v : value) : option value :=
  match v with
  | VUndef | VNull => None
  | VArr vs => Some (VNum (Z.of_nat (length vs)))
  | VStr str => Some (VNum (Z.of_nat (String.length str)))
  | VRef l => get_prop h v "length"
  | _ => Some VUndef
  end.

(** [v.k] for a value [v] that is neither [null] nor [undefined]. *)
Definition prop (h : gmap loc object) (v : value) (k : string) : value :=
  default VUndef (get_prop h v k).

(** A value whose properties can be read. *)
Definition reads (v : value) : bool :=
  match v with
  | VUndef | VNull => false
  | _ => true
  end.

(** [createImageElement(v.image, v.name)] (script.js, lines 191-202). *)
Definition createImageElement (h : gmap loc object) (v : value) : bool :=
  coercible h (prop h v "image") && coercible h (prop h v "name").

(** The body shared by [renderTopwear()] and [renderBottomwear()]
    (script.js, lines 450-470 and 475-495): [true] when the call returns.
    The test [app.selectedTop?.id === item.id] reads [item.id]. *)
Definition thumbnails (h : gmap loc object) (collection : value) : bool :=
  match length_of h collection with
  | None => false
  | Some (VNum 0) => true
  | Some _ =>
      match collection with
      | VArr items => forallb (λ item, reads item && createImageElement h item) items
      | _ => false
      end
  end.

Definition renderTopwear (s : state) : bool := thumbnails (heap s) (topwear (app s)).
Definition renderBottomwear (s : state) : bool := thumbnails (heap s) (bottomwear (app s)).

(** The details shown for a selected item (script.js, lines 525-538):
    [escapeHtml] of its link, when it has one, of its brand and of its name. *)
Definition details (h : gmap loc object) (v : value) : bool :=
  (if truthy (prop h v "link") then coercible h (prop h v "link") else true) &&
  coercible h (prop h v "brand") && coercible h (prop h v "name").

(** [renderOutfit()] (script.js, lines 500-544). *)
Definition renderOutfit (s : state) : bool :=
  if negb (truthy (selectedTop (app s))) || negb (truthy (selectedBottom (app s))) then true
  else
    createImageElement (heap s) (selectedTop (app s)) &&
    createImageElement (heap s) (selectedBottom (app s)) &&
    details (heap s) (selectedTop (app s)) &&
    details (heap s) (selectedBottom (app s)) &&
    renderTopwear s && renderBottomwear s.

(** One card of [renderSavedOutfits()] (script.js, lines 561-587); the id
    of the outfit is read when a button of the card is clicked, not here. *)
Definition card (h : gmap loc object) (outfit : value) : bool :=
  reads outfit &&
  reads (prop h outfit "top") && createImageElement h (prop h outfit "top") &&
  reads (prop h outfit "bottom") && createImageElement h (prop h outfit "bottom").

(** [renderSavedOutfits()] (script.js, lines 549-588). *)
Definition renderSavedOutfits (s : state) : bool :=
  match length_of (heap s) (savedOutfits (app s)) with
  | None => false
  | Some (VNum 0) => true
  | Some _ =>
      match savedOutfits (app s) with
      | VArr outfits => forallb (card (heap s)) outfits
      | _ => false
      end
  end.

(** [updateStorageInfo()] (script.js, lines 80-85): the sum of two lengths
    and a third length are written as text. *)
Definition updateStorageInfo (s : state) : bool :=
  match length_of (heap s) (topwear (app s)),
        length_of (heap s) (bottomwear (app s)),
        length_of (heap s) (savedOutfits (app s)) with
  | Some t, Some b, Some o => coercible (heap s) t && coercible (heap s) b && coercible (heap s) o
  | _, _, _ => false
  end.

(** [renderUI()] (script.js, lines 439-445). *)
Definition renderUI (s : state) : bool :=
  renderTopwear s && renderBottomwear s && renderOutfit s && renderSavedOutfits s &&
  updateStorageInfo s.

(** The display as the handlers see it: for each of the three functions
    they call, the name of the exception the call throws on a page, if any.
    The statements about the handlers hold for every display; [script_display]
    is the one of the definitions above. *)
Class Display := {
  renderUI_throws : state → option string;
  renderOutfit_throws : state → option string;
  updateStorageInfo_throws : state → option string;
}.

Definition script_display : Display := {|
  renderUI_throws s := if renderUI s then None else Some "TypeError";
  renderOutfit_throws s := if renderOutfit s then None else Some "TypeError";
  updateStorageInfo_throws s := if updateStorageInfo s then None else Some "TypeError";
|}.

(** How a handler ends after a call that may throw. *)
Definition rendered (thrown : option string) (s : state) : outcome :=
  match thrown with
  | None => Done s
  | Some name => Uncaught name s
  end.

(** ** Draws of [Math.random()] in binary64

    A draw is the double [mantissa * 2^-scale]. *)
Record draw := mkDraw {
  mantissa : Z;
  scale : Z;
}.

(** The doubles from 0 to 1, 1 left out. *)
Definition is_draw (r : draw) : Prop :=
  0 ≤ mantissa r < 2 ^ 53 ∧ 0 ≤ scale r ≤ 1074 ∧ mantissa r < 2 ^ scale r.

(** [a / 2^s] rounded to the nearest integer, a tie going to the even one. *)
Definition round_half_even (a s : Z) : Z :=
  if s <=? 0 then a
  else
    let q := a / 2 ^ s in
    let rest := a mod 2 ^ s in
    let half := 2 ^ (s - 1) in
    if rest <? half then q
    else if half <? rest then q + 1
    else if Z.even q then q else q + 1.

(** The number of low bits that binary64 drops from the integer [a]: its
    significand holds 53 bits. *)
Definition dropped_bits (a : Z) : Z := Z.max 0 (Z.log2 a - 52).

(** The handlers of the page with their calls of the render functions. *)
Module Rendered.

Section Handlers.

Context `{Browser} `{Display}.

(** [Math.floor(r * length)] in binary64: the exact product
    [mantissa * length * 2^-scale] is rounded to 53 significant bits, to
    the nearest, a tie to the even significand; the floor of a double is
    exact. *)
Definition random_index (r : draw) (length : nat) : Z :=
  let product := mantissa r * Z.of_nat length in
  let s := dropped_bits product in
  round_half_even product s * 2 ^ s / 2 ^ scale r.

(** [saveToLocalStorage()] (script.js, lines 34-53), with the call of
    [updateStorageInfo()] that follows a successful write inside the [try]. *)
Definition saveToLocalStorage (s : state) : state :=
  let '(savedAt, s1) := Date_toISOString s in
  match literal_to_json (heap s1)
          [("topwear", topwear (app s1));
           ("bottomwear", bottomwear (app s1));
           ("savedOutfits", savedOutfits (app s1));
           ("savedAt", VStr savedAt)] with
  | None => showNotification "✗ Error saving data" "error" s1
  | Some data =>
      let text := JSON_stringify 0 data in
      let failed name s :=
        if String.eqb name "QuotaExceededError" then
          showNotification
            "⚠️ Storage limit exceeded! Delete some items to free up space." "error" s
        else
          showNotification "✗ Error saving data" "error" s in
      match setItem_error text with
      | None =>
          let s2 := set_localStorage (Some text) s1 in
          match updateStorageInfo_throws s2 with
          | None => s2
          | Some name => failed name s2
          end
      | Some name => failed name s1
      end
  end.

(** [saveOutfit()] (script.js, lines 344-360). *)
Definition saveOutfit (s : state) : outcome :=
  if negb (truthy (selectedTop (app s))) || negb (truthy (selectedBottom (app s))) then
    Done (showNotification "Please select a complete outfit first" "error" s)
  else
    let '(now, s1) := Date_now s in
    let '(outfit, h1) :=
      alloc (heap s1)
        [("id", VNum now);
         ("top", selectedTop (app s1));
         ("bottom", selectedBottom (app s1))] in
    let s2 := set_heap h1 s1 in
    match push (savedOutfits (app s2)) (VRef outfit) with
    | None => Uncaught "TypeError" s2
    | Some outfits =>
        let s3 := set_app (set_savedOutfits outfits (app s2)) s2 in
        let s4 := saveToLocalStorage s3 in
        let s5 := showNotification "❤️ Outfit saved!" "success" s4 in
        rendered (renderUI_throws s5) s5
    end.

(** [removeOutfit(outfitId)] (script.js, lines 365-369). *)
Definition removeOutfit (outfitId : Z) (s : state) : outcome :=
  match savedOutfits (app s) with
  | VArr outfits =>
      match filter_outfits (heap s) outfitId outfits with
      | None => Uncaught "TypeError" s
      | Some kept =>
          let s1 := set_app (set_savedOutfits (VArr kept) (app s)) s in
          let s2 := saveToLocalStorage s1 in
          rendered (renderUI_throws s2) s2
      end
  | _ => Uncaught "TypeError" s
  end.

(** [loadSavedOutfit(outfitId)] (script.js, lines 374-381). *)
Definition loadSavedOutfit (outfitId : Z) (s : state) : outcome :=
  match savedOutfits (app s) with
  | VArr outfits =>
      match find_outfit (heap s) outfitId outfits with
      | None => Uncaught "TypeError" s
      | Some outfit =>
          if truthy outfit then
            match get_prop (heap s) outfit "top" with
            | None => Uncaught "TypeError" s
            | Some top =>
                let s1 := set_app (set_selectedTop top (app s)) s in
                match get_prop (heap s1) outfit "bottom" with
                | None => Uncaught "TypeError" s1
                | Some bottom =>
                    let s2 := set_app (set_selectedBottom bottom (app s1)) s1 in
                    rendered (renderOutfit_throws s2) s2
                end
            end
          else Done s
      end
  | _ => Uncaught "TypeError" s
  end.

(** The click handlers of the thumbnails (script.js, lines 463-466 and
    488-491). *)
Definition selectTop (item : value) (s : state) : outcome :=
  let s1 := set_app (set_selectedTop item (app s)) s in
  rendered (renderOutfit_throws s1) s1.

Definition selectBottom (item : value) (s : state) : outcome :=
  let s1 := set_app (set_selectedBottom item (app s)) s in
  rendered (renderOutfit_throws s1) s1.

(** [shuffleOutfit()] (script.js, lines 330-339); [r1] and [r2] are the two
    draws of [Math.random()].  [None]: a collection is not an array, and
    what [length] and indexing make of such a value is not modelled. *)
Definition shuffleOutfit (r1 r2 : draw) (s : state) : option outcome :=
  let failed :=
    Done (showNotification "Please add at least one top and one bottom first" "error" s) in
  match topwear (app s) with
  | VArr tops =>
      if (length tops =? 0)%nat then Some failed
      else
        match bottomwear (app s) with
        | VArr bottoms =>
            if (length bottoms =? 0)%nat then Some failed
            else
              let s1 := set_app (set_selectedTop
                          (js_index tops (random_index r1 (length tops))) (app s)) s in
              let s2 := set_app (set_selectedBottom
                          (js_index bottoms (random_index r2 (length bottoms))) (app s1)) s1 in
              Some (rendered (renderOutfit_throws s2) s2)
        | _ => None
        end
  | _ => None
  end.

(** [addItem()] (script.js, lines 209-257). *)
Definition addItem (imageFile : option File) (brand productName category shoppingLink : string)
    (s : state) : state :=
  match imageFile with
  | None => showNotification "Please fill in all required fields" "error" s
  | Some file =>
      if negb (truthy (VStr brand)) || negb (truthy (VStr productName)) then
        showNotification "Please fill in all required fields" "error" s
      else
        let '(valid, s1) := validateImageFile file s in
        if negb valid then s1
        else
          let failed s := showNotification "✗ Error processing image" "error" s in
          match f_dataURL file with
          | None => failed s1
          | Some base64Image =>
              let '(now, s2) := Date_now s1 in
              let '(uploadedAt, s3) := Date_toISOString s2 in
              let '(l, h) :=
                alloc (heap s3)
                  [("id", VNum now);
                   ("brand", VStr brand);
                   ("name", VStr productName);
                   ("image", VStr base64Image);
                   ("link", js_or (VStr shoppingLink) VNull);
                   ("source", VStr "local");
                   ("uploadedAt", VStr uploadedAt)] in
              let s4 := set_heap h s3 in
              match push_item category (VRef l) s4 with
              | None => failed s4
              | Some s5 =>
                  let s6 := showNotification "✓ Item added successfully!" "success"
                              (saveToLocalStorage s5) in
                  match renderUI_throws s6 with
                  | None => s6
                  | Some _ => failed s6
                  end
              end
          end
  end.

(** [bulkImportImages()] (script.js, lines 262-325). *)
Definition bulkImportImages (files : list File) (category : string) (s : state) : state :=
  if (length files =? 0)%nat then
    showNotification "Please select at least one image" "error" s
  else
    let '(successCount, failCount, s1) := bulkImport_loop category 0 files 0 0 s in
    let s2 := saveToLocalStorage s1 in
    let s3 := showNotification (bulk_message successCount failCount) "success" s2 in
    match renderUI_throws s3 with
    | None => s3
    | Some _ => showNotification "✗ Error during bulk import" "error" s3
    end.

(** The [reader.onload] handler of [importWardrobe()] (script.js, lines
    414-428). *)
Definition importWardrobe (text : string) (s : state) : state :=
  let failed s := showNotification "✗ Error importing config" "error" s in
  match JSON_parse text with
  | None => failed s
  | Some j =>
      let '(config, h1) := from_json j (heap s) in
      let s := set_heap h1 s in
      match get_prop (heap s) config "topwear" with
      | None => failed s
      | Some t =>
          let s := set_app (set_topwear (js_or t (VArr [])) (app s)) s in
          match get_prop (heap s) config "bottomwear" with
          | None => failed s
          | Some b =>
              let s := set_app (set_bottomwear (js_or b (VArr [])) (app s)) s in
              match get_prop (heap s) config "savedOutfits" with
              | None => failed s
              | Some o =>
                  let s := set_app (set_savedOutfits (js_or o (VArr [])) (app s)) s in
                  let s := saveToLocalStorage s in
                  match renderUI_throws s with
                  | None => showNotification "✓ Wardrobe imported successfully!" "success" s
                  | Some _ => failed s
                  end
              end
          end
      end
  end.

(** [clearAllData()] (script.js, lines 90-101). *)
Definition clearAllData (confirmed : bool) (s : state) : outcome :=
  if confirmed then
    let s1 := set_localStorage None s in
    let s2 := set_app (set_topwear (VArr []) (app s1)) s1 in
    let s3 := set_app (set_bottomwear (VArr []) (app s2)) s2 in
    let s4 := set_app (set_savedOutfits (VArr []) (app s3)) s3 in
    let s5 := set_app (set_selectedTop VNull (app s4)) s4 in
    let s6 := set_app (set_selectedBottom VNull (app s5)) s5 in
    match renderUI_throws s6 with
    | None => Done (showNotification "✓ All data cleared" "success" s6)
    | Some name => Uncaught name s6
    end
  else Done s.

(** The handler of the [load] event of the window (script.js, lines
    636-641). *)
Definition on_load (s : state) : outcome :=
  let '(_, s1) := loadFromLocalStorage s in
  rendered (renderUI_throws s1) s1.

(** The actions of a session and what each comes to; [None]: the shuffle
    is outside the model. *)
Inductive action :=
  | AddItem (imageFile : option File) (brand productName category shoppingLink : string)
  | BulkImport (files : list File) (category : string)
  | SelectTop (i : nat)
  | SelectBottom (i : nat)
  | Shuffle (r1 r2 : draw)
  | SaveOutfit
  | RemoveOutfit (outfitId : Z)
  | LoadSavedOutfit (outfitId : Z)
  | Export
  | Import (text : string)
  | Reload
  | Clear (confirmed : bool).

Definition perform (a : action) (s : state) : option outcome :=
  match a with
  | AddItem imageFile brand productName category shoppingLink =>
      Some (Done (addItem imageFile brand productName category shoppingLink s))
  | BulkImport files category => Some (Done (bulkImportImages files category s))
  | SelectTop i =>
      match thumbnail (topwear (app s)) i with
      | Some item => Some (selectTop item s)
      | None => Some (Done s)
      end
  | SelectBottom i =>
      match thumbnail (bottomwear (app s)) i with
      | Some item => Some (selectBottom item s)
      | None => Some (Done s)
      end
  | Shuffle r1 r2 => shuffleOutfit r1 r2 s
  | SaveOutfit => Some (saveOutfit s)
  | RemoveOutfit outfitId => Some (removeOutfit outfitId s)
  | LoadSavedOutfit outfitId => Some (loadSavedOutfit outfitId s)
  | Export => Some (exportWardrobe s).2
  | Import text => Some (Done (importWardrobe text s))
  | Reload => Some (on_load s)
  | Clear confirmed => Some (clearAllData confirmed s)
  end.

(** A session: the page goes on after an uncaught exception of a handler. *)
Fixpoint run (actions : list action) (s : state) : option state :=
  match actions with
  | [] => Some s
  | a :: actions' => o ← perform a s; run actions' (final o)
  end.

End Handlers.

End Rendered.

(** ** The multiplication of the Standard Library

    [Math.floor(r * length)] once more, by [SpecFloat.SFmul] at the
    precision 53 and the exponent bound 1024 of binary64: what
    [Rendered.random_index] is checked against. *)
Definition as_float (m e : Z) : SpecFloat.spec_float :=
  match m with
  | Z.pos p => SpecFloat.S754_finite false p e
  | _ => SpecFloat.S754_zero false
  end.

Definition floor_of (x : SpecFloat.spec_float) : Z :=
  match x with
  | SpecFloat.S754_finite false m e => Z.shiftl (Z.pos m) e
  | _ => 0
  end.

Definition floor_product (r : draw) (length : nat) : Z :=
  floor_of (SpecFloat.SFmul 53 1024 (as_float (mantissa r) (- scale r))
              (as_float (Z.of_nat length) 0)).
(** ** Equal data

    Two values hold the same data when they are the same primitive, arrays
    of the same length with the same data at every index, or objects with
    the same property names in the same order and the same data under
    each; the first value is read in the first store and the second in the
    second.  This is the equality of a wardrobe and its copy: identities of
    objects play no part. *)
Inductive same_data (h h' : gmap loc object) : value → value → Prop :=
  | same_undefined : same_data h h' VUndef VUndef
  | same_null : same_data h h' VNull VNull
  | same_bool b : same_data h h' (VBool b) (VBool b)
  | same_num n : same_data h h' (VNum n) (VNum n)
  | same_str str : same_data h h' (VStr str) (VStr str)
  | same_arr vs vs' :
      Forall2 (same_data h h') vs vs' → same_data h h' (VArr vs) (VArr vs')
  | same_ref l l' o o' :
      h !! l = Some o → h' !! l' = Some o' →
      Forall2 (λ kv kv', kv.1 = kv'.1 ∧ same_data h h' kv.2 kv'.2) o o' →
      same_data h h' (VRef l) (VRef l').

(** A value without [undefined] in it, which a document cannot carry. *)
Fixpoint plain_value (v : value) : bool :=
  match v with
  | VUndef => false
  | VArr vs => forallb plain_value vs
  | _ => true
  end.

(** A page whose collections and objects hold no [undefined]: the objects
    the script makes and the ones [JSON.parse] builds are such. *)
Definition plain_heap (h : gmap loc object) : Prop :=
  map_Forall (λ _ o, Forall (λ kv : string * value, plain_value kv.2 = true) o) h.

Definition plain_page (s : state) : Prop :=
  plain_heap (heap s) ∧
  plain_value (topwear (app s)) = true ∧
  plain_value (bottomwear (app s)) = true ∧
  plain_value (savedOutfits (app s)) = true.

(** The same with the selections, which can hold [undefined]: a shuffle
    out of range and an outfit without [top] leave it there. *)
Definition plain_or_undefined (v : value) : Prop := v = VUndef ∨ plain_value v = true.

Definition plain_state (s : state) : Prop :=
  plain_page s ∧
  plain_or_undefined (selectedTop (app s)) ∧
  plain_or_undefined (selectedBottom (app s)).


(** ** Pages of the script's own making *)

(** A value that is neither an array nor an object. *)
Definition primitive (v : value) : bool :=
  match v with
  | VArr _ | VRef _ => false
  | _ => true
  end.

(** An item as [addItem()] and [bulkImportImages()] make it: an object of
    the store whose properties are primitives. *)
Definition is_item (h : gmap loc object) (v : value) : Prop :=
  ∃ l o, v = VRef l ∧ h !! l = Some o ∧
         Forall (λ kv : string * value, primitive kv.2 = true) o.

(** An outfit as [saveOutfit()] makes it: an object of the store whose
    [top] and [bottom] are items, its other properties being primitives. *)
Definition is_outfit (h : gmap loc object) (v : value) : Prop :=
  ∃ l o top bottom,
    v = VRef l ∧ h !! l = Some o ∧
    Forall (λ kv : string * value, primitive kv.2 = true ∨ is_item h kv.2) o ∧
    assoc "top" o = Some top ∧ assoc "bottom" o = Some bottom ∧
    is_item h top ∧ is_item h bottom.

(** A page as the handlers make it from the initial one when no data comes
    from outside: arrays of items and of outfits, each selection [null] or
    an item. *)
Definition homemade (s : state) : Prop :=
  ∃ tops bottoms outfits,
    topwear (app s) = VArr tops ∧
    bottomwear (app s) = VArr bottoms ∧
    savedOutfits (app s) = VArr outfits ∧
    Forall (is_item (heap s)) tops ∧
    Forall (is_item (heap s)) bottoms ∧
    Forall (is_outfit (heap s)) outfits ∧
    (selectedTop (app s) = VNull ∨ is_item (heap s) (selectedTop (app s))) ∧
    (selectedBottom (app s) = VNull ∨ is_item (heap s) (selectedBottom (app s))).

(** The actions that bring no data from outside the page, their draws
    being doubles from 0 to 1. *)
Definition own (a : Rendered.action) : Prop :=
  match a with
  | Rendered.Import _ | Rendered.Reload => False
  | Rendered.Shuffle r1 r2 => is_draw r1 ∧ is_draw r2
  | _ => True
  end.

(** ** A browser for the examples

    A small stand-in for the browser, used by the worked examples only:
    a printer and a parser of JSON text (strings with the two escapes for
    the quote and the backslash, integers, arrays, objects, the three
    literals), a clock that advances by one millisecond at every reading,
    and a store that refuses a text longer than [STORAGE_LIMIT].  The
    theorems below hold for every browser. *)
Module Demo.

Definition quote : ascii := ascii_of_nat 34.
Definition backslash : ascii := ascii_of_nat 92.
Definition newline : ascii := ascii_of_nat 10.

Fixpoint escape (s : string) : string :=
  match s with
  | EmptyString => EmptyString
  | String c r =>
      if Ascii.eqb c quote || Ascii.eqb c backslash
      then String backslash (String c (escape r))
      else String c (escape r)
  end.

Definition print_string (s : string) : string :=
  String quote (escape s +:+ String quote EmptyString).

Fixpoint spaces (n : nat) : string :=
  match n with
  | O => EmptyString
  | S n' => String " " (spaces n')
  end.

(** The line break before an item at [depth], none without indentation. *)
Definition break (indent depth : nat) : string :=
  if (indent =? 0)%nat then EmptyString
  else String newline (spaces (indent * depth)).

Fixpoint join (sep : string) (items : list string) : string :=
  match items with
  | [] => EmptyString
  | [x] => x
  | x :: xs => x +:+ sep +:+ join sep xs
  end.

Fixpoint print_json (indent depth : nat) (j : json) : string :=
  match j with
  | JNull => "null"
  | JBool true => "true"
  | JBool false => "false"
  | JNum n => pretty n
  | JStr s => print_string s
  | JArr [] => "[]"
  | JArr js =>
      "[" +:+ break indent (S depth)
      +:+ join ("," +:+ break indent (S depth)) (map (print_json indent (S depth)) js)
      +:+ break indent depth +:+ "]"
  | JObj [] => "{}"
  | JObj ps =>
      "{" +:+ break indent (S depth)
      +:+ join ("," +:+ break indent (S depth))
            (map (λ p, print_string p.1 +:+ (if (indent =? 0)%nat then ":" else ": ")
                        +:+ print_json indent (S depth) p.2) ps)
      +:+ break indent depth +:+ "}"
  end.

Definition is_space (c : ascii) : bool :=
  Ascii.eqb c " " || Ascii.eqb c newline
  || Ascii.eqb c (ascii_of_nat 9) || Ascii.eqb c (ascii_of_nat 13).

Fixpoint skip_spaces (s : string) : string :=
  match s with
  | String c r => if is_space c then skip_spaces r else s
  | EmptyString => s
  end.

(** [s] without the prefix [p], when it starts with it. *)
Fixpoint strip (p s : string) : option string :=
  match p, s with
  | EmptyString, _ => Some s
  | String a p', String b s' => if Ascii.eqb a b then strip p' s' else None
  | _, _ => None
  end.

(** The characters of a string up to its closing quote, and the rest. *)
Fixpoint parse_chars (s : string) : option (string * string) :=
  match s with
  | EmptyString => None
  | String c r =>
      if Ascii.eqb c quote then Some (EmptyString, r)
      else if Ascii.eqb c backslash then
        match r with
        | String c' r' =>
            match parse_chars r' with
            | Some (str, rest) => Some (String c' str, rest)
            | None => None
            end
        | EmptyString => None
        end
      else
        match parse_chars r with
        | Some (str, rest) => Some (String c str, rest)
        | None => None
        end
  end.

Definition digit (c : ascii) : option Z :=
  let n := nat_of_ascii c in
  if (48 <=? n)%nat && (n <=? 57)%nat then Some (Z.of_nat (n - 48)) else None.

Fixpoint parse_digits (acc : Z) (s : string) : Z * string :=
  match s with
  | String c r =>
      match digit c with
      | Some d => parse_digits (10 * acc + d) r
      | None => (acc, s)
      end
  | EmptyString => (acc, s)
  end.

Definition parse_number (s : string) : option (Z * string) :=
  match s with
  | String c r =>
      if Ascii.eqb c "-" then
        match r with
        | String c' _ =>
            match digit c' with
            | Some _ => let '(n, rest) := parse_digits 0 r in Some (- n, rest)
            | None => None
            end
        | EmptyString => None
        end
      else
        match digit c with
        | Some _ => Some (parse_digits 0 s)
        | None => None
        end
  | EmptyString => None
  end.

Fixpoint parse_value (fuel : nat) (s : string) : option (json * string) :=
  match fuel with
  | O => None
  | S fuel' =>
      let s := skip_spaces s in
      match strip "null" s, strip "true" s, strip "false" s with
      | Some r, _, _ => Some (JNull, r)
      | _, Some r, _ => Some (JBool true, r)
      | _, _, Some r => Some (JBool false, r)
      | None, None, None =>
          match s with
          | String c r =>
              if Ascii.eqb c quote then
                '(str, rest) ← parse_chars r; Some (JStr str, rest)
              else if Ascii.eqb c "[" then
                match strip "]" (skip_spaces r) with
                | Some rest => Some (JArr [], rest)
                | None => '(js, rest) ← parse_elems fuel' r; Some (JArr js, rest)
                end
              else if Ascii.eqb c "{" then
                match strip "}" (skip_spaces r) with
                | Some rest => Some (JObj [], rest)
                | None => '(ps, rest) ← parse_members fuel' r; Some (JObj ps, rest)
                end
              else '(n, rest) ← parse_number s; Some (JNum n, rest)
          | EmptyString => None
          end
      end
  end
with parse_elems (fuel : nat) (s : string) : option (list json * string) :=
  match fuel with
  | O => None
  | S fuel' =>
      '(j, r) ← parse_value fuel' s;
      let r := skip_spaces r in
      match strip "," r, strip "]" r with
      | Some r', _ => '(js, rest) ← parse_elems fuel' r'; Some (j :: js, rest)
      | None, Some rest => Some ([j], rest)
      | None, None => None
      end
  end
with parse_members (fuel : nat) (s : string) : option (list (string * json) * string) :=
  match fuel with
  | O => None
  | S fuel' =>
      r ← strip (String quote EmptyString) (skip_spaces s);
      '(k, r) ← parse_chars r;
      r ← strip ":" (skip_spaces r);
      '(j, r) ← parse_value fuel' r;
      let r := skip_spaces r in
      match strip "," r, strip "}" r with
      | Some r', _ => '(ps, rest) ← parse_members fuel' r'; Some ((k, j) :: ps, rest)
      | None, Some rest => Some ([(k, j)], rest)
      | None, None => None
      end
  end.

Definition parse_json (text : string) : option json :=
  '(j, rest) ← parse_value (2 * String.length text + 2) text;
  match skip_spaces rest with
  | EmptyString => Some j
  | String _ _ => None
  end.

(** The stand-in browser.  [toISOString] prints the milliseconds, the
    calendar format playing no part in what follows. *)
Definition browser : Browser := {|
  JSON_stringify indent j := print_json indent 0 j;
  JSON_parse := parse_json;
  clock k := 1700000000000 + Z.of_nat k;
  toISOString ms := pretty ms;
  setItem_error text :=
    if STORAGE_LIMIT <? Z.of_nat (String.length text)
    then Some "QuotaExceededError" else None;
|}.



(** A wardrobe of one shirt and one pair of jeans, nothing selected and
    nothing stored, and the same wardrobe with both selected. *)
Definition garment (id : Z) (name : string) : object :=
  [("id", VNum id); ("brand", VStr "Imported"); ("name", VStr name);
   ("image", VStr "data:image/png;base64,AAAA"); ("link", VNull);
   ("source", VStr "local"); ("uploadedAt", VStr "1699999999999")].

Definition shirt : loc := 1%positive.
Definition jeans : loc := 2%positive.

Definition closet : gmap loc object :=
  <[jeans := garment 1699999999998 "jeans"]> (<[shirt := garment 1699999999997 "shirt"]> ∅).

Definition wardrobe : state :=
  mkState (mkApp (VArr [VRef shirt]) (VArr [VRef jeans]) VNull VNull (VArr []))
          closet None 0 [].

Definition dressed : state :=
  mkState (mkApp (VArr [VRef shirt]) (VArr [VRef jeans]) (VRef shirt) (VRef jeans) (VArr []))
          closet None 0 [].

(** Four files: a photo that passes and is read, a file of another type, a
    photo that cannot be read, and a photo above the size limit. *)
Definition photo : File :=
  mkFile "coat.winter.jpg" "image/jpeg" 204800 (Some "data:image/jpeg;base64,BBBB").
Definition leaflet : File :=
  mkFile "leaflet.pdf" "application/pdf" 1024 (Some "data:application/pdf;base64,CCCC").
Definition unreadable : File := mkFile "scarf.png" "image/png" 4096 None.
Definition poster : File :=
  mkFile "poster.png" "image/png" (5 * 1024 * 1024 + 1) (Some "data:image/png;base64,DDDD").

(** A page whose slot holds a text that is not JSON. *)
Definition corrupted : state :=
  mkState (app wardrobe) closet (Some "{oops") 0 [].

(** The shirt with another name: what a write to the shirt object would
    leave in the store. *)
Definition relabelled : object := garment 1699999999997 "cardigan".

(** The page after [saveOutfit] on [dressed]. *)
Definition saved : state := final (saveOutfit (H := browser) dressed).

(** A batch of five files, two of which pass validation and are read. *)
Definition batch : list File := [photo; leaflet; unreadable; poster; photo].

(** Two pages after the import of a file of another shape: one whose saved
    outfits are an outfit of id 7 and a [null], one whose [topwear] is a
    number. *)
Definition holed : state :=
  importWardrobe (H := browser)
    (print_json 0 0
       (JObj [("savedOutfits", JArr [JObj [("id", JNum 7)]; JNull])])) wardrobe.

Definition odd : state :=
  importWardrobe (H := browser)
    (print_json 0 0 (JObj [("topwear", JNum 5)])) wardrobe.


Definition reopened : state :=
  set_localStorage (localStorage (saveToLocalStorage (H := browser) saved))
    initial_state.



(** Two draws: the double next below 2/3, whose product with 3 rounds to 2
    in binary64, and one half. *)
Definition below_two_thirds : draw := mkDraw 6004799503160661 53.
Definition half : draw := mkDraw 1 1.

(** Draws at which rounding matters or might: next to a multiple of one
    n-th, at both ends of the range, and among the subnormal numbers. *)
Definition draws : list (draw * nat) :=
  [(below_two_thirds, 3%nat); (mkDraw 3752999689475413 52, 6%nat);
   (mkDraw 6004799503160661 54, 3%nat); (half, 2%nat); (half, 5%nat);
   (mkDraw 1 1074, 5%nat); (mkDraw 9007199254740991 53, 7%nat);
   (mkDraw 9007199254740991 53, 4096%nat); (mkDraw 4503599627370496 53, 2%nat);
   (mkDraw 0 0, 3%nat); (mkDraw 123456789 60, 1000%nat);
   (mkDraw 9007199254740991 1074, 1000%nat); (mkDraw 3002399751580331 53, 3%nat);
   (mkDraw 3002399751580330 53, 3%nat); (mkDraw 9007199254740990 53, 3%nat)].

(** A session on a new page, with the render calls of its handlers. *)
Definition evening : list Rendered.action :=
  [Rendered.BulkImport batch "topwear";
   Rendered.AddItem (Some photo) "Acme" "Trousers" "bottomwear" "";
   Rendered.Shuffle below_two_thirds half; Rendered.SaveOutfit; Rendered.SelectTop 0;
   Rendered.LoadSavedOutfit 1700000000006; Rendered.RemoveOutfit 5; Rendered.Export;
   Rendered.Clear false].

End Demo.

(** Unfolds the updates of [app] and of the page. *)
Ltac unfold_updates :=
  unfold printable, printable_in, selectTop, selectBottom, showNotification, tick,
    set_app, set_heap, set_localStorage, set_topwear, set_bottomwear,
    set_selectedTop, set_selectedBottom, set_savedOutfits in *;
  simpl in *.

(** ** Documents and the store: general facts *)

(** Induction on values and documents that goes through the lists. *)
Lemma value_ind' (P : value → Prop) :
  P VUndef → P VNull → (∀ b, P (VBool b)) → (∀ n, P (VNum n)) → (∀ s, P (VStr s)) →
  (∀ vs, Forall P vs → P (VArr vs)) → (∀ l, P (VRef l)) → ∀ v, P v.
Proof.
  intros HU HN HB HZ HS HA HR.
  fix IH 1. intros [| |b|n|s|vs|l].
  - exact HU.
  - exact HN.
  - apply HB.
  - apply HZ.
  - apply HS.
  - apply HA. induction vs as [|v vs IHvs]; constructor; [apply IH|exact IHvs].
  - apply HR.
Qed.

Lemma json_ind' (P : json → Prop) :
  P JNull → (∀ b, P (JBool b)) → (∀ n, P (JNum n)) → (∀ s, P (JStr s)) →
  (∀ js, Forall P js → P (JArr js)) →
  (∀ ps, Forall (λ p, P p.2) ps → P (JObj ps)) → ∀ j, P j.
Proof.
  intros HN HB HZ HS HA HO.
  fix IH 1. intros [|b|n|s|js|ps].
  - exact HN.
  - apply HB.
  - apply HZ.
  - apply HS.
  - apply HA. induction js as [|j js IHjs]; constructor; [apply IH|exact IHjs].
  - apply HO. induction ps as [|[k j] ps IHps]; constructor; [apply IH|exact IHps].
Qed.

Lemma to_json_fuel_unfold fuel h v :
  to_json_fuel fuel h v =
    match v with
    | VUndef | VNull => Some JNull
    | VBool b => Some (JBool b)
    | VNum n => Some (JNum n)
    | VStr s => Some (JStr s)
    | VArr vs => JArr <$> mapM (to_json_fuel fuel h) vs
    | VRef l =>
        match fuel with
        | O => None
        | S n => o ← h !! l; JObj <$> props_to_json (to_json_fuel n h) o
        end
    end.
Proof. destruct fuel, v; reflexivity. Qed.

Lemma props_to_json_ext (f g : value → option json) (o : object) js :
  Forall (λ p, ∀ j, f p.2 = Some j → g p.2 = Some j) o →
  props_to_json f o = Some js → props_to_json g o = Some js.
Proof.
  intros Hall. revert js. induction Hall as [|[k v] o Hv _ IH]; intros js; [done|].
  simpl in *. destruct v; try apply IH;
    (destruct (f _) as [j|] eqn:Hf; [|done]; rewrite (Hv j eq_refl); simpl;
     destruct (props_to_json f o) as [js'|]; [|done]; by rewrite (IH js' eq_refl)).
Qed.

Lemma mapM_ext_Some {A B} (f g : A → option B) (l : list A) k :
  Forall (λ x, ∀ y, f x = Some y → g x = Some y) l →
  mapM f l = Some k → mapM g l = Some k.
Proof.
  intros Hall Hf. apply mapM_Some. apply mapM_Some in Hf.
  induction Hf; inversion Hall; subst; constructor; auto.
Qed.

(** More fuel and more objects in the store do not change a document. *)
Lemma to_json_fuel_mono n m (h h' : gmap loc object) v j :
  (n ≤ m)%nat → h ⊆ h' → to_json_fuel n h v = Some j → to_json_fuel m h' v = Some j.
Proof.
  intros Hnm Hh. revert m Hnm v j.
  induction n as [|n IHn]; intros m Hnm v; induction v using value_ind'; intros j;
    rewrite !to_json_fuel_unfold; try done.
  - destruct (mapM _ vs) as [js|] eqn:Hjs; [|done]. intros [= <-].
    erewrite mapM_ext_Some; [done| |exact Hjs].
    eapply Forall_impl; [exact H|]. naive_solver.
  - destruct (mapM _ vs) as [js|] eqn:Hjs; [|done]. intros [= <-].
    erewrite mapM_ext_Some; [done| |exact Hjs].
    eapply Forall_impl; [exact H|]. naive_solver.
  - destruct m as [|m]; [lia|].
    destruct (h !! l) as [o|] eqn:Hl; [|done].
    rewrite (lookup_weaken _ _ _ _ Hl Hh). simpl.
    destruct (props_to_json _ o) as [js|] eqn:Hjs; [|done]. intros [= <-].
    erewrite props_to_json_ext; [done| |exact Hjs].
    apply Forall_forall. intros p _ j' Hj'. apply IHn; [lia|done].
Qed.

Lemma to_json_mono (h h' : gmap loc object) v j :
  h ⊆ h' → to_json h v = Some j → to_json h' v = Some j.
Proof.
  intros Hh. apply to_json_fuel_mono; [|done].
  apply le_n_S. by apply map_subseteq_size.
Qed.

Lemma alloc_fresh (h : gmap loc object) o l h' :
  alloc h o = (l, h') → h !! l = None ∧ h' = <[l := o]> h.
Proof.
  unfold alloc. intros [= <- <-]. split; [|done].
  apply not_elem_of_dom. apply is_fresh.
Qed.

Lemma alloc_subseteq (h : gmap loc object) o l h' :
  alloc h o = (l, h') → h ⊆ h'.
Proof. intros [Hl ->]%alloc_fresh. by apply insert_subseteq. Qed.

Lemma props_to_json_Forall2 (f : value → option json) (o : object) ps :
  Forall2 (λ kv p, kv.1 = p.1 ∧ kv.2 ≠ VUndef ∧ f kv.2 = Some p.2) o ps →
  props_to_json f o = Some ps.
Proof.
  induction 1 as [|[k v] [k' j] o ps (Hk & Hv & Hf) _ IH]; [done|].
  simpl in *. subst k'. rewrite Hf, IH. by destruct v.
Qed.

(** [JSON.parse] only adds objects to the store, and the value it builds
    prints as the document it was built from. *)
Lemma from_json_spec j :
  ∀ h v h', from_json j h = (v, h') → h ⊆ h' ∧ v ≠ VUndef ∧ to_json h' v = Some j.
Proof.
  induction j as [|b|n|s|js IH|ps IH] using json_ind'; intros h v h'; simpl;
    try (intros [= <- <-]; done).
  - destruct (build_list from_json js h) as [vs h1] eqn:Hb. intros [= <- <-].
    assert (h ⊆ h1 ∧ Forall2 (λ v j, to_json h1 v = Some j) vs js) as [Hsub Hall].
    { clear -IH Hb. revert h vs h1 Hb.
      induction IH as [|j js Hj _ IHjs]; intros h vs h2; simpl.
      - intros [= <- <-]. by split.
      - destruct (from_json j h) as [v ha] eqn:Hv.
        destruct (build_list from_json js ha) as [vs' hb] eqn:Hvs.
        intros [= <- <-].
        destruct (Hj _ _ _ Hv) as (Hs1 & _ & Hj1).
        destruct (IHjs _ _ _ Hvs) as [Hs2 Hall].
        split; [by etrans|]. constructor; [|done].
        by eapply to_json_mono. }
    split; [done|]. split; [done|].
    unfold to_json in *. rewrite to_json_fuel_unfold.
    apply mapM_Some in Hall. by rewrite Hall.
  - destruct (build_list _ ps h) as [o h1] eqn:Hb.
    intros [= <- <-].
    assert (h ⊆ h1 ∧
            Forall2 (λ kv p, kv.1 = p.1 ∧ kv.2 ≠ VUndef ∧ to_json h1 kv.2 = Some p.2) o ps)
      as [Hsub Hall].
    { clear -IH Hb. revert h o h1 Hb.
      induction IH as [|[k j] ps Hj _ IHps]; intros h o h2; simpl.
      - intros [= <- <-]. by split.
      - destruct (from_json j h) as [v ha] eqn:Hv.
        destruct (build_list _ ps ha) as [o' hb] eqn:Ho.
        intros [= <- <-].
        destruct (Hj _ _ _ Hv) as (Hs1 & Hne & Hj1).
        destruct (IHps _ _ _ Ho) as [Hs2 Hall].
        split; [by etrans|]. constructor; [|done].
        repeat split; [done|]. by eapply to_json_mono. }
    set (l := fresh (dom h1)).
    assert (h1 !! l = None) as Hl by (apply not_elem_of_dom, is_fresh).
    assert (h1 ⊆ <[l := o]> h1) as Hsub2 by (by apply insert_subseteq).
    split; [by etrans|]. split; [done|].
    unfold to_json. rewrite to_json_fuel_unfold, lookup_insert_eq. simpl.
    rewrite map_size_insert_None by done.
    erewrite props_to_json_Forall2; [done|].
    eapply Forall2_impl; [exact Hall|].
    intros kv p (? & ? & Hj). repeat split; [done..|].
    eapply to_json_fuel_mono; [| |exact Hj]; done.
Qed.

(** The object [JSON.parse] builds for a JSON object: a new one, whose
    properties are those of the document, in order. *)
Lemma from_json_object (ps : list (string * json)) (h : gmap loc object) :
  ∃ o l h1,
    from_json (JObj ps) h = (VRef l, <[l := o]> h1) ∧
    h ⊆ h1 ∧ h1 !! l = None ∧
    Forall2 (λ kv p, kv.1 = p.1 ∧ kv.2 ≠ VUndef ∧ to_json h1 kv.2 = Some p.2) o ps.
Proof.
  simpl.
  destruct (build_list _ ps h) as [o h1] eqn:Hb.
  exists o, (fresh (dom h1)), h1. split; [done|].
  assert (h ⊆ h1 ∧
          Forall2 (λ kv p, kv.1 = p.1 ∧ kv.2 ≠ VUndef ∧ to_json h1 kv.2 = Some p.2) o ps)
    as [Hsub Hall].
  { revert h o h1 Hb. induction ps as [|[k j] ps IHps]; intros h o h2; simpl.
    - intros [= <- <-]. by split.
    - destruct (from_json j h) as [v ha] eqn:Hv.
      destruct (build_list _ ps ha) as [o' hb] eqn:Ho.
      intros [= <- <-].
      destruct (from_json_spec _ _ _ _ Hv) as (Hs1 & Hne & Hj1).
      destruct (IHps _ _ _ Ho) as [Hs2 Hall].
      split; [by etrans|]. constructor; [|done].
      repeat split; [done|]. by eapply to_json_mono. }
  repeat split; [done| |done].
  apply not_elem_of_dom, is_fresh.
Qed.

Lemma assoc_Forall2 {A B} (R : A → B → Prop) (k : string)
    (o : list (string * A)) (ps : list (string * B)) :
  Forall2 (λ kv p, kv.1 = p.1 ∧ R kv.2 p.2) o ps →
  match assoc k o, assoc k ps with
  | Some v, Some j => R v j
  | None, None => True
  | _, _ => False
  end.
Proof.
  induction 1 as [|[k1 v] [k2 j] o ps [Hk HR] _ IH]; simpl in *; [done|].
  subst k2. by destruct (String.eqb k k1).
Qed.

(** Only an array prints as a JSON array. *)
Lemma to_json_JArr_inv (h : gmap loc object) v js :
  to_json h v = Some (JArr js) → v ≠ VUndef → ∃ vs, v = VArr vs.
Proof.
  unfold to_json. rewrite to_json_fuel_unfold.
  destruct v as [| |b|n|s|vs|l]; try done; [by eexists|].
  destruct (h !! l) as [o|]; simpl; [|done].
  by destruct (props_to_json _ o).
Qed.

(** The two ways [validateImageFile] ends. *)
Lemma validateImageFile_cases (file : File) (s : state) :
  let accepted :=
    (f_type file = "image/jpeg" ∨ f_type file = "image/png") ∧
    f_size file ≤ 5 * 1024 * 1024 in
  (validateImageFile file s = (true, s) ∧ accepted) ∨
  (∃ message,
     validateImageFile file s = (false, showNotification message "error" s) ∧ ¬ accepted).
Proof.
  assert (Htype : f_type file ∈ validTypes ↔
                  f_type file = "image/jpeg" ∨ f_type file = "image/png").
  { unfold validTypes. rewrite !elem_of_cons, elem_of_nil. tauto. }
  unfold validateImageFile, MAX_IMAGE_SIZE. simpl.
  case_bool_decide as Ht; simpl.
  - destruct (Z.ltb_spec (5 * 1024 * 1024) (f_size file)) as [Hlt|Hle].
    + right. eexists. split; [done|]. intros [_ ?]. lia.
    + left. split; [done|]. split; [tauto|done].
  - right. eexists. split; [done|]. tauto.
Qed.

(** A property read off an object built by [JSON.parse]: absent from the
    document, it reads as [[]] under [|| []]; present, it is a value that
    prints as its document. *)
Lemma parsed_object_field (ps : list (string * json)) (o : object) (l : loc)
    (h1 : gmap loc object) (k : string) :
  Forall2 (λ kv p, kv.1 = p.1 ∧ kv.2 ≠ VUndef ∧ to_json h1 kv.2 = Some p.2) o ps →
  h1 !! l = None →
  match assoc k ps with
  | None => field_or_empty (<[l := o]> h1) (VRef l) k = VArr []
  | Some j =>
      ∃ v, field_or_empty (<[l := o]> h1) (VRef l) k = js_or v (VArr []) ∧
           v ≠ VUndef ∧ to_json (<[l := o]> h1) v = Some j
  end.
Proof.
  intros Hall Hl.
  pose proof (assoc_Forall2 (λ v j, v ≠ VUndef ∧ to_json h1 v = Some j) k o ps Hall) as Hk.
  unfold field_or_empty. cbn [get_prop]. rewrite lookup_insert_eq.
  destruct (assoc k o) as [v|], (assoc k ps) as [j|]; try done.
  destruct Hk as [Hne Hj]. exists v. repeat split; [done|].
  eapply to_json_mono; [|done]. by apply insert_subseteq.
Qed.



#[local] Arguments field_or_empty : simpl never.
#[local] Arguments to_json : simpl never.

Section Saving.

Context `{Browser}.

(** What [saveToLocalStorage] does, case by case. *)
Lemma saveToLocalStorage_cases (s : state) :
  match literal_to_json (heap s) (saved_data s) with
  | None => saveToLocalStorage s = showNotification save_error_message "error" (tick s)
  | Some data =>
      match setItem_error (JSON_stringify 0 data) with
      | None =>
          saveToLocalStorage s = set_localStorage (Some (JSON_stringify 0 data)) (tick s)
      | Some name =>
          saveToLocalStorage s =
            showNotification
              (if String.eqb name "QuotaExceededError"
               then quota_message else save_error_message) "error" (tick s)
      end
  end.
Proof.
  unfold saveToLocalStorage, saved_data. simpl.
  destruct (literal_to_json _ _) as [data|]; [|done].
  destruct (setItem_error _) as [name|]; [|done].
  by destruct (String.eqb name _).
Qed.

(** A save never touches [app] or the objects. *)
Lemma saveToLocalStorage_memory (s : state) :
  app (saveToLocalStorage s) = app s ∧ heap (saveToLocalStorage s) = heap s.
Proof.
  pose proof (saveToLocalStorage_cases s) as Hs.
  destruct (literal_to_json _ _) as [data|]; [|by rewrite Hs].
  destruct (setItem_error _) as [name|]; by rewrite Hs.
Qed.


(** What the import handler does, case by case: a text that does not parse
    and the document [null] end in the error toast with nothing changed;
    every other document is assigned and saved. *)
Lemma importWardrobe_cases (text : string) (s : state) :
  match JSON_parse text with
  | None | Some JNull =>
      importWardrobe text s = showNotification "✗ Error importing config" "error" s
  | Some j =>
      importWardrobe text s =
        showNotification "✓ Wardrobe imported successfully!" "success"
          (saveToLocalStorage
             (set_app (assigned (from_json j (heap s)).2 (from_json j (heap s)).1 (app s))
                (set_heap (from_json j (heap s)).2 s)))
  end.
Proof.
  unfold importWardrobe.
  destruct (JSON_parse text) as [j|]; [|done].
  destruct j as [|b|n|str|js|ps].
  - by destruct s.
  - done.
  - done.
  - done.
  - simpl. by destruct (build_list from_json js (heap s)).
  - destruct (from_json_object ps (heap s)) as (o & l & h1 & -> & _).
    unfold assigned, field_or_empty.
    cbn [get_prop heap set_heap set_app app fst snd].
    rewrite !lookup_insert_eq. done.
Qed.

(** What [loadFromLocalStorage] does, case by case. *)
Lemma loadFromLocalStorage_cases (s : state) :
  match localStorage s with
  | None => loadFromLocalStorage s = (false, s)
  | Some stored =>
      if truthy (VStr stored) then
        match JSON_parse stored with
        | None | Some JNull =>
            loadFromLocalStorage s =
              (false, showNotification "✗ Error loading saved data" "error" s)
        | Some j =>
            loadFromLocalStorage s =
              (true,
               set_app (assigned (from_json j (heap s)).2 (from_json j (heap s)).1 (app s))
                 (set_heap (from_json j (heap s)).2 s))
        end
      else loadFromLocalStorage s = (false, s)
  end.
Proof.
  unfold loadFromLocalStorage.
  destruct (localStorage s) as [stored|]; [|done].
  destruct (truthy (VStr stored)); [|done].
  destruct (JSON_parse stored) as [j|]; [|done].
  destruct j as [|b|n|str|js|ps].
  - by destruct s.
  - done.
  - done.
  - done.
  - simpl. by destruct (build_list from_json js (heap s)).
  - destruct (from_json_object ps (heap s)) as (o & l & h1 & -> & _).
    unfold assigned, field_or_empty.
    cbn [get_prop heap set_heap set_app app fst snd].
    rewrite !lookup_insert_eq. done.
Qed.

End Saving.

Section Bulk.

Context `{Browser}.

Lemma validateImageFile_frame (file : File) (s : state) :
  (validateImageFile file s).1 = accepted file ∧
  app (validateImageFile file s).2 = app s ∧
  heap (validateImageFile file s).2 = heap s ∧
  localStorage (validateImageFile file s).2 = localStorage s ∧
  ticks (validateImageFile file s).2 = ticks s.
Proof.
  unfold validateImageFile, accepted.
  destruct (bool_decide _); [|done]. simpl.
  by destruct (MAX_IMAGE_SIZE <? f_size file).
Qed.

Lemma set_collection_id (category : string) (a : App) :
  set_collection category (collection category a) a = a.
Proof. unfold set_collection, collection. by destruct (String.eqb _ _), a. Qed.

Lemma set_collection_twice (category : string) (v w : value) (a : App) :
  set_collection category w (set_collection category v a) = set_collection category w a.
Proof. unfold set_collection. by destruct (String.eqb _ _). Qed.

Lemma collection_set_collection (category : string) (v : value) (a : App) :
  collection category (set_collection category v a) = v.
Proof. unfold set_collection, collection. by destruct (String.eqb _ _). Qed.

Lemma push_item_array (category : string) (item : value) (s : state) (old : list value) :
  collection category (app s) = VArr old →
  push_item category item s =
    Some (set_app (set_collection category (VArr (old ++ [item])) (app s)) s).
Proof.
  unfold push_item, collection, set_collection.
  destruct (String.eqb _ _); by intros ->.
Qed.

Lemma imported_length (i : nat) (files : list File) (tk : nat) :
  length (imported i files tk) = length (filter (λ f, imports f = true) files) ∧
  (length (imported i files tk) ≤ length files)%nat.
Proof.
  revert i tk. induction files as [|file files IH]; intros i tk; [done|].
  destruct (IH (S i) tk) as [E1 L1], (IH (S i) (S (S tk))) as [E2 L2].
  simpl. rewrite filter_cons.
  case_decide as Himp; unfold imports in Himp;
    destruct (f_dataURL file), (accepted file); simpl in *; try done; split; lia.
Qed.

(** The loop on an array: the objects of the files that pass validation and
    are read are made and appended, in order; every file is counted once. *)
Lemma bulkImport_loop_spec (category : string) (files : list File) :
  ∀ i successCount failCount s old,
    collection category (app s) = VArr old →
    ∃ new s',
      bulkImport_loop category i files successCount failCount s =
        ((successCount + length new)%nat,
         (failCount + (length files - length new))%nat, s') ∧
      app s' = set_collection category (VArr (old ++ new)) (app s) ∧
      heap s ⊆ heap s' ∧
      localStorage s' = localStorage s ∧
      Forall2 (λ v o, ∃ l, v = VRef l ∧ heap s' !! l = Some o)
        new (imported i files (ticks s)).
Proof.
  induction files as [|file files IH]; intros i sc fc s old Hold.
  - exists [], s. simpl. rewrite !Nat.add_0_r, app_nil_r, <- Hold, set_collection_id.
    repeat split; done.
  - simpl.
    destruct (validateImageFile_frame file s) as (Hv & Ha & Hh & Hl & Ht).
    destruct (validateImageFile file s) as [valid s1]. simpl in *. subst valid.
    assert (collection category (app s1) = VArr old) as Hold1 by (by rewrite Ha).
    assert (∀ new s',
      bulkImport_loop category (S i) files sc (S fc) s1 =
        ((sc + length new)%nat, (S fc + (length files - length new))%nat, s') →
      Forall2 (λ v o, ∃ l, v = VRef l ∧ heap s' !! l = Some o)
        new (imported (S i) files (ticks s1)) →
      bulkImport_loop category (S i) files sc (S fc) s1 =
        ((sc + length new)%nat, (fc + (S (length files) - length new))%nat, s')) as Hskip.
    { intros new s' -> Hall. apply Forall2_length in Hall.
      destruct (imported_length (S i) files (ticks s1)) as [_ Hle].
      do 2 f_equal. lia. }
    destruct (accepted file) eqn:Hacc; simpl.
    + destruct (f_dataURL file) as [img|] eqn:Himg.
      * set (l := fresh (dom (heap s1))).
        assert (heap s1 !! l = None) as Hfresh by (apply not_elem_of_dom, is_fresh).
        erewrite push_item_array; [|exact Hold1].
        match goal with |- context [bulkImport_loop _ _ _ _ _ ?s4] =>
          destruct (IH (S i) (S sc) fc s4 (old ++ [VRef l])%list) as (new & s' & Hloop & Happ & Hsub & Hls & Hall)
        end.
        { simpl. by rewrite collection_set_collection. }
        exists (VRef l :: new), s'. simpl in *.
        rewrite Hloop. rewrite <- (assoc_L (++)) in Happ. simpl in Happ.
        rewrite set_collection_twice, Ha in Happ.
        repeat split.
        -- f_equal. f_equal; lia.
        -- done.
        -- rewrite <- Hh. etrans; [|exact Hsub]. by apply insert_subseteq.
        -- by rewrite Hls.
        -- rewrite <- Ht. constructor; [|done].
           exists l. split; [done|].
           eapply lookup_weaken; [|exact Hsub]. by rewrite lookup_insert_eq.
      * destruct (IH (S i) sc (S fc) s1 old Hold1) as (new & s' & Hloop & Happ & Hsub & Hls & Hall).
        exists new, s'. rewrite <- Ht, <- Ha, <- Hh, <- Hl. repeat split; try done.
        by apply Hskip.
    + destruct (IH (S i) sc (S fc) s1 old Hold1) as (new & s' & Hloop & Happ & Hsub & Hls & Hall).
      exists new, s'. rewrite <- Ht, <- Ha, <- Hh, <- Hl.
      assert (imported (S i) files (ticks s1) =
              match f_dataURL file with
              | Some _ => imported (S i) files (ticks s1)
              | None => imported (S i) files (ticks s1)
              end) as <- by (by destruct (f_dataURL file)).
      repeat split; try done. by apply Hskip.
Qed.

End Bulk.

Section Sessions.

Context `{Browser}.



(** With a clock that never goes back, the ids of a batch are at least the
    first possible one and pairwise distinct. *)
Lemma imported_ids (i : nat) (files : list File) (tk : nat) :
  (∀ j k, (j ≤ k)%nat → clock j ≤ clock k) →
  ∃ ids,
    Forall2 (λ o id, assoc "id" o = Some (VNum id)) (imported i files tk) ids ∧
    Forall (λ id, clock tk + Z.of_nat i ≤ id) ids ∧
    NoDup ids.
Proof.
  intros Hmono. revert i tk.
  induction files as [|file files IH]; intros i tk.
  { exists []. repeat split; constructor. }
  simpl.
  destruct (IH (S i) tk) as (ids1 & Hall1 & Hlow1 & Hnd1).
  destruct (IH (S i) (S (S tk))) as (ids2 & Hall2 & Hlow2 & Hnd2).
  assert (Forall (λ id, clock tk + Z.of_nat i ≤ id) ids1) as Hlow1'.
  { eapply Forall_impl; [exact Hlow1|]. simpl. intros. lia. }
  destruct (f_dataURL file) as [img|]; [|by exists ids1].
  destruct (accepted file); [|by exists ids1].
  pose proof (Hmono tk (S (S tk)) ltac:(lia)) as Htk.
  exists ((clock tk + Z.of_nat i) :: ids2). repeat split.
  - by constructor.
  - constructor; [lia|]. eapply Forall_impl; [exact Hlow2|]. simpl. intros. lia.
  - constructor; [|done]. intros Hin.
    rewrite Forall_forall in Hlow2. apply Hlow2 in Hin. lia.
Qed.

Lemma push_item_heap (category : string) (item : value) (s s' : state) :
  push_item category item s = Some s' → heap s' = heap s.
Proof.
  unfold push_item.
  destruct (String.eqb _ _);
    [destruct (push (topwear (app s)) item)|destruct (push (bottomwear (app s)) item)];
    simpl; intros [= <-]; done.
Qed.

(** No function of the script writes to an object: the store only grows. *)
Lemma bulkImport_loop_heap (category : string) (files : list File) :
  ∀ i successCount failCount s,
    heap s ⊆ heap (bulkImport_loop category i files successCount failCount s).2.
Proof.
  induction files as [|file files IH]; intros i sc fc s; [done|].
  simpl.
  destruct (validateImageFile_frame file s) as (_ & _ & Hh & _).
  destruct (validateImageFile file s) as [valid s1]. simpl in Hh. rewrite <- Hh.
  destruct valid; simpl; [|apply IH].
  destruct (f_dataURL file) as [img|]; [|apply IH].
  set (l := fresh (dom (heap s1))).
  assert (heap s1 ⊆ <[l := (newItem i file img s1).1]> (heap s1)) as Hsub.
  { apply insert_subseteq, not_elem_of_dom, is_fresh. }
  simpl in Hsub. fold l in Hsub.
  destruct (push_item _ _ _) as [s4|] eqn:Hpush.
  - etrans; [exact Hsub|]. etrans; [|apply IH].
    by rewrite (push_item_heap _ _ _ _ Hpush).
  - etrans; [exact Hsub|]. etrans; [|apply IH]. done.
Qed.

Lemma perform_heap (a : action) (s : state) : heap s ⊆ heap (perform a s).
Proof.
  destruct a as [imageFile brand productName category shoppingLink|files category
                |i|i|r1 r2| |outfitId|outfitId| |text| |confirmed]; simpl.
  - unfold addItem. destruct imageFile as [file|]; [|done].
    destruct (_ || _); [done|].
    destruct (validateImageFile_frame file s) as (_ & _ & Hh & _).
    destruct (validateImageFile file s) as [valid s1]. simpl in Hh. rewrite <- Hh.
    destruct valid; simpl; [|done].
    destruct (f_dataURL file) as [img|]; [|done]. simpl.
    match goal with |- context [set_heap (<[?l := ?o]> _) _] =>
      assert (heap s1 ⊆ <[l := o]> (heap s1)) as Hsub
        by apply insert_subseteq, not_elem_of_dom, is_fresh end.
    destruct (push_item _ _ _) as [s5|] eqn:Hpush; [|done]. simpl.
    destruct (saveToLocalStorage_memory s5) as [_ ->].
    by rewrite (push_item_heap _ _ _ _ Hpush).
  - unfold bulkImportImages. destruct (_ =? _)%nat; [done|].
    pose proof (bulkImport_loop_heap category files 0 0 0 s) as Hloop.
    destruct (bulkImport_loop _ _ _ _ _ _) as [[sc fc] s1]. simpl in *.
    by destruct (saveToLocalStorage_memory s1) as [_ ->].
  - by destruct (thumbnail _ _).
  - by destruct (thumbnail _ _).
  - unfold shuffleOutfit.
    destruct (topwear (app s)) as [| | | | |tops|]; try done.
    destruct (length tops =? 0)%nat; [done|].
    destruct (bottomwear (app s)) as [| | | | |bottoms|]; try done.
    by destruct (length bottoms =? 0)%nat.
  - unfold saveOutfit. destruct (_ || _); [done|]. simpl.
    assert (heap s ⊆ <[fresh (dom (heap s)) :=
              [("id", VNum (clock (ticks s))); ("top", selectedTop (app s));
               ("bottom", selectedBottom (app s))]]> (heap s)) as Hsub.
    { apply insert_subseteq, not_elem_of_dom, is_fresh. }
    destruct (push _ _); simpl; [|done].
    match goal with |- context [saveToLocalStorage ?s2] =>
      destruct (saveToLocalStorage_memory s2) as [_ ->] end. done.
  - unfold removeOutfit. destruct (savedOutfits (app s)); try done.
    destruct (filter_outfits _ _ _); [|done]. simpl.
    match goal with |- context [saveToLocalStorage ?s2] =>
      destruct (saveToLocalStorage_memory s2) as [_ ->] end. done.
  - unfold loadSavedOutfit. destruct (savedOutfits (app s)); try done.
    destruct (find_outfit _ _ _) as [outfit|]; [|done].
    destruct (truthy outfit); [|done].
    destruct (get_prop (heap s) outfit "top"); [|done]. simpl.
    by destruct (get_prop (heap s) outfit "bottom").
  - unfold exportWardrobe. simpl. by destruct (literal_to_json _ _).
  - pose proof (importWardrobe_cases text s) as Himp.
    destruct (JSON_parse text) as [j|]; [|by rewrite Himp].
    assert (heap s ⊆ (from_json j (heap s)).2) as Hsub.
    { destruct (from_json j (heap s)) as [v h1] eqn:Hj.
      by destruct (from_json_spec _ _ _ _ Hj). }
    destruct j; rewrite Himp; try done; simpl;
      match goal with |- context [saveToLocalStorage ?s2] =>
        by destruct (saveToLocalStorage_memory s2) as [_ ->] end.
  - pose proof (loadFromLocalStorage_cases s) as Hload.
    destruct (localStorage s) as [stored|]; [|by rewrite Hload].
    destruct (truthy (VStr stored)); [|by rewrite Hload].
    destruct (JSON_parse stored) as [j|]; [|by rewrite Hload].
    assert (heap s ⊆ (from_json j (heap s)).2) as Hsub.
    { destruct (from_json j (heap s)) as [v h1] eqn:Hj.
      by destruct (from_json_spec _ _ _ _ Hj). }
    destruct j; rewrite Hload; done.
  - by destruct confirmed.
Qed.

Lemma run_heap (actions : list action) (s : state) : heap s ⊆ heap (run actions s).
Proof.
  revert s. induction actions as [|a actions IH]; intros s; [done|].
  simpl. etrans; [apply perform_heap|apply IH].
Qed.

(** *** Every page of a session prints *)

Lemma to_json_is_Some_mono (h h' : gmap loc object) (v : value) :
  h ⊆ h' → is_Some (to_json h v) → is_Some (to_json h' v).
Proof. intros Hsub [j Hj]. exists j. by eapply to_json_mono. Qed.

Lemma printable_in_mono (h h' : gmap loc object) (a : App) :
  h ⊆ h' → printable_in h a → printable_in h' a.
Proof.
  intros Hsub (? & ? & ? & ? & ?).
  repeat split; by eapply to_json_is_Some_mono.
Qed.

Lemma to_json_array (h : gmap loc object) (vs : list value) :
  is_Some (to_json h (VArr vs)) ↔ Forall (λ v, is_Some (to_json h v)) vs.
Proof.
  unfold to_json. rewrite to_json_fuel_unfold.
  rewrite fmap_is_Some, mapM_is_Some. done.
Qed.

Lemma props_to_json_is_Some (f : value → option json) (o : object) :
  Forall (λ kv, is_Some (f kv.2)) o → is_Some (props_to_json f o).
Proof.
  induction 1 as [|[k v] o [j Hj] _ [js IH]]; [by eexists|].
  simpl in *. rewrite IH, Hj. destruct v; by eexists.
Qed.

Lemma props_to_json_lookup (f : value → option json) (o : object) ps k v :
  props_to_json f o = Some ps → assoc k o = Some v → v = VUndef ∨ is_Some (f v).
Proof.
  revert ps. induction o as [|[k' v'] o IH]; intros ps; [done|]. simpl.
  assert (∀ w, w = v' →
            (j ← f w; js ← props_to_json f o; Some ((k', j) :: js)) = Some ps →
            is_Some (f v') ∧ is_Some (props_to_json f o)) as Hbind.
  { intros w -> Hps. destruct (f v'); [|done]. simpl in Hps.
    destruct (props_to_json f o); [|done]. split; by eexists. }
  destruct (String.eqb k k').
  - intros Hps [= ->]. destruct v; auto; right; by apply (Hbind _ eq_refl Hps).
  - intros Hps Hk.
    destruct v'; [by eapply IH|..];
      (destruct (Hbind _ eq_refl Hps) as [_ [js Hjs]]; by eapply IH).
Qed.

(** A new object whose properties print, prints. *)
Lemma to_json_new_object (h : gmap loc object) (l : loc) (o : object) :
  h !! l = None →
  Forall (λ kv, is_Some (to_json h kv.2)) o →
  is_Some (to_json (<[l := o]> h) (VRef l)).
Proof.
  intros Hl Hall. unfold to_json. rewrite to_json_fuel_unfold, lookup_insert_eq.
  simpl. rewrite map_size_insert_None by done. rewrite fmap_is_Some.
  apply props_to_json_is_Some. eapply Forall_impl; [exact Hall|].
  intros kv [j Hj]. exists j.
  eapply to_json_fuel_mono; [| |exact Hj]; [done|by apply insert_subseteq].
Qed.

(** What is read off a value that prints, prints. *)
Lemma to_json_get_prop (h : gmap loc object) (v x : value) (k : string) :
  is_Some (to_json h v) → get_prop h v k = Some x → is_Some (to_json h x).
Proof.
  intros [j Hj].
  destruct v as [| |b|n|str|vs|l]; simpl; try (intros [= <-]; by eexists).
  unfold to_json in Hj. rewrite to_json_fuel_unfold in Hj.
  destruct (h !! l) as [o|]; [|done]. simpl in Hj. intros [= <-].
  destruct (props_to_json _ o) as [ps|] eqn:Hps; [|done].
  destruct (assoc k o) as [x|] eqn:Hk; [|by eexists].
  destruct (props_to_json_lookup _ _ _ _ _ Hps Hk) as [-> | [jx Hx]]; [by eexists|].
  exists jx. simpl. eapply to_json_fuel_mono; [| |exact Hx]; [lia|done].
Qed.

Lemma printable_push_item (category : string) (item : value) (s s' : state) :
  printable s → is_Some (to_json (heap s) item) →
  push_item category item s = Some s' → printable s'.
Proof.
  intros (Ht & Hb & Hst & Hsb & Ho) Hitem. unfold push_item, push, printable.
  destruct (String.eqb _ _).
  - destruct (topwear (app s)) as [| | | | |tops|] eqn:Htops; try done.
    simpl. intros [= <-]. simpl. repeat split; try done.
    apply to_json_array, Forall_app. split; [by apply to_json_array|by constructor].
  - destruct (bottomwear (app s)) as [| | | | |bottoms|] eqn:Hbottoms; try done.
    simpl. intros [= <-]. simpl. repeat split; try done.
    apply to_json_array, Forall_app. split; [by apply to_json_array|by constructor].
Qed.

Lemma printable_alloc (s : state) (o : object) :
  printable s →
  Forall (λ kv, is_Some (to_json (heap s) kv.2)) o →
  printable (set_heap (alloc (heap s) o).2 s) ∧
  is_Some (to_json (alloc (heap s) o).2 (VRef (alloc (heap s) o).1)).
Proof.
  intros Hs Ho. unfold alloc. simpl.
  assert (heap s !! fresh (dom (heap s)) = None) as Hl
    by apply not_elem_of_dom, is_fresh.
  split; [|by apply to_json_new_object].
  unfold printable. simpl. eapply printable_in_mono; [|exact Hs].
  by apply insert_subseteq.
Qed.

Lemma primitive_prints (h : gmap loc object) (v : value) :
  match v with VArr _ | VRef _ => False | _ => True end → is_Some (to_json h v).
Proof. destruct v; try done; by eexists. Qed.

Lemma printable_eq (s s' : state) :
  app s' = app s → heap s' = heap s → printable s → printable s'.
Proof. unfold printable. by intros -> ->. Qed.

Lemma printable_saveToLocalStorage (s : state) :
  printable s → printable (saveToLocalStorage s).
Proof.
  destruct (saveToLocalStorage_memory s) as [Ha Hh]. by apply printable_eq.
Qed.

(** A new object is made and pushed to a collection. *)
Lemma printable_new_item (category : string) (o : object) (s s2 : state) :
  printable s → app s2 = app s → heap s2 = heap s →
  Forall (λ kv, is_Some (to_json (heap s) kv.2)) o →
  let l := fresh (dom (heap s2)) in
  let s3 := set_heap (<[l := o]> (heap s2)) s2 in
  printable s3 ∧ ∀ s', push_item category (VRef l) s3 = Some s' → printable s'.
Proof.
  intros Hs Ha Hh Ho l s3.
  assert (printable s2) as Hs2 by (by apply (printable_eq s)).
  rewrite <- Hh in Ho.
  destruct (printable_alloc s2 o Hs2 Ho) as [Hs3 Hl].
  split; [exact Hs3|]. intros s' Hpush.
  eapply printable_push_item; [exact Hs3|exact Hl|exact Hpush].
Qed.

Lemma bulkImport_loop_printable (category : string) (files : list File) :
  ∀ i successCount failCount s,
    printable s →
    printable (bulkImport_loop category i files successCount failCount s).2.
Proof.
  induction files as [|file files IH]; intros i sc fc s Hs; [done|].
  simpl.
  destruct (validateImageFile_frame file s) as (_ & Ha & Hh & _).
  destruct (validateImageFile file s) as [valid s1]. simpl in Ha, Hh.
  assert (printable s1) as Hs1 by (by apply (printable_eq s)).
  destruct valid; simpl; [|by apply IH].
  destruct (f_dataURL file) as [img|]; [|by apply IH].
  destruct (printable_new_item category (newItem i file img s1).1 s1 (tick (tick s1)) Hs1
              eq_refl eq_refl) as [Hs3 Hpush].
  { simpl. repeat constructor; by eexists. }
  simpl in Hs3, Hpush.
  destruct (push_item _ _ _) as [s4|] eqn:Hp; apply IH; [by apply Hpush|done].
Qed.

Lemma filter_outfits_sublist (h : gmap loc object) (outfitId : Z) (outfits kept : list value) :
  filter_outfits h outfitId outfits = Some kept → ∀ o, o ∈ kept → o ∈ outfits.
Proof.
  revert kept. induction outfits as [|o' outfits IH]; intros kept; simpl.
  - by intros [= <-].
  - destruct (has_id h outfitId o') as [same|]; [|done].
    destruct (filter_outfits h outfitId outfits) as [rest|]; [|done].
    intros [= <-] o Ho. specialize (IH rest eq_refl o). rewrite elem_of_cons.
    destruct same; [right; by apply IH|].
    apply elem_of_cons in Ho as [-> | Ho]; [by left|right; by apply IH].
Qed.

Lemma find_outfit_elem (h : gmap loc object) (outfitId : Z) (outfits : list value) o :
  find_outfit h outfitId outfits = Some o → o = VUndef ∨ o ∈ outfits.
Proof.
  induction outfits as [|o' outfits IH]; simpl.
  - intros [= <-]. by left.
  - rewrite elem_of_cons. destruct (has_id h outfitId o') as [[]|]; [| |done].
    + intros [= <-]. right. by left.
    + intros Hfind. destruct (IH Hfind); [by left|right; by right].
Qed.

Lemma printable_assigned (j : json) (s : state) :
  printable s →
  printable (set_app (assigned (from_json j (heap s)).2 (from_json j (heap s)).1 (app s))
               (set_heap (from_json j (heap s)).2 s)).
Proof.
  intros Hs. destruct (from_json j (heap s)) as [data h1] eqn:Hj.
  destruct (from_json_spec _ _ _ _ Hj) as (Hsub & _ & Hdata).
  destruct (printable_in_mono _ _ _ Hsub Hs) as (_ & _ & Hst & Hsb & _).
  assert (∀ k, is_Some (to_json h1 (field_or_empty h1 data k))) as Hfield.
  { intros k. unfold field_or_empty, js_or.
    destruct (get_prop h1 data k) as [x|] eqn:Hx; simpl; [|by eexists].
    destruct (truthy x); [|by eexists].
    eapply to_json_get_prop; [|exact Hx]. by eexists. }
  unfold printable, printable_in, assigned. simpl.
  repeat split; try done; apply Hfield.
Qed.

Lemma perform_printable (a : action) (s : state) : printable s → printable (perform a s).
Proof.
  intros Hs. pose proof Hs as (Ht & Hb & Hst & Hsb & Ho).
  destruct a as [imageFile brand productName category shoppingLink|files category
                |i|i|r1 r2| |outfitId|outfitId| |text| |confirmed]; simpl.
  - unfold addItem. destruct imageFile as [file|]; [|done].
    destruct (_ || _); [done|].
    destruct (validateImageFile_frame file s) as (_ & Ha & Hh & _).
    destruct (validateImageFile file s) as [valid s1]. simpl in Ha, Hh.
    assert (printable s1) as Hs1 by (by apply (printable_eq s)).
    destruct valid; simpl; [|done].
    destruct (f_dataURL file) as [img|]; [|done]. simpl.
    match goal with |- context [set_heap (<[_ := ?o]> _) _] =>
      destruct (printable_new_item category o s1 (tick (tick s1)) Hs1 eq_refl eq_refl)
        as [Hs3 Hpush] end.
    { repeat constructor; try by eexists.
      simpl. unfold js_or. destruct (truthy _); by eexists. }
    simpl in Hs3, Hpush.
    destruct (push_item _ _ _) as [s5|] eqn:Hp; [|done].
    apply (printable_eq (saveToLocalStorage s5)); [done..|].
    apply printable_saveToLocalStorage. by apply Hpush.
  - unfold bulkImportImages. destruct (_ =? _)%nat; [done|].
    pose proof (bulkImport_loop_printable category files 0 0 0 s Hs) as Hloop.
    destruct (bulkImport_loop _ _ _ _ _ _) as [[sc fc] s1]. simpl in *.
    apply (printable_eq (saveToLocalStorage s1)); [done..|].
    by apply printable_saveToLocalStorage.
  - unfold thumbnail. destruct (topwear (app s)) as [| | | | |tops|] eqn:Htops; try done.
    destruct (tops !! i) as [item|] eqn:Hi; [|done].
    unfold_updates. repeat split; rewrite ?Htops, ?Hbottoms, ?Houtfits; try done.
    apply to_json_array in Ht. rewrite Forall_forall in Ht.
    apply Ht. by eapply list_elem_of_lookup_2.
  - unfold thumbnail. destruct (bottomwear (app s)) as [| | | | |bottoms|] eqn:Hbottoms; try done.
    destruct (bottoms !! i) as [item|] eqn:Hi; [|done].
    unfold_updates. repeat split; rewrite ?Htops, ?Hbottoms, ?Houtfits; try done.
    apply to_json_array in Hb. rewrite Forall_forall in Hb.
    apply Hb. by eapply list_elem_of_lookup_2.
  - unfold shuffleOutfit.
    destruct (topwear (app s)) as [| | | | |tops|] eqn:Htops; try done.
    destruct (length tops =? 0)%nat; [done|].
    destruct (bottomwear (app s)) as [| | | | |bottoms|] eqn:Hbottoms; try done.
    destruct (length bottoms =? 0)%nat; [done|]. simpl.
    assert (∀ vs k, is_Some (to_json (heap s) (VArr vs)) →
                    is_Some (to_json (heap s) (js_index vs k))) as Hindex.
    { intros vs k Hvs. unfold js_index. destruct (k <? 0); [by eexists|].
      destruct (vs !! Z.to_nat k) as [v|] eqn:Hv; [|by eexists]. simpl.
      apply to_json_array in Hvs. rewrite Forall_forall in Hvs.
      apply Hvs. by eapply list_elem_of_lookup_2. }
    unfold_updates. repeat split; rewrite ?Htops, ?Hbottoms; try done; by apply Hindex.
  - unfold saveOutfit. destruct (_ || _); [done|]. simpl.
    destruct (printable_alloc (tick s)
                [("id", VNum (clock (ticks s))); ("top", selectedTop (app s));
                 ("bottom", selectedBottom (app s))]) as [Hs2 Hl].
    { done. }
    { simpl. repeat constructor; try done; by eexists. }
    simpl in Hs2, Hl.
    destruct (savedOutfits (app s)) as [| | | | |outfits|] eqn:Houtfits;
      try (simpl; exact Hs2).
    simpl.
    match goal with |- context [saveToLocalStorage ?s3] =>
      apply (printable_eq (saveToLocalStorage s3)); [done..|];
      apply printable_saveToLocalStorage end.
    destruct Hs2 as (? & ? & ? & ? & Ho2). simpl in *. rewrite Houtfits in Ho2.
    unfold_updates. repeat split; rewrite ?Htops, ?Hbottoms, ?Houtfits; try done.
    apply to_json_array, Forall_app. split; [by apply to_json_array|by constructor].
  - unfold removeOutfit.
    destruct (savedOutfits (app s)) as [| | | | |outfits|] eqn:Houtfits; try done.
    destruct (filter_outfits _ _ _) as [kept|] eqn:Hkept; [|done]. simpl.
    apply printable_saveToLocalStorage.
    unfold_updates. repeat split; rewrite ?Htops, ?Hbottoms, ?Houtfits; try done.
    apply to_json_array. apply to_json_array in Ho. rewrite Forall_forall in Ho |- *.
    intros v Hv. apply Ho. by eapply filter_outfits_sublist.
  - unfold loadSavedOutfit.
    destruct (savedOutfits (app s)) as [| | | | |outfits|] eqn:Houtfits; try done.
    destruct (find_outfit _ _ _) as [outfit|] eqn:Hfind; [|done].
    destruct (truthy outfit); [|done].
    assert (is_Some (to_json (heap s) outfit)) as Houtfit.
    { destruct (find_outfit_elem _ _ _ _ Hfind) as [-> | Hin]; [by eexists|].
      apply to_json_array in Ho. rewrite Forall_forall in Ho. by apply Ho. }
    destruct (get_prop (heap s) outfit "top") as [top|] eqn:Htop; [|done]. simpl.
    destruct (get_prop (heap s) outfit "bottom") as [bottom|] eqn:Hbottom; simpl.
    + unfold_updates. repeat split; rewrite ?Houtfits; try done; by eapply to_json_get_prop.
    + unfold_updates. repeat split; rewrite ?Houtfits; try done; by eapply to_json_get_prop.
  - unfold exportWardrobe. simpl. by destruct (literal_to_json _ _).
  - pose proof (importWardrobe_cases text s) as Himp.
    destruct (JSON_parse text) as [j|]; [|by rewrite Himp].
    pose proof (printable_assigned j s Hs) as Hj.
    apply printable_saveToLocalStorage in Hj.
    destruct j; rewrite Himp; done.
  - pose proof (loadFromLocalStorage_cases s) as Hload.
    destruct (localStorage s) as [stored|]; [|by rewrite Hload].
    destruct (truthy (VStr stored)); [|by rewrite Hload].
    destruct (JSON_parse stored) as [j|]; [|by rewrite Hload].
    pose proof (printable_assigned j s Hs) as Hj.
    destruct j; rewrite Hload; done.
  - destruct confirmed; [|done]. unfold_updates. repeat split; by eexists.
Qed.

Lemma run_printable (actions : list action) (s : state) :
  printable s → printable (run actions s).
Proof.
  revert s. induction actions as [|a actions IH]; intros s Hs; [done|].
  simpl. by apply IH, perform_printable.
Qed.

Lemma initial_state_printable : printable initial_state.
Proof. repeat split; by eexists. Qed.

(** What [exportWardrobe] does, case by case. *)
Lemma exportWardrobe_cases (s : state) :
  exportWardrobe s =
    match literal_to_json (heap s) (exported_config s) with
    | None => (None, Uncaught "TypeError" (tick s))
    | Some config =>
        (Some ("clueless-closet-backup-" +:+ pretty (clock (S (ticks s))) +:+ ".json",
               JSON_stringify 2 config),
         Done (showNotification "✓ Wardrobe exported!" "success" (tick (tick s))))
    end.
Proof. reflexivity. Qed.

(** On a page that prints, [exportWardrobe] returns a file. *)
Lemma exportWardrobe_returns (s : state) :
  printable s →
  ∃ download text s1, exportWardrobe s = (Some (download, text), Done s1).
Proof.
  intros (Ht & Hb & _ & _ & Ho). rewrite exportWardrobe_cases.
  unfold literal_to_json.
  destruct (props_to_json_is_Some (to_json (heap s)) (exported_config s)) as [ps Hps].
  { repeat constructor; try done; by eexists. }
  rewrite Hps. simpl. by eexists _, _, _.
Qed.

End Sessions.

(** ** The script's contracts *)

Section Properties.

Context `{Browser}.

(** C9. [validateImageFile] accepts a file exactly when its declared type is
    [image/jpeg] or [image/png] and its size is at most 5 * 1024 * 1024
    bytes.  An accepted file leaves the page as it is; a rejected one only
    adds an error toast (nothing is read, nothing is stored), and in the
    bulk loop the rejected file counts as failed without its contents being
    looked at.  The verdict depends on the declared type and the size only. *)
Theorem validateImageFile_spec (file : File) (s : state) :
  ((validateImageFile file s).1 = true ↔
     (f_type file = "image/jpeg" ∨ f_type file = "image/png") ∧
     f_size file ≤ 5 * 1024 * 1024) ∧
  ((validateImageFile file s).1 = true → (validateImageFile file s).2 = s) ∧
  ((validateImageFile file s).1 = false →
     (∃ message, (validateImageFile file s).2 = showNotification message "error" s) ∧
     ∀ category i files successCount failCount,
       bulkImport_loop category i (file :: files) successCount failCount s =
       bulkImport_loop category (S i) files successCount (S failCount)
         (validateImageFile file s).2) ∧
  (∀ name contents s',
     (validateImageFile (mkFile name (f_type file) (f_size file) contents) s').1 =
     (validateImageFile file s).1).
Proof.
  pose proof (validateImageFile_cases file s) as Hfile.
  split; [|split; [|split]].
  - destruct Hfile as [[-> ?]|(m & -> & ?)]; simpl; [tauto|]. split; [done|tauto].
  - destruct Hfile as [[-> ?]|(m & -> & ?)]; done.
  - intros Hrej. split.
    + destruct Hfile as [[Hv ?]|(m & -> & ?)]; [|eauto].
      rewrite Hv in Hrej. done.
    + intros category i files successCount failCount. simpl.
      destruct (validateImageFile file s) as [valid s1]. simpl in Hrej. by subst.
  - intros name contents s'.
    pose proof (validateImageFile_cases (mkFile name (f_type file) (f_size file) contents) s')
      as Hfile'. simpl in Hfile'.
    destruct Hfile as [[-> ?]|(m & -> & ?)], Hfile' as [[-> ?]|(m' & -> & ?)]; done.
Qed.

(** C10. A confirmed [clearAllData] removes the storage slot and empties the
    whole of [app]: the three collections become empty arrays and the two
    selections [null].  A declined one changes nothing at all. *)
Theorem clearAllData_spec (s : state) :
  localStorage (clearAllData true s) = None ∧
  app (clearAllData true s) = mkApp (VArr []) (VArr []) VNull VNull (VArr []) ∧
  clearAllData false s = s.
Proof. done. Qed.

(** C5. [getStorageUsage] is 0 without a slot and otherwise a function of
    the length of the stored text: that length divided by 1024 twice,
    rounded to the nearest hundredth (an integer number of hundredths, at
    most half a hundredth away).  A text of 2,097,152 characters gives 2 and
    one of 1,572,864 characters 1.5. *)
Theorem getStorageUsage_spec :
  (∀ s, getStorageUsage (set_localStorage None s) == 0)%Q ∧
  (∀ s stored,
     getStorageUsage (set_localStorage (Some stored) s)
     == usage_of_length (Z.of_nat (String.length stored)))%Q ∧
  (∀ length,
     (∃ k : Z, usage_of_length length == inject_Z k / 100) ∧
     Qabs (usage_of_length length - inject_Z length / 1024 / 1024) <= 1 # 200)%Q ∧
  (usage_of_length 2097152 == 2)%Q ∧
  (usage_of_length 1572864 == 3 # 2)%Q.
Proof.
  split; [|split; [|split; [|split]]]; [| | |reflexivity..].
  - reflexivity.
  - intros s [|c stored]; reflexivity.
  - intros n. split; [by eexists|].
    unfold usage_of_length, Math_round.
    set (x := (inject_Z n / 1024 / 1024 * 100)%Q).
    pose proof (Qfloor_le (x + (1 # 2))) as Hlo.
    pose proof (Qlt_floor (x + (1 # 2))) as Hhi.
    rewrite inject_Z_plus in Hhi. change (inject_Z 1) with 1%Q in Hhi.
    set (k := inject_Z (Qfloor (x + (1 # 2)))) in *.
    apply Qabs_Qle_condition.
    assert (Hx : (inject_Z n / 1024 / 1024 == x / 100)%Q) by (unfold x; field).
    rewrite Hx. clearbody k. clear Hx. clearbody x.
    assert (Hd : (k / 100 - x / 100 == (k - x) * (1 # 100))%Q) by field.
    rewrite Hd. split; lra.
Qed.


(** C4. [loadFromLocalStorage] reports no data ([false]) both when the slot
    does not exist and when its content does not parse as a wardrobe
    document (it is not JSON, or it is the document [null]); in both cases
    the slot is left as it is and neither [app] nor the objects change. *)
Theorem loadFromLocalStorage_no_data (s : state) :
  localStorage s = None ∨
  (∃ stored, localStorage s = Some stored ∧
             (JSON_parse stored = None ∨ JSON_parse stored = Some JNull)) →
  (loadFromLocalStorage s).1 = false ∧
  localStorage (loadFromLocalStorage s).2 = localStorage s ∧
  app (loadFromLocalStorage s).2 = app s ∧
  heap (loadFromLocalStorage s).2 = heap s.
Proof.
  intros Hno. pose proof (loadFromLocalStorage_cases s) as Hs.
  destruct Hno as [Hnone|(stored & Hsome & [Hparse|Hparse])].
  - rewrite Hnone in Hs. rewrite Hs. done.
  - rewrite Hsome in Hs. rewrite Hparse in Hs.
    destruct (truthy (VStr stored)); rewrite Hs; done.
  - rewrite Hsome in Hs. rewrite Hparse in Hs.
    destruct (truthy (VStr stored)); rewrite Hs; done.
Qed.

(** C8. With a clock that never goes back, the objects that one call of
    [bulkImportImages] appends carry pairwise distinct ids. *)
Theorem bulkImportImages_ids_distinct (files : list File) (category : string)
    (s : state) (old : list value) :
  (∀ j k, (j ≤ k)%nat → clock j ≤ clock k) →
  collection category (app s) = VArr old →
  let s' := bulkImportImages files category s in
  ∃ new ids,
    app s' = set_collection category (VArr (old ++ new)) (app s) ∧
    Forall2 (λ v id, get_prop (heap s') v "id" = Some (VNum id)) new ids ∧
    NoDup ids.
Proof.
  intros Hmono Hold s'. subst s'. unfold bulkImportImages.
  destruct (Nat.eqb_spec (length files) 0) as [Hlen|_].
  { exists [], []. simpl. rewrite app_nil_r, <- Hold, set_collection_id.
    repeat split; [done|constructor]. }
  destruct (bulkImport_loop_spec category files 0 0 0 s old Hold)
    as (new & s1 & Hloop & Happ & Hsub & _ & Hall).
  rewrite Hloop. simpl.
  destruct (saveToLocalStorage_memory s1) as [Ha Hh].
  destruct (imported_ids 0 files (ticks s) Hmono) as (ids & Hids & _ & Hnd).
  exists new, ids. split; [|split; [|done]].
  - by rewrite Ha.
  - rewrite Hh. clear -Hall Hids. revert ids Hids.
    induction Hall as [|v o new os (l & -> & Hl) _ IH]; intros ids Hids;
      inversion Hids as [|? id ? ids' Hid Hrest]; subst; constructor.
    + simpl. by rewrite Hl, Hid.
    + by apply IH.
Qed.

End Properties.


(** ** Worked examples

    The contracts above at concrete pages of the stand-in browser. *)

(** C1, as stated, fails: after [saveOutfit] the [top] of the stored outfit
    is the reference to the shirt object that [app.topwear] holds (location
    [Demo.shirt]), not a copy, so a write to that object shows in the stored
    outfit.  The page renders, so the handler returns with its closing
    [renderUI()] as without it. *)
Lemma saveOutfit_stores_references :
  saveOutfit (H := Demo.browser) Demo.dressed = Done Demo.saved ∧
  Rendered.saveOutfit (H := Demo.browser) (H0 := script_display) Demo.dressed
    = Done Demo.saved ∧
  topwear (app Demo.saved) = VArr [VRef Demo.shirt] ∧
  savedOutfits (app Demo.saved) = VArr [VRef 3%positive] ∧
  get_prop (heap Demo.saved) (VRef 3%positive) "top" = Some (VRef Demo.shirt) ∧
  to_json (<[Demo.shirt := Demo.relabelled]> (heap Demo.saved)) (savedOutfits (app Demo.saved))
    ≠ to_json (heap Demo.saved) (savedOutfits (app Demo.saved)).
Proof. repeat split; vm_compute; congruence. Qed.


(** C4 on a slot that holds a text that is not JSON. *)
Lemma loadFromLocalStorage_no_data_witness :
  (loadFromLocalStorage (H := Demo.browser) Demo.corrupted).1 = false ∧
  localStorage (loadFromLocalStorage (H := Demo.browser) Demo.corrupted).2 = Some "{oops" ∧
  app (loadFromLocalStorage (H := Demo.browser) Demo.corrupted).2 = app Demo.corrupted.
Proof.
  destruct (loadFromLocalStorage_no_data (H := Demo.browser) Demo.corrupted)
    as (Hfalse & Hslot & Happ & _).
  - right. exists "{oops". split; [reflexivity|left; reflexivity].
  - split; [exact Hfalse|]. split; [exact Hslot|exact Happ].
Defined.


(** C8 on the same batch, with the clock of the stand-in browser. *)
Lemma bulkImportImages_ids_witness :
  ∃ new ids,
    app (bulkImportImages (H := Demo.browser) Demo.batch "topwear" Demo.wardrobe) =
      set_topwear (VArr (VRef Demo.shirt :: new)) (app Demo.wardrobe) ∧
    Forall2
      (λ v id,
         get_prop (heap (bulkImportImages (H := Demo.browser) Demo.batch "topwear" Demo.wardrobe))
           v "id" = Some (VNum id)) new ids ∧
    NoDup ids.
Proof.
  destruct (bulkImportImages_ids_distinct (H := Demo.browser) Demo.batch "topwear"
              Demo.wardrobe [VRef Demo.shirt]) as (new & ids & Happ & Hids & Hnd).
  - intros j k Hjk. simpl. lia.
  - reflexivity.
  - exists new, ids. split; [exact Happ|]. split; [exact Hids|exact Hnd].
Defined.

(** ** Further properties of the handlers *)

Section Handlers.

Context `{Browser}.

Lemma validateImageFile_accepted (file : File) (s : state) :
  if accepted file then validateImageFile file s = (true, s)
  else ∃ message, validateImageFile file s = (false, showNotification message "error" s).
Proof.
  unfold validateImageFile, accepted.
  destruct (bool_decide _); simpl; [|by eexists].
  destruct (MAX_IMAGE_SIZE <? f_size file); simpl; [by eexists|done].
Qed.

(** A save only adds toasts. *)
Lemma saveToLocalStorage_notifications (s : state) :
  ∃ shown, notifications (saveToLocalStorage s) = (notifications s ++ shown)%list.
Proof.
  pose proof (saveToLocalStorage_cases s) as Hs.
  destruct (literal_to_json _ _) as [data|]; [|rewrite Hs; by eexists].
  destruct (setItem_error _) as [name|]; rewrite Hs; [by eexists|].
  exists []. simpl. by rewrite app_nil_r.
Qed.

Lemma truthy_VStr (str : string) : truthy (VStr str) = true ↔ str ≠ "".
Proof.
  simpl. destruct (String.eqb_spec str ""); simpl; split; congruence.
Qed.

(** X1. [addItem] with a file, a brand and a name, the file passing
    validation and being read, on an array: one new object is appended to
    the array of the chosen category, with the fields of the form ([link]
    is [null] for an empty link); the other collection, the selections and
    the outfits stay; the success toast is the last one shown. *)
Theorem addItem_adds_one (file : File) (brand productName category shoppingLink : string)
    (base64Image : string) (s : state) (old : list value) :
  brand ≠ "" →
  productName ≠ "" →
  accepted file = true →
  f_dataURL file = Some base64Image →
  collection category (app s) = VArr old →
  let s' := addItem (Some file) brand productName category shoppingLink s in
  ∃ l,
    heap s !! l = None ∧
    heap s' =
      <[l := added_item (ticks s) brand productName base64Image shoppingLink]> (heap s) ∧
    app s' = set_collection category (VArr (old ++ [VRef l])) (app s) ∧
    ∃ shown,
      notifications s' = (notifications s ++ shown)%list ∧
      ("✓ Item added successfully!", "success") ∈ shown.
Proof.
  intros Hbrand Hname Hacc Hread Hold s'. subst s'. unfold addItem.
  apply truthy_VStr in Hbrand, Hname. rewrite Hbrand, Hname. simpl negb. simpl orb.
  cbv iota.
  pose proof (validateImageFile_accepted file s) as Hv. rewrite Hacc in Hv.
  rewrite Hv, Hread. simpl.
  erewrite push_item_array; [|exact Hold]. simpl.
  match goal with |- context [saveToLocalStorage ?s5] =>
    destruct (saveToLocalStorage_memory s5) as [Ha Hh] end.
  match goal with |- context [saveToLocalStorage ?s5] =>
    destruct (saveToLocalStorage_notifications s5) as [shown Hshown] end.
  exists (fresh (dom (heap s))). rewrite Ha, Hh. simpl.
  split; [apply not_elem_of_dom, is_fresh|]. split; [|split; [done|]].
  - unfold added_item, js_or. simpl. by destruct (String.eqb shoppingLink "").
  - exists (shown ++ [("✓ Item added successfully!", "success")])%list.
    rewrite Hshown. simpl. rewrite (assoc_L (++)). split; [done|].
    apply elem_of_app. right. by apply list_elem_of_singleton.
Qed.

(** X2. [addItem] without a file, with an empty brand or name, with a file
    that does not pass validation, or with a file that cannot be read:
    [app], the objects, the slot and the clock stay as they are, and one
    error toast is added. *)
Theorem addItem_rejects (imageFile : option File)
    (brand productName category shoppingLink : string) (s : state) :
  imageFile = None ∨ brand = "" ∨ productName = "" ∨
  (∃ file, imageFile = Some file ∧ (accepted file = false ∨ f_dataURL file = None)) →
  let s' := addItem imageFile brand productName category shoppingLink s in
  app s' = app s ∧ heap s' = heap s ∧ localStorage s' = localStorage s ∧
  ticks s' = ticks s ∧
  ∃ message, notifications s' = (notifications s ++ [(message, "error")])%list.
Proof.
  intros Hcase s'. subst s'. unfold addItem.
  destruct imageFile as [file|]; [|repeat split; by eexists].
  destruct (negb (truthy (VStr brand)) || negb (truthy (VStr productName))) eqn:Hfields;
    [repeat split; by eexists|].
  apply orb_false_elim in Hfields as [Hb Hn].
  apply negb_false_iff, truthy_VStr in Hb, Hn.
  destruct Hcase as [?|[?|[?|(file' & [= <-] & Hbad)]]]; try done.
  pose proof (validateImageFile_accepted file s) as Hv.
  destruct (accepted file).
  - destruct Hbad as [?|Hread]; [done|]. rewrite Hv, Hread. simpl.
    repeat split; by eexists.
  - destruct Hv as [message ->]. simpl. repeat split; by eexists.
Qed.

Lemma has_id_same_id (h : gmap loc object) (outfitId : Z) (o : value) :
  o ≠ VNull → o ≠ VUndef → has_id h outfitId o = Some (same_id h outfitId o).
Proof.
  intros Hnull Hundef. unfold same_id, has_id.
  destruct o as [| |b|n|str|vs|l]; try done. simpl.
  destruct (h !! l) as [obj|]; [|done].
  by destruct (default VUndef (assoc "id" obj)).
Qed.


Lemma filter_outfits_filter (h : gmap loc object) (outfitId : Z) (outfits : list value) :
  Forall non_null outfits →
  filter_outfits h outfitId outfits =
    Some (filter (λ o, same_id h outfitId o = false) outfits).
Proof.
  induction 1 as [|o outfits [Hnull Hundef] _ IH]; [done|].
  simpl. rewrite has_id_same_id, IH by done. rewrite filter_cons.
  by destruct (same_id h outfitId o).
Qed.




(** X4. [removeOutfit] and [loadSavedOutfit] have no handler for the
    exception of reading [o.id] on [null]: with a [null] in [savedOutfits]
    (an imported file can hold one), [removeOutfit] ends in an uncaught
    [TypeError] for every id, and so does [loadSavedOutfit] unless an
    outfit before the [null] carries the id; the page stays as it is. *)
Theorem outfit_handlers_throw_on_null (outfitId : Z) (s : state)
    (before after : list value) :
  savedOutfits (app s) = VArr (before ++ VNull :: after) →
  removeOutfit outfitId s = Uncaught "TypeError" s ∧
  (Forall non_null before →
   Forall (λ o, same_id (heap s) outfitId o = false) before →
   loadSavedOutfit outfitId s = Uncaught "TypeError" s).
Proof.
  intros Houtfits. split.
  - unfold removeOutfit. rewrite Houtfits.
    assert (filter_outfits (heap s) outfitId (before ++ VNull :: after) = None) as ->; [|done].
    clear Houtfits. induction before as [|o before IH]; [done|]. simpl. rewrite IH.
    by destruct (has_id _ _ o).
  - intros Hnn Hbefore. unfold loadSavedOutfit. rewrite Houtfits.
    assert (find_outfit (heap s) outfitId (before ++ VNull :: after) = None) as ->; [|done].
    clear Houtfits. induction Hnn as [|o before [Hnull Hundef] _ IH]; [done|].
    apply Forall_cons in Hbefore as [Ho Hbefore]. simpl.
    rewrite has_id_same_id, Ho by done. by apply IH.
Qed.







(** *** Saving and loading *)

(** The three arrays of a parsed wardrobe document are assigned as arrays
    that print as the arrays of the document; the selections stay. *)
Lemma assigned_arrays (ps : list (string * json)) (h : gmap loc object) (a : App)
    (jts jbs jos : list json) :
  assoc "topwear" ps = Some (JArr jts) →
  assoc "bottomwear" ps = Some (JArr jbs) →
  assoc "savedOutfits" ps = Some (JArr jos) →
  let h' := (from_json (JObj ps) h).2 in
  let a' := assigned h' (from_json (JObj ps) h).1 a in
  (∃ tops bottoms outfits,
     topwear a' = VArr tops ∧ bottomwear a' = VArr bottoms ∧
     savedOutfits a' = VArr outfits) ∧
  to_json h' (topwear a') = Some (JArr jts) ∧
  to_json h' (bottomwear a') = Some (JArr jbs) ∧
  to_json h' (savedOutfits a') = Some (JArr jos).
Proof.
  intros Ht Hb Ho.
  destruct (from_json_object ps h) as (o & l & h1 & Hfrom & _ & Hl & Hall).
  rewrite Hfrom. cbn [fst snd]. unfold assigned. cbn [topwear bottomwear savedOutfits].
  pose proof (parsed_object_field _ _ _ _ "topwear" Hall Hl) as Hf;
    rewrite Ht in Hf; destruct Hf as (vt & -> & Hnt & Hvt).
  pose proof (parsed_object_field _ _ _ _ "bottomwear" Hall Hl) as Hf;
    rewrite Hb in Hf; destruct Hf as (vb & -> & Hnb & Hvb).
  pose proof (parsed_object_field _ _ _ _ "savedOutfits" Hall Hl) as Hf;
    rewrite Ho in Hf; destruct Hf as (vo & -> & Hno & Hvo).
  destruct (to_json_JArr_inv _ _ _ Hvt Hnt) as [tops' ->].
  destruct (to_json_JArr_inv _ _ _ Hvb Hnb) as [bottoms' ->].
  destruct (to_json_JArr_inv _ _ _ Hvo Hno) as [outfits' ->].
  unfold js_or. simpl. rewrite Hvt, Hvb, Hvo.
  split; [by eexists _, _, _|done].
Qed.

(** An array prints as a JSON array. *)
Lemma to_json_VArr (h : gmap loc object) (vs : list value) (j : json) :
  to_json h (VArr vs) = Some j → ∃ js, j = JArr js.
Proof.
  unfold to_json. rewrite to_json_fuel_unfold.
  destruct (mapM _ vs) as [js|]; [|done]. intros [= <-]. by eexists.
Qed.

(** X8. What [saveToLocalStorage] stores for a wardrobe (three arrays),
    [loadFromLocalStorage] brings back: on a page with that slot it returns
    [true] and sets three arrays that print as the saved ones, [savedAt]
    playing no part; it shows no toast and leaves the selections of the
    page as they are.  The browser is one that stores the text and whose
    [JSON.parse] reads back what [JSON.stringify] printed. *)
Theorem save_load_roundtrip (s s0 : state) (tops bottoms outfits : list value)
    (data : json) :
  topwear (app s) = VArr tops →
  bottomwear (app s) = VArr bottoms →
  savedOutfits (app s) = VArr outfits →
  literal_to_json (heap s) (saved_data s) = Some data →
  setItem_error (JSON_stringify 0 data) = None →
  JSON_stringify 0 data ≠ "" →
  JSON_parse (JSON_stringify 0 data) = Some data →
  localStorage s0 = localStorage (saveToLocalStorage s) →
  ∃ s',
    loadFromLocalStorage s0 = (true, s') ∧
    (∃ tops' bottoms' outfits',
       topwear (app s') = VArr tops' ∧
       bottomwear (app s') = VArr bottoms' ∧
       savedOutfits (app s') = VArr outfits') ∧
    is_Some (to_json (heap s) (topwear (app s))) ∧
    is_Some (to_json (heap s) (bottomwear (app s))) ∧
    is_Some (to_json (heap s) (savedOutfits (app s))) ∧
    to_json (heap s') (topwear (app s')) = to_json (heap s) (topwear (app s)) ∧
    to_json (heap s') (bottomwear (app s')) = to_json (heap s) (bottomwear (app s)) ∧
    to_json (heap s') (savedOutfits (app s')) = to_json (heap s) (savedOutfits (app s)) ∧
    selectedTop (app s') = selectedTop (app s0) ∧
    selectedBottom (app s') = selectedBottom (app s0) ∧
    localStorage s' = localStorage s0 ∧
    notifications s' = notifications s0.
Proof.
  intros Ht Hb Ho Hdata Hset Hne Hparse Hslot.
  pose proof (saveToLocalStorage_cases s) as Hsave.
  rewrite Hdata, Hset in Hsave. rewrite Hsave in Hslot. simpl in Hslot.
  pose proof (loadFromLocalStorage_cases s0) as Hload.
  rewrite Hslot in Hload.
  apply truthy_VStr in Hne. rewrite Hne, Hparse in Hload.
  unfold literal_to_json, saved_data in Hdata. rewrite Ht, Hb, Ho in Hdata.
  simpl in Hdata.
  destruct (to_json (heap s) (VArr tops)) as [jt|] eqn:Hjt; [|done].
  destruct (to_json (heap s) (VArr bottoms)) as [jb|] eqn:Hjb; [|done].
  destruct (to_json (heap s) (VArr outfits)) as [jo|] eqn:Hjo; [|done].
  simpl in Hdata. injection Hdata as <-.
  destruct (to_json_VArr _ _ _ Hjt) as [jts ->].
  destruct (to_json_VArr _ _ _ Hjb) as [jbs ->].
  destruct (to_json_VArr _ _ _ Hjo) as [jos ->].
  eexists. split; [exact Hload|].
  rewrite Ht, Hb, Ho, Hjt, Hjb, Hjo.
  match type of Hload with context [from_json (JObj ?ps) _] =>
    destruct (assigned_arrays ps (heap s0) (app s0) jts jbs jos eq_refl eq_refl eq_refl)
      as (Harr & Hvt & Hvb & Hvo) end.
  cbn [app heap set_app set_heap localStorage notifications].
  split; [exact Harr|].
  repeat split; try done; by eexists.
Qed.

(** X9. [loadFromLocalStorage] returns [true] exactly when the slot holds a
    non-empty text that parses to a document other than [null].  In every
    case it leaves the slot, the selections and the clock as they are and
    only adds objects; after a confirmed [clearAllData] it finds nothing. *)
Theorem loadFromLocalStorage_true_iff (s : state) :
  ((loadFromLocalStorage s).1 = true ↔
   ∃ stored j, localStorage s = Some stored ∧ stored ≠ "" ∧
               JSON_parse stored = Some j ∧ j ≠ JNull) ∧
  localStorage (loadFromLocalStorage s).2 = localStorage s ∧
  selectedTop (app (loadFromLocalStorage s).2) = selectedTop (app s) ∧
  selectedBottom (app (loadFromLocalStorage s).2) = selectedBottom (app s) ∧
  ticks (loadFromLocalStorage s).2 = ticks s ∧
  heap s ⊆ heap (loadFromLocalStorage s).2 ∧
  loadFromLocalStorage (clearAllData true s) = (false, clearAllData true s).
Proof.
  pose proof (loadFromLocalStorage_cases s) as Hload.
  split; [|split; [|split; [|split; [|split; [|split]]]]].
  - destruct (localStorage s) as [stored|] eqn:Hslot.
    2:{ rewrite Hload. split; [done|]. by intros (? & ? & ? & _). }
    destruct (truthy (VStr stored)) eqn:Htruthy.
    2:{ rewrite Hload. split; [done|]. intros (? & ? & [= <-] & Hne & _).
        apply truthy_VStr in Hne. congruence. }
    apply truthy_VStr in Htruthy.
    destruct (JSON_parse stored) as [j|] eqn:Hparse.
    2:{ rewrite Hload. split; [done|]. intros (? & ? & [= <-] & _ & ? & _). congruence. }
    assert (j = JNull ∨ j ≠ JNull) as [-> | Hj] by (destruct j; [by left|by right..]).
    + rewrite Hload. simpl. split; [done|].
      intros (? & ? & [= <-] & _ & Hj & Hnull). congruence.
    + assert ((loadFromLocalStorage s).1 = true) as ->
        by (destruct j; try done; by rewrite Hload).
      split; [intros _; by eexists _, _|done].
  - destruct (localStorage s) as [stored|] eqn:Hslot; [|by rewrite Hload].
    destruct (truthy (VStr stored)); [|by rewrite Hload].
    destruct (JSON_parse stored) as [[]|]; by rewrite Hload.
  - destruct (localStorage s) as [stored|]; [|by rewrite Hload].
    destruct (truthy (VStr stored)); [|by rewrite Hload].
    destruct (JSON_parse stored) as [[]|]; by rewrite Hload.
  - destruct (localStorage s) as [stored|]; [|by rewrite Hload].
    destruct (truthy (VStr stored)); [|by rewrite Hload].
    destruct (JSON_parse stored) as [[]|]; by rewrite Hload.
  - destruct (localStorage s) as [stored|]; [|by rewrite Hload].
    destruct (truthy (VStr stored)); [|by rewrite Hload].
    destruct (JSON_parse stored) as [[]|]; by rewrite Hload.
  - destruct (localStorage s) as [stored|]; [|by rewrite Hload].
    destruct (truthy (VStr stored)); [|by rewrite Hload].
    destruct (JSON_parse stored) as [j|]; [|by rewrite Hload].
    assert (heap s ⊆ (from_json j (heap s)).2) as Hsub.
    { destruct (from_json j (heap s)) as [v h'] eqn:Hj.
      by destruct (from_json_spec _ _ _ _ Hj) as [Hsub _]. }
    destruct j; rewrite Hload; done.
  - done.
Qed.


(** *** Collections that are not arrays *)

Lemma push_item_not_array (category : string) (item : value) (s : state) :
  (∀ old, collection category (app s) ≠ VArr old) →
  push_item category item s = None.
Proof.
  unfold push_item, collection, push. intros Hnot.
  destruct (String.eqb _ _).
  - destruct (topwear (app s)); try done. by destruct (Hnot elems).
  - destruct (bottomwear (app s)); try done. by destruct (Hnot elems).
Qed.

Lemma bulkImport_loop_not_array (category : string) (files : list File) :
  ∀ i successCount failCount s,
    (∀ old, collection category (app s) ≠ VArr old) →
    ∃ s' shown,
      bulkImport_loop category i files successCount failCount s =
        (successCount, (failCount + length files)%nat, s') ∧
      app s' = app s ∧
      notifications s' = (notifications s ++ shown)%list.
Proof.
  induction files as [|file files IH]; intros i sc fc s Hnot.
  - exists s, []. simpl. by rewrite Nat.add_0_r, app_nil_r.
  - simpl.
    assert (∃ shown1, notifications (validateImageFile file s).2 =
                        (notifications s ++ shown1)%list) as [shown1 Hn].
    { pose proof (validateImageFile_accepted file s) as Hv.
      destruct (accepted file); [rewrite Hv; exists []; simpl; by rewrite app_nil_r|].
      destruct Hv as [message ->]. by eexists. }
    destruct (validateImageFile_frame file s) as (_ & Ha & _).
    destruct (validateImageFile file s) as [valid s1]. simpl in Ha, Hn.
    assert (∀ s2, app s2 = app s → notifications s2 = notifications s1 →
              ∃ s' shown, bulkImport_loop category (S i) files sc (S fc) s2 =
                      (sc, (fc + S (length files))%nat, s') ∧ app s' = app s ∧
                      notifications s' = (notifications s ++ shown)%list) as Hnext.
    { intros s2 Ha2 Hn2. destruct (IH (S i) sc (S fc) s2) as (s' & shown & -> & Hs' & Hshown).
      { by rewrite Ha2. }
      exists s', (shown1 ++ shown)%list. split; [do 2 f_equal; lia|].
      split; [congruence|]. by rewrite Hshown, Hn2, Hn, (assoc_L (++)). }
    destruct valid; simpl; [|by apply Hnext].
    destruct (f_dataURL file) as [img|]; [|by apply Hnext]. simpl.
    rewrite push_item_not_array by (simpl; by rewrite Ha).
    by apply Hnext.
Qed.

(** X11. A collection that is not an array (an imported file can leave a
    number, a string or an object there) takes no item: [bulkImportImages]
    counts every file as failed and [addItem] ends in the error toast of
    its handler, both leaving [app] as it is. *)
Theorem push_to_non_array (category : string) (s : state) :
  (∀ old, collection category (app s) ≠ VArr old) →
  (∀ file files,
     let s' := bulkImportImages (file :: files) category s in
     app s' = app s ∧
     ∃ shown,
       notifications s' = (notifications s ++ shown)%list ∧
       (bulk_message 0 (S (length files)), "success") ∈ shown) ∧
  (∀ file brand productName shoppingLink base64Image,
     brand ≠ "" → productName ≠ "" → accepted file = true →
     f_dataURL file = Some base64Image →
     let s' := addItem (Some file) brand productName category shoppingLink s in
     app s' = app s ∧ localStorage s' = localStorage s ∧
     notifications s' = (notifications s ++ [("✗ Error processing image", "error")])%list).
Proof.
  intros Hnot. split.
  - intros file files s'. subst s'. unfold bulkImportImages.
    change (length (file :: files) =? 0)%nat with false. cbv iota.
    destruct (bulkImport_loop_not_array category (file :: files) 0 0 0 s Hnot)
      as (s1 & shown & Hloop & Happ & Hshown).
    rewrite Hloop. cbn [app notifications showNotification].
    destruct (saveToLocalStorage_memory s1) as [-> _]. split; [done|].
    destruct (saveToLocalStorage_notifications s1) as [shown' ->].
    exists (shown ++ shown' ++ [(bulk_message 0 (S (length files)), "success")])%list.
    rewrite Hshown, <- !(assoc_L (++)). split; [done|].
    rewrite !elem_of_app. right. right. by apply list_elem_of_singleton.
  - intros file brand productName shoppingLink base64Image Hbrand Hname Hacc Hread s'.
    subst s'. unfold addItem.
    apply truthy_VStr in Hbrand, Hname. rewrite Hbrand, Hname. simpl negb. simpl orb.
    cbv iota.
    pose proof (validateImageFile_accepted file s) as Hv. rewrite Hacc in Hv.
    rewrite Hv, Hread. simpl.
    rewrite push_item_not_array by done. done.
Qed.
(** *** Sessions *)

Lemma js_or_array_truthy (v : value) : truthy (js_or v (VArr [])) = true.
Proof. unfold js_or. by destruct (truthy v) eqn:Hv. Qed.

(** What [addItem] and [bulkImportImages] can do to [app]: nothing, or an
    array with only objects appended in place of the chosen collection. *)
Lemma addItem_app (imageFile : option File) (brand productName category shoppingLink : string)
    (s : state) :
  app (addItem imageFile brand productName category shoppingLink s) = app s ∨
  ∃ old l,
    collection category (app s) = VArr old ∧
    app (addItem imageFile brand productName category shoppingLink s) =
      set_collection category (VArr (old ++ [VRef l])) (app s).
Proof.
  unfold addItem. destruct imageFile as [file|]; [|by left].
  destruct (_ || _); [by left|].
  destruct (validateImageFile_frame file s) as (_ & Ha & _).
  destruct (validateImageFile file s) as [valid s1]. simpl in Ha.
  destruct valid; simpl; [|by left].
  destruct (f_dataURL file) as [img|]; [|by left]. simpl.
  destruct (collection category (app s)) as [| | | | |old|] eqn:Hold.
  1-5,7: left; rewrite push_item_not_array; [done|simpl; rewrite Ha, Hold; done].
  right. exists old, (fresh (dom (heap s1))).
  split; [done|].
  erewrite push_item_array; [|simpl; rewrite Ha; exact Hold]. simpl.
  match goal with |- context [saveToLocalStorage ?s5] =>
    destruct (saveToLocalStorage_memory s5) as [-> _] end.
  simpl. by rewrite Ha.
Qed.

Lemma bulkImportImages_app (files : list File) (category : string) (s : state) :
  app (bulkImportImages files category s) = app s ∨
  ∃ old new,
    collection category (app s) = VArr old ∧
    all_truthy new ∧
    app (bulkImportImages files category s) =
      set_collection category (VArr (old ++ new)) (app s).
Proof.
  unfold bulkImportImages. destruct (length files =? 0)%nat; [by left|].
  destruct (collection category (app s)) as [| | | | |old|] eqn:Hold.
  1-5,7: left;
    destruct (bulkImport_loop_not_array category files 0 0 0 s)
      as (s1 & shown & -> & Happ & _); [by rewrite Hold|];
    simpl; by destruct (saveToLocalStorage_memory s1) as [-> _].
  right.
  destruct (bulkImport_loop_spec category files 0 0 0 s old Hold)
    as (new & s1 & -> & Happ & _ & _ & Hall).
  exists old, new. split; [done|]. split.
  - clear -Hall. induction Hall as [|v o new objs (l & -> & _) _ IH]; by constructor.
  - simpl. by destruct (saveToLocalStorage_memory s1) as [-> _].
Qed.

Lemma collections_truthy_set_collection (category : string) (vs : list value) (a : App) :
  collections_truthy a → collections_truthy (set_collection category (VArr vs) a).
Proof.
  intros (Ht & Hb & Ho). unfold set_collection.
  by destruct (String.eqb _ _).
Qed.

Lemma collections_truthy_assigned (h : gmap loc object) (data : value) (a : App) :
  collections_truthy (assigned h data a).
Proof.
  unfold collections_truthy, assigned, field_or_empty. simpl.
  by rewrite !js_or_array_truthy.
Qed.

Lemma perform_collections_truthy (a : action) (s : state) :
  collections_truthy (app s) → collections_truthy (app (perform a s)).
Proof.
  intros Hs. pose proof Hs as (Ht & Hb & Ho).
  destruct a as [imageFile brand productName category shoppingLink|files category
                |i|i|r1 r2| |outfitId|outfitId| |text| |confirmed]; simpl.
  - destruct (addItem_app imageFile brand productName category shoppingLink s)
      as [-> | (old & l & _ & ->)]; [done|].
    by apply collections_truthy_set_collection.
  - destruct (bulkImportImages_app files category s)
      as [-> | (old & new & _ & _ & ->)]; [done|].
    by apply collections_truthy_set_collection.
  - by destruct (thumbnail _ _).
  - by destruct (thumbnail _ _).
  - unfold shuffleOutfit.
    destruct (topwear (app s)); try done.
    destruct (length _ =? 0)%nat; [done|].
    destruct (bottomwear (app s)); try done.
    by destruct (length _ =? 0)%nat.
  - unfold saveOutfit. destruct (_ || _); [done|]. simpl.
    destruct (savedOutfits (app s)); try done. simpl.
    match goal with |- context [saveToLocalStorage ?s3] =>
      destruct (saveToLocalStorage_memory s3) as [-> _] end.
    done.
  - unfold removeOutfit.
    destruct (savedOutfits (app s)); try done.
    destruct (filter_outfits _ _ _); [|done]. simpl.
    match goal with |- context [saveToLocalStorage ?s3] =>
      destruct (saveToLocalStorage_memory s3) as [-> _] end.
    done.
  - unfold loadSavedOutfit.
    destruct (savedOutfits (app s)); try done.
    destruct (find_outfit _ _ _) as [outfit|]; [|done].
    destruct (truthy outfit); [|done].
    destruct (get_prop (heap s) outfit "top"); [|done]. simpl.
    by destruct (get_prop (heap s) outfit "bottom").
  - rewrite exportWardrobe_cases. by destruct (literal_to_json _ _).
  - pose proof (importWardrobe_cases text s) as Himp.
    destruct (JSON_parse text) as [j|]; [|by rewrite Himp].
    assert (collections_truthy
              (app (showNotification "✓ Wardrobe imported successfully!" "success"
                 (saveToLocalStorage
                    (set_app (assigned (from_json j (heap s)).2 (from_json j (heap s)).1
                                (app s))
                       (set_heap (from_json j (heap s)).2 s)))))) as Hj.
    { simpl.
      match goal with |- context [saveToLocalStorage ?s3] =>
        destruct (saveToLocalStorage_memory s3) as [-> _] end.
      apply collections_truthy_assigned. }
    destruct j; rewrite Himp; done.
  - pose proof (loadFromLocalStorage_cases s) as Hload.
    destruct (localStorage s) as [stored|]; [|by rewrite Hload].
    destruct (truthy (VStr stored)); [|by rewrite Hload].
    destruct (JSON_parse stored) as [j|]; [|by rewrite Hload].
    pose proof (collections_truthy_assigned (from_json j (heap s)).2
                  (from_json j (heap s)).1 (app s)) as Hj.
    destruct j; rewrite Hload; done.
  - by destruct confirmed.
Qed.

(** X12. On every page of every session, whatever was imported or loaded,
    [app.topwear], [app.bottomwear] and [app.savedOutfits] are truthy
    values, never [null] or [undefined]: reading [length] off them, as
    [updateStorageInfo] does inside the [try] of [saveToLocalStorage],
    cannot throw. *)
Theorem collections_never_null (actions : list action) :
  collections_truthy (app (run actions initial_state)).
Proof.
  assert (∀ s, collections_truthy (app s) → collections_truthy (app (run actions s)))
    as Hrun.
  { induction actions as [|a actions IH]; intros s Hs; [done|].
    simpl. by apply IH, perform_collections_truthy. }
  by apply Hrun.
Qed.


(** *** The name of an imported item *)

Lemma before_dot_spec (name : string) :
  (∀ c, c ∈ list_ascii_of_string (before_dot name) → c ≠ "."%char) ∧
  (name = before_dot name ∨
   ∃ rest, name = before_dot name +:+ String "."%char rest).
Proof.
  induction name as [|c name [IHdot IHsplit]]; simpl.
  - split; [by intros c ?%elem_of_nil|by left].
  - destruct (Ascii.eqb_spec c "."%char) as [-> | Hc]; simpl.
    + split; [by intros c ?%elem_of_nil|]. right. by exists name.
    + split.
      * intros c' [-> | Hin]%elem_of_cons; [done|by apply IHdot].
      * destruct IHsplit as [Heq | [rest Hrest]].
        -- left. by rewrite <- Heq.
        -- right. exists rest.
           change (String c name = String c (before_dot name +:+ String "."%char rest)).
           by rewrite <- Hrest.
Qed.

(** X14. The name [bulkImportImages] gives an item is the file name up to
    its first dot: it holds no dot, and the file name is that name, alone
    or followed by a dot and the rest (so [my.photo.jpg] is named [my]);
    the brand is [Imported] and the link [null]. *)
Theorem newItem_name (i : nat) (file : File) (base64Image : string) (s : state) :
  ∃ name,
    assoc "name" (newItem i file base64Image s).1 = Some (VStr name) ∧
    (∀ c, c ∈ list_ascii_of_string name → c ≠ "."%char) ∧
    (f_name file = name ∨ ∃ rest, f_name file = name +:+ String "."%char rest) ∧
    assoc "brand" (newItem i file base64Image s).1 = Some (VStr "Imported") ∧
    assoc "link" (newItem i file base64Image s).1 = Some VNull.
Proof.
  exists (before_dot (f_name file)).
  destruct (before_dot_spec (f_name file)) as [Hdot Hsplit].
  by repeat split.
Qed.

(** *** The usage shown *)

Lemma usage_of_length_mono (a b : Z) :
  a ≤ b → (usage_of_length a <= usage_of_length b)%Q.
Proof.
  intros Hab. unfold usage_of_length, Math_round, Qdiv.
  apply Qmult_le_compat_r; [|done].
  rewrite <- Zle_Qle. apply Qfloor_resp_le.
  apply Qplus_le_l.
  repeat (apply Qmult_le_compat_r; [|done]).
  by rewrite <- Zle_Qle.
Qed.

(** X15. The usage [getStorageUsage] reports is never negative and never
    smaller for a longer stored text; an absent or empty slot counts as a
    text of length 0. *)
Theorem getStorageUsage_monotone (s1 s2 : state) :
  (default 0 (String.length <$> localStorage s1) ≤
   default 0 (String.length <$> localStorage s2))%nat →
  (0 <= getStorageUsage s1)%Q ∧ (getStorageUsage s1 <= getStorageUsage s2)%Q.
Proof.
  assert (∀ s, (getStorageUsage s ==
               usage_of_length (Z.of_nat (default 0%nat (String.length <$> localStorage s))))%Q)
    as Husage.
  { intros s. unfold getStorageUsage. destruct (localStorage s) as [[|c stored]|]; done. }
  intros Hle. rewrite !Husage. split.
  - assert (0 == usage_of_length 0)%Q as -> by done.
    apply usage_of_length_mono. lia.
  - apply usage_of_length_mono. lia.
Qed.

End Handlers.

(** ** Further worked examples *)

(** X1: a coat of the brand Acme added to the tops of [Demo.wardrobe]. *)
Lemma addItem_adds_one_witness :
  ∃ l,
    app (addItem (H := Demo.browser) (Some Demo.photo) "Acme" "Coat" "topwear" ""
           Demo.wardrobe) =
      set_topwear (VArr [VRef Demo.shirt; VRef l]) (app Demo.wardrobe).
Proof.
  destruct (addItem_adds_one (H := Demo.browser) Demo.photo "Acme" "Coat" "topwear" ""
              "data:image/jpeg;base64,BBBB" Demo.wardrobe [VRef Demo.shirt])
    as (l & _ & _ & Happ & _);
    [discriminate|discriminate|by vm_compute|reflexivity|reflexivity|].
  exists l. exact Happ.
Defined.

(** X2: a PDF offered as the image. *)
Lemma addItem_rejects_witness :
  app (addItem (H := Demo.browser) (Some Demo.leaflet) "Acme" "Coat" "topwear" ""
         Demo.wardrobe) = app Demo.wardrobe.
Proof.
  destruct (addItem_rejects (H := Demo.browser) (Some Demo.leaflet) "Acme" "Coat" "topwear" ""
              Demo.wardrobe) as (Happ & _).
  - right. right. right. exists Demo.leaflet. split; [reflexivity|left; by vm_compute].
  - exact Happ.
Defined.


(** X4: after the import of a file whose [savedOutfits] are an outfit of
    id 7 and a [null], the remove button of the outfit throws. *)
Lemma outfit_handlers_throw_on_null_witness :
  savedOutfits (app Demo.holed) = VArr [VRef 3%positive; VNull] ∧
  removeOutfit (H := Demo.browser) 7 Demo.holed = Uncaught "TypeError" Demo.holed ∧
  loadSavedOutfit 8 Demo.holed = Uncaught "TypeError" Demo.holed.
Proof.
  destruct (outfit_handlers_throw_on_null (H := Demo.browser) 7 Demo.holed
              [VRef 3%positive] []) as [Hremove _]; [by vm_compute|].
  destruct (outfit_handlers_throw_on_null (H := Demo.browser) 8 Demo.holed
              [VRef 3%positive] []) as [_ Hload]; [by vm_compute|].
  split; [by vm_compute|]. split; [exact Hremove|].
  apply Hload; repeat constructor; discriminate.
Defined.




(** X8: [Demo.saved] saved and loaded on a new page, with the printer and
    the parser of the stand-in browser. *)
Lemma save_load_roundtrip_witness :
  ∃ s',
    loadFromLocalStorage (H := Demo.browser) Demo.reopened = (true, s') ∧
    to_json (heap s') (savedOutfits (app s')) =
      to_json (heap Demo.saved) (savedOutfits (app Demo.saved)).
Proof.
  edestruct (save_load_roundtrip (H := Demo.browser) Demo.saved Demo.reopened)
    as (s' & Hload & _ & _ & _ & _ & _ & _ & Houtfits & _).
  - reflexivity.
  - reflexivity.
  - reflexivity.
  - vm_compute. reflexivity.
  - by vm_compute.
  - by vm_compute.
  - by vm_compute.
  - reflexivity.
  - exists s'. split; [exact Hload|exact Houtfits].
Defined.

(** X11: after the import of a file whose [topwear] is the number 5. *)
Lemma push_to_non_array_witness :
  app (bulkImportImages (H := Demo.browser) [Demo.photo; Demo.photo] "topwear" Demo.odd) =
    app Demo.odd ∧
  topwear (app Demo.odd) = VNum 5.
Proof.
  destruct (push_to_non_array (H := Demo.browser) "topwear" Demo.odd) as [Hbulk _].
  - intros old. by vm_compute.
  - destruct (Hbulk Demo.photo [Demo.photo]) as [Happ _].
    split; [exact Happ|reflexivity].
Defined.


(** X15: [Demo.corrupted] holds five characters, [Demo.wardrobe] none. *)
Lemma getStorageUsage_monotone_witness :
  (getStorageUsage Demo.wardrobe <= getStorageUsage Demo.corrupted)%Q.
Proof.
  destruct (getStorageUsage_monotone Demo.wardrobe Demo.corrupted) as [_ Hle].
  - simpl. lia.
  - exact Hle.
Defined.

(** ** The handlers with their rendering *)

Section Rendering.

Context `{Browser} `{Display}.

(** A save never touches [app], the objects or the clock reading it made,
    and only adds toasts. *)
Lemma rendered_saveToLocalStorage_frame (s : state) :
  app (Rendered.saveToLocalStorage s) = app s ∧
  heap (Rendered.saveToLocalStorage s) = heap s ∧
  ticks (Rendered.saveToLocalStorage s) = S (ticks s) ∧
  ∃ shown, notifications (Rendered.saveToLocalStorage s) = (notifications s ++ shown)%list.
Proof.
  unfold Rendered.saveToLocalStorage. simpl.
  destruct (literal_to_json _ _) as [data|]; [|repeat split; by eexists].
  destruct (setItem_error _) as [name|].
  - destruct (String.eqb name _); repeat split; by eexists.
  - destruct (updateStorageInfo_throws _) as [name|].
    + destruct (String.eqb name _); repeat split; by eexists.
    + repeat split. exists []. simpl. by rewrite app_nil_r.
Qed.


End Rendering.

(** ** Equal data after a round trip *)

Lemma forallb_Forall {A} (f : A → bool) (xs : list A) :
  forallb f xs = true ↔ Forall (λ x, f x = true) xs.
Proof.
  induction xs as [|x xs IH]; simpl; [by split; [constructor|]|].
  rewrite andb_true_iff, Forall_cons, IH. done.
Qed.

Lemma same_data_mono (h h1 h2 : gmap loc object) :
  h1 ⊆ h2 → ∀ v v', same_data h h1 v v' → same_data h h2 v v'.
Proof.
  intros Hsub. fix IH 3.
  intros v v' [| |b|n|str|vs vs' Hall|l l' o o' Hl Hl' Hall].
  - constructor.
  - constructor.
  - constructor.
  - constructor.
  - constructor.
  - constructor. revert vs vs' Hall. fix IHl 3.
    intros vs vs' [|x y xs ys Hxy Hrest]; constructor; [apply IH, Hxy|apply IHl, Hrest].
  - econstructor; [exact Hl|eapply lookup_weaken; [exact Hl'|exact Hsub]|].
    clear Hl Hl'. revert o o' Hall. fix IHl 3.
    intros o o' [|x y xs ys [Hk Hxy] Hrest]; constructor;
      [split; [exact Hk|apply IH, Hxy]|apply IHl, Hrest].
Qed.

(** The values [JSON.parse] builds for a list of documents, one after the
    other, hold the data of the values the documents were printed from. *)
Lemma build_list_same_data (h : gmap loc object) (vs : list value) (js : list json) :
  Forall2 (λ v j, ∀ h0 v' h', from_json j h0 = (v', h') → same_data h h' v v') vs js →
  ∀ h0 vs' h',
    build_list from_json js h0 = (vs', h') →
    h0 ⊆ h' ∧ Forall2 (same_data h h') vs vs'.
Proof.
  induction 1 as [|v j vs js Hv _ IH]; intros h0 vs' h'; simpl.
  - intros [= <- <-]. by split.
  - destruct (from_json j h0) as [v1 h1] eqn:Hj.
    destruct (build_list from_json js h1) as [vs1 h2] eqn:Hjs.
    intros [= <- <-].
    destruct (from_json_spec _ _ _ _ Hj) as (Hsub1 & _).
    destruct (IH _ _ _ Hjs) as [Hsub2 Hall].
    split; [by etrans|]. constructor; [|done].
    eapply same_data_mono; [exact Hsub2|]. by eapply Hv.
Qed.

Lemma build_props_same_data (h : gmap loc object) (o : object) (ps : list (string * json)) :
  Forall2 (λ kv p, kv.1 = p.1 ∧
             ∀ h0 v' h', from_json p.2 h0 = (v', h') → same_data h h' kv.2 v') o ps →
  ∀ h0 o' h',
    build_list (λ p h, let '(v, h1) := from_json p.2 h in ((p.1, v), h1)) ps h0 = (o', h') →
    h0 ⊆ h' ∧ Forall2 (λ kv kv', kv.1 = kv'.1 ∧ same_data h h' kv.2 kv'.2) o o'.
Proof.
  induction 1 as [|[k v] [k' j] o ps [Hk Hv] _ IH]; intros h0 o' h'; simpl.
  - intros [= <- <-]. by split.
  - destruct (from_json j h0) as [v1 h1] eqn:Hj.
    destruct (build_list _ ps h1) as [o1 h2] eqn:Hps.
    intros [= <- <-].
    destruct (from_json_spec _ _ _ _ Hj) as (Hsub1 & _).
    destruct (IH _ _ _ Hps) as [Hsub2 Hall].
    split; [by etrans|]. constructor; [|done]. simpl in *.
    split; [done|]. eapply same_data_mono; [exact Hsub2|]. by eapply Hv.
Qed.

(** The properties of a plain object line up with the properties printed. *)
Lemma props_to_json_plain (f : value → option json) (o : object) (ps : list (string * json)) :
  props_to_json f o = Some ps →
  Forall (λ kv : string * value, plain_value kv.2 = true) o →
  Forall2 (λ kv p, kv.1 = p.1 ∧ f kv.2 = Some p.2) o ps.
Proof.
  intros Hps Hplain. revert ps Hps.
  induction Hplain as [|[k v] o Hv _ IH]; intros ps; simpl.
  - intros [= <-]. constructor.
  - simpl in Hv.
    assert ((j ← f v; js ← props_to_json f o; Some ((k, j) :: js)) = Some ps →
            Forall2 (λ kv p, kv.1 = p.1 ∧ f kv.2 = Some p.2) ((k, v) :: o) ps) as Hbind.
    { destruct (f v) as [j|] eqn:Hj; [|done]. simpl.
      destruct (props_to_json f o) as [js|]; [|done]. simpl.
      intros [= <-]. constructor; [done|]. by apply IH. }
    by destruct v.
Qed.

(** What [JSON.parse] builds from the document of a plain value holds the
    data of that value. *)
Lemma from_json_same_data (h : gmap loc object) :
  plain_heap h →
  ∀ fuel v j,
    to_json_fuel fuel h v = Some j → plain_value v = true →
    ∀ h0 v' h', from_json j h0 = (v', h') → same_data h h' v v'.
Proof.
  intros Hheap. induction fuel as [|n IHn];
    (intros v; induction v as [| |b|m|str|vs IHvs|l] using value_ind'; intros j;
     rewrite to_json_fuel_unfold; try done;
     try (intros [= <-] _ h0 v' h' [= <- <-]; constructor)).
  - intros Hj Hplain h0 v' h'.
    destruct (mapM _ vs) as [js|] eqn:Hjs; [|done]. injection Hj as <-.
    apply mapM_Some in Hjs. simpl.
    destruct (build_list from_json js h0) as [vs' h1] eqn:Hb. intros [= <- <-].
    constructor. eapply build_list_same_data; [|exact Hb].
    simpl in Hplain. apply forallb_Forall in Hplain.
    clear -IHvs Hjs Hplain. induction Hjs as [|v j vs js Hvj _ IH]; [constructor|].
    apply Forall_cons in IHvs as [Hv IHvs]. apply Forall_cons in Hplain as [Hpv Hplain].
    constructor; [|by apply IH].
    intros h0 v' h'. by apply Hv.
  - intros Hj Hplain h0 v' h'.
    destruct (mapM _ vs) as [js|] eqn:Hjs; [|done]. injection Hj as <-.
    apply mapM_Some in Hjs. simpl.
    destruct (build_list from_json js h0) as [vs' h1] eqn:Hb. intros [= <- <-].
    constructor. eapply build_list_same_data; [|exact Hb].
    simpl in Hplain. apply forallb_Forall in Hplain.
    clear -IHvs Hjs Hplain. induction Hjs as [|v j vs js Hvj _ IH]; [constructor|].
    apply Forall_cons in IHvs as [Hv IHvs]. apply Forall_cons in Hplain as [Hpv Hplain].
    constructor; [|by apply IH].
    intros h0 v' h'. by apply Hv.
  - destruct (h !! l) as [o|] eqn:Hl; [|done]. simpl.
    destruct (props_to_json _ o) as [ps|] eqn:Hps; [|done].
    intros [= <-] _ h0 v' h'. simpl.
    destruct (build_list _ ps h0) as [o' h1] eqn:Hb. intros [= <- <-].
    pose proof (Hheap l o Hl) as Ho. simpl in Ho.
    pose proof (props_to_json_plain _ _ _ Hps Ho) as Hall.
    destruct (build_props_same_data h o ps) with (h0 := h0) (o' := o') (h' := h1)
      as [Hsub Hsame]; [|done|].
    { clear -IHn Hall Ho. induction Hall as [|[k v] [k' j] o ps [Hk Hv] _ IH]; [constructor|].
      apply Forall_cons in Ho as [Hpv Ho]. constructor; [|by apply IH].
      split; [done|]. intros h0 v' h'. by apply IHn. }
    set (l' := fresh (dom h1)).
    assert (h1 !! l' = None) as Hl' by (apply not_elem_of_dom, is_fresh).
    econstructor; [exact Hl|apply lookup_insert_eq|].
    eapply Forall2_impl; [exact Hsame|].
    intros kv kv' [Hk Hkv]. split; [done|].
    eapply same_data_mono; [|exact Hkv]. by apply insert_subseteq.
Qed.

(** A field of a parsed object was built by [JSON.parse] from the field of
    the document. *)
Lemma build_props_field (ps : list (string * json)) (k : string) (j : json) :
  assoc k ps = Some j →
  ∀ h0 o h1,
    build_list (λ p h, let '(v, h1) := from_json p.2 h in ((p.1, v), h1)) ps h0 = (o, h1) →
    ∃ v ha hb, assoc k o = Some v ∧ from_json j ha = (v, hb) ∧ hb ⊆ h1.
Proof.
  induction ps as [|[k' j'] ps IH]; [done|]. simpl. intros Hk h0 o h1.
  destruct (from_json j' h0) as [v1 ha] eqn:Hj.
  destruct (build_list _ ps ha) as [o1 hb] eqn:Hps.
  intros [= <- <-]. simpl.
  assert (ha ⊆ hb) as Hsub.
  { clear -Hps. revert ha o1 hb Hps. induction ps as [|[k j] ps IH]; intros ha o1 hb; simpl.
    - by intros [= <- <-].
    - destruct (from_json j ha) as [v hc] eqn:Hj.
      destruct (build_list _ ps hc) as [o2 hd] eqn:Hps.
      intros [= <- <-]. destruct (from_json_spec _ _ _ _ Hj) as [Hs _].
      etrans; [exact Hs|]. by eapply IH. }
  destruct (String.eqb k k').
  - injection Hk as <-. by exists v1, h0, ha.
  - by eapply IH.
Qed.

Lemma from_json_object_field (ps : list (string * json)) (h : gmap loc object)
    (k : string) (j : json) :
  assoc k ps = Some j →
  ∃ v ha hb,
    get_prop (from_json (JObj ps) h).2 (from_json (JObj ps) h).1 k = Some v ∧
    from_json j ha = (v, hb) ∧ hb ⊆ (from_json (JObj ps) h).2.
Proof.
  intros Hk. simpl.
  destruct (build_list _ ps h) as [o h1] eqn:Hbuild.
  destruct (build_props_field ps k j Hk _ _ _ Hbuild) as (v & ha & hb & Hv & Hfrom & Hsub).
  exists v, ha, hb. cbn [fst snd get_prop]. rewrite lookup_insert_eq, Hv.
  split; [done|]. split; [done|].
  etrans; [exact Hsub|]. apply insert_subseteq, not_elem_of_dom, is_fresh.
Qed.

Section Roundtrip.

Context `{Browser} `{Display}.

(** What the import handler does, case by case: a text that does not parse
    and the document [null] end in the error toast with nothing changed;
    every other document is assigned and saved, and the closing toast is
    the one of success when [renderUI()] returns and the error toast when
    it throws. *)
Lemma rendered_importWardrobe_cases (text : string) (s : state) :
  match JSON_parse text with
  | None | Some JNull =>
      Rendered.importWardrobe text s = showNotification "✗ Error importing config" "error" s
  | Some j =>
      let s2 :=
        Rendered.saveToLocalStorage
          (set_app (assigned (from_json j (heap s)).2 (from_json j (heap s)).1 (app s))
             (set_heap (from_json j (heap s)).2 s)) in
      Rendered.importWardrobe text s =
        match renderUI_throws s2 with
        | None => showNotification "✓ Wardrobe imported successfully!" "success" s2
        | Some _ => showNotification "✗ Error importing config" "error" s2
        end
  end.
Proof.
  unfold Rendered.importWardrobe.
  destruct (JSON_parse text) as [j|]; [|done].
  destruct j as [|b|n|str|js|ps].
  - by destruct s.
  - done.
  - done.
  - done.
  - simpl. by destruct (build_list from_json js (heap s)).
  - destruct (from_json_object ps (heap s)) as (o & l & h1 & -> & _).
    unfold assigned, field_or_empty.
    cbn [get_prop heap set_heap set_app app fst snd].
    rewrite !lookup_insert_eq. done.
Qed.

(** The page after the import of a document other than [null]. *)
Lemma rendered_importWardrobe_state (text : string) (s : state) (j : json) :
  JSON_parse text = Some j → j ≠ JNull →
  app (Rendered.importWardrobe text s) =
    assigned (from_json j (heap s)).2 (from_json j (heap s)).1 (app s) ∧
  heap (Rendered.importWardrobe text s) = (from_json j (heap s)).2.
Proof.
  intros Hparse Hj. pose proof (rendered_importWardrobe_cases text s) as Himp.
  rewrite Hparse in Himp.
  assert (∀ s2 : state,
            app (match renderUI_throws s2 with
                 | None => showNotification "✓ Wardrobe imported successfully!" "success" s2
                 | Some _ => showNotification "✗ Error importing config" "error" s2
                 end) = app s2 ∧
            heap (match renderUI_throws s2 with
                  | None => showNotification "✓ Wardrobe imported successfully!" "success" s2
                  | Some _ => showNotification "✗ Error importing config" "error" s2
                  end) = heap s2) as Hend.
  { intros s2. by destruct (renderUI_throws s2). }
  destruct j; try done; rewrite Himp; cbv zeta;
    match goal with |- context [Rendered.saveToLocalStorage ?s1] =>
      destruct (Hend (Rendered.saveToLocalStorage s1)) as [-> ->];
      destruct (rendered_saveToLocalStorage_frame s1) as (-> & -> & _)
    end; done.
Qed.

End Roundtrip.

(** ** The index of a draw in binary64 *)

(** Rounding moves an integer by at most half a unit of the last place kept,
    and never across a multiple of that unit. *)
Lemma round_half_even_spec (a s : Z) :
  0 ≤ a → 0 < s →
  a - 2 ^ (s - 1) ≤ round_half_even a s * 2 ^ s ≤ a + 2 ^ (s - 1) ∧
  (∀ j, j * 2 ^ s ≤ a → j ≤ round_half_even a s) ∧
  (∀ j, a ≤ j * 2 ^ s → round_half_even a s ≤ j).
Proof.
  intros Ha Hs. unfold round_half_even.
  destruct (Z.leb_spec s 0) as [?|_]; [lia|].
  assert (0 < 2 ^ s) as Hpow by (apply Z.pow_pos_nonneg; lia).
  assert (2 ^ s = 2 * 2 ^ (s - 1)) as Hhalf.
  { rewrite <- Z.pow_succ_r by lia. f_equal. lia. }
  pose proof (Z.div_mod a (2 ^ s) ltac:(lia)) as Hdiv.
  pose proof (Z.mod_pos_bound a (2 ^ s) Hpow) as Hmod.
  set (q := a / 2 ^ s) in *. set (rest := a mod 2 ^ s) in *.
  set (half := 2 ^ (s - 1)) in *.
  assert (∀ j, j * 2 ^ s ≤ a → j ≤ q) as Hlow.
  { intros j Hj. unfold q. apply Z.div_le_lower_bound; lia. }
  assert (∀ j, a ≤ j * 2 ^ s → q + 1 ≤ j ∨ (q = j ∧ rest = 0)) as Hup.
  { intros j Hj. destruct (Z.le_gt_cases j q) as [Hle|?]; [|lia]. right. nia. }
  destruct (Z.ltb_spec rest half) as [Hlt|Hge].
  { split; [nia|]. split; [exact Hlow|]. intros j Hj. destruct (Hup j Hj); lia. }
  assert (∀ j, a ≤ j * 2 ^ s → q + 1 ≤ j) as Hup'.
  { intros j Hj. destruct (Hup j Hj) as [?|[_ ?]]; [done|]. lia. }
  destruct (Z.ltb_spec half rest) as [Hgt|Hle].
  { split; [nia|]. split; [|exact Hup']. intros j Hj. specialize (Hlow j Hj). lia. }
  destruct (Z.even q).
  - split; [nia|]. split; [exact Hlow|]. intros j Hj. specialize (Hup' j Hj). lia.
  - split; [nia|]. split; [|exact Hup']. intros j Hj. specialize (Hlow j Hj). lia.
Qed.

(** The bits that binary64 drops from an integer. *)
Lemma dropped_bits_spec (a : Z) :
  0 ≤ a →
  0 ≤ dropped_bits a ∧
  (dropped_bits a = 0 → a < 2 ^ 53) ∧
  (0 < dropped_bits a → 2 ^ (dropped_bits a + 52) ≤ a).
Proof.
  intros Ha. unfold dropped_bits. split; [lia|].
  destruct (Z.eq_dec a 0) as [->|Hne]; [simpl; split; [done|lia]|].
  pose proof (Z.log2_spec a ltac:(lia)) as [Hlo Hhi].
  pose proof (Z.log2_nonneg a) as Hlog.
  split.
  - intros Hzero. eapply Z.lt_le_trans; [exact Hhi|].
    apply Z.pow_le_mono_r; lia.
  - intros Hpos. replace (Z.max 0 (Z.log2 a - 52) + 52) with (Z.log2 a) by lia. done.
Qed.

(** The index of a draw and the exact product, for an array of at least
    one element: the index is an index of the array; it is [k] for every
    draw from [k / n] to [(k + 1) / n] less one unit of the draw, and only
    for draws between [k / n] less one unit and [(k + 1) / n]. *)
Lemma random_index_binary64 (r : draw) (n : nat) :
  is_draw r → (0 < n)%nat →
  0 ≤ Rendered.random_index r n < Z.of_nat n ∧
  (Z.of_nat n < 2 ^ 32 →
   ∀ k,
     (k * 2 ^ scale r ≤ mantissa r * Z.of_nat n ∧
      mantissa r * Z.of_nat n + Z.of_nat n ≤ (k + 1) * 2 ^ scale r →
      Rendered.random_index r n = k) ∧
     (Rendered.random_index r n = k →
      k * 2 ^ scale r - Z.of_nat n < mantissa r * Z.of_nat n < (k + 1) * 2 ^ scale r)).
Proof.
  intros ([Hm0 Hm53] & [HP0 _] & HmP) Hn. unfold Rendered.random_index.
  set (m := mantissa r) in *. set (P := scale r) in *. set (N := Z.of_nat n).
  assert (0 < N) as HN by (unfold N; lia).
  set (M := m * N).
  assert (0 ≤ M) as HM by (unfold M; nia).
  assert (0 < 2 ^ P) as HpowP by (apply Z.pow_pos_nonneg; lia).
  assert (M + N ≤ 2 ^ P * N) as HMP by (unfold M; nia).
  destruct (dropped_bits_spec M HM) as (Hs0 & Hzero & Hpos).
  set (s := dropped_bits M) in *.
  set (R := round_half_even M s).
  assert (0 < 2 ^ s) as Hpows by (apply Z.pow_pos_nonneg; lia).
  (* what rounding can do *)
  assert (M - N < R * 2 ^ s < M + N ∧
          (s ≤ P → (∀ j, j * 2 ^ P ≤ M → j * 2 ^ P ≤ R * 2 ^ s) ∧
                   (∀ j, M ≤ j * 2 ^ P → R * 2 ^ s ≤ j * 2 ^ P)))
    as (Hnear & Hgrid).
  { destruct (Z.eq_dec s 0) as [Hs|Hs].
    - assert (R = M) as -> by (unfold R, round_half_even; rewrite Hs; done).
      rewrite Hs, Z.pow_0_r, Z.mul_1_r. split; [lia|]. intros _. split; intros j Hj; lia.
    - assert (0 < s) as Hspos by lia.
      destruct (round_half_even_spec M s HM Hspos) as (Hbounds & Hlow & Hup).
      fold R in Hbounds, Hlow, Hup.
      specialize (Hpos Hspos).
      assert (2 ^ (s - 1) < N) as Hhalf.
      { assert (2 ^ (s + 52) = 2 ^ (s - 1) * 2 ^ 53) as Heq.
        { rewrite <- Z.pow_add_r by lia. f_equal. lia. }
        assert (M < 2 ^ 53 * N) by (unfold M; nia).
        assert (0 < 2 ^ (s - 1)) by (apply Z.pow_pos_nonneg; lia).
        nia. }
      split; [lia|]. intros HsP.
      assert (2 ^ P = 2 ^ (P - s) * 2 ^ s) as Hsplit.
      { rewrite <- Z.pow_add_r by lia. f_equal. lia. }
      split; intros j Hj.
      + specialize (Hlow (j * 2 ^ (P - s))). rewrite Hsplit in *. nia.
      + specialize (Hup (j * 2 ^ (P - s))). rewrite Hsplit in *. nia. }
  assert (0 ≤ R) as HR.
  { destruct (Z.eq_dec s 0) as [Hs|Hs].
    - unfold R, round_half_even. rewrite Hs. done.
    - destruct (round_half_even_spec M s HM ltac:(lia)) as (_ & Hlow & _).
      apply (Hlow 0). lia. }
  split.
  - split.
    + apply Z.div_pos; [nia|done].
    + apply Z.div_lt_upper_bound; [done|]. lia.
  - intros Hbound.
    assert (s ≤ P) as HsP.
    { destruct (Z.eq_dec s 0) as [Hs|Hs]; [lia|].
      specialize (Hpos ltac:(lia)).
      destruct (Z.le_gt_cases s P) as [?|Hgt]; [done|].
      assert (2 ^ P * 2 ^ 52 ≤ 2 ^ (s + 52)) as Hle.
      { rewrite <- Z.pow_add_r by lia. apply Z.pow_le_mono_r; lia. }
      assert (2 ^ 32 < 2 ^ 52) by done.
      fold N in Hbound. nia. }
    destruct (Hgrid HsP) as [Hlow Hup].
    intros k. split.
    + intros [Hk1 Hk2]. fold m P N M in Hk1, Hk2.
      apply Z.le_antisymm.
      * apply Z.lt_succ_r. apply Z.div_lt_upper_bound; [done|]. lia.
      * apply Z.div_le_lower_bound; [done|]. specialize (Hlow k). lia.
    + intros Hidx. fold m P N M.
      assert (k * 2 ^ P ≤ R * 2 ^ s < (k + 1) * 2 ^ P) as [Hk1 Hk2].
      { rewrite <- Hidx.
        pose proof (Z.mul_div_le (R * 2 ^ s) (2 ^ P) HpowP).
        pose proof (Z.mul_succ_div_gt (R * 2 ^ s) (2 ^ P) HpowP). lia. }
      split; [lia|].
      destruct (Z.lt_ge_cases M ((k + 1) * 2 ^ P)) as [?|Hge]; [done|].
      specialize (Hlow (k + 1)). lia.
Qed.


(** [Rendered.random_index] and the multiplication of the Standard Library
    agree at the draws of [Demo.draws]; at the first the exact product
    has the floor 1 and the double the floor 2. *)
Lemma random_index_SpecFloat :
  Forall (λ rn : draw * nat, Rendered.random_index rn.1 rn.2 = floor_product rn.1 rn.2)
    Demo.draws ∧
  floor_product Demo.below_two_thirds 3 = 2 ∧
  floor_product (mkDraw 3752999689475413 52) 6 = 5.
Proof.
  split; [|by vm_compute].
  unfold Demo.draws. repeat (constructor; [vm_compute; reflexivity|]). constructor.
Qed.

Section Shuffle.

Context `{Browser} `{Display}.


End Shuffle.

(** ** Sessions with rendering *)

Section RenderedSessions.

Context `{Browser} `{Display}.

Lemma rendered_final (thrown : option string) (s : state) : final (rendered thrown s) = s.
Proof. by destruct thrown. Qed.

(** No handler writes to an object, rendering or not: the store only grows. *)
Lemma rendered_perform_heap (a : Rendered.action) (s : state) (o : outcome) :
  Rendered.perform a s = Some o → heap s ⊆ heap (final o).
Proof.
  destruct a as [imageFile brand productName category shoppingLink|files category
                |i|i|r1 r2| |outfitId|outfitId| |text| |confirmed]; simpl.
  - intros [= <-]. simpl.
    unfold Rendered.addItem. destruct imageFile as [file|]; [|done].
    destruct (_ || _); [done|].
    destruct (validateImageFile_frame file s) as (_ & _ & Hh & _).
    destruct (validateImageFile file s) as [valid s1]. simpl in Hh. rewrite <- Hh.
    destruct valid; simpl; [|done].
    destruct (f_dataURL file) as [img|]; [|done]. simpl.
    match goal with |- context [set_heap (<[?l := ?o]> _) _] =>
      assert (heap s1 ⊆ <[l := o]> (heap s1)) as Hsub
        by apply insert_subseteq, not_elem_of_dom, is_fresh end.
    destruct (push_item _ _ _) as [s5|] eqn:Hpush; [|done].
    assert (heap s1 ⊆ heap (showNotification "✓ Item added successfully!" "success"
                              (Rendered.saveToLocalStorage s5))) as Hs6.
    { simpl. destruct (rendered_saveToLocalStorage_frame s5) as (_ & -> & _).
      by rewrite (push_item_heap _ _ _ _ Hpush). }
    by destruct (renderUI_throws _).
  - intros [= <-]. simpl.
    unfold Rendered.bulkImportImages. destruct (_ =? _)%nat; [done|].
    pose proof (bulkImport_loop_heap category files 0 0 0 s) as Hloop.
    destruct (bulkImport_loop _ _ _ _ _ _) as [[sc fc] s1]. simpl in Hloop.
    assert (heap s ⊆ heap (showNotification (bulk_message sc fc) "success"
                             (Rendered.saveToLocalStorage s1))) as Hs3.
    { simpl. by destruct (rendered_saveToLocalStorage_frame s1) as (_ & -> & _). }
    by destruct (renderUI_throws _).
  - destruct (thumbnail _ _); intros [= <-]; [|done].
    unfold Rendered.selectTop. by rewrite rendered_final.
  - destruct (thumbnail _ _); intros [= <-]; [|done].
    unfold Rendered.selectBottom. by rewrite rendered_final.
  - unfold Rendered.shuffleOutfit.
    destruct (topwear (app s)) as [| | | | |tops|]; try done.
    destruct (length tops =? 0)%nat; [by intros [= <-]|].
    destruct (bottomwear (app s)) as [| | | | |bottoms|]; try done.
    destruct (length bottoms =? 0)%nat; intros [= <-]; [done|].
    by rewrite rendered_final.
  - intros [= <-]. unfold Rendered.saveOutfit. destruct (_ || _); [done|]. simpl.
    assert (heap s ⊆ <[fresh (dom (heap s)) :=
              [("id", VNum (clock (ticks s))); ("top", selectedTop (app s));
               ("bottom", selectedBottom (app s))]]> (heap s)) as Hsub.
    { apply insert_subseteq, not_elem_of_dom, is_fresh. }
    destruct (push _ _); simpl; [|done]. rewrite rendered_final. simpl.
    match goal with |- context [Rendered.saveToLocalStorage ?s2] =>
      destruct (rendered_saveToLocalStorage_frame s2) as (_ & -> & _) end. done.
  - intros [= <-]. unfold Rendered.removeOutfit. destruct (savedOutfits (app s)); try done.
    destruct (filter_outfits _ _ _); [|done]. simpl. rewrite rendered_final.
    match goal with |- context [Rendered.saveToLocalStorage ?s2] =>
      destruct (rendered_saveToLocalStorage_frame s2) as (_ & -> & _) end. done.
  - intros [= <-]. unfold Rendered.loadSavedOutfit. destruct (savedOutfits (app s)); try done.
    destruct (find_outfit _ _ _) as [outfit|]; [|done].
    destruct (truthy outfit); [|done].
    destruct (get_prop (heap s) outfit "top"); [|done]. simpl.
    destruct (get_prop (heap s) outfit "bottom"); [|done]. by rewrite rendered_final.
  - intros [= <-]. unfold exportWardrobe. simpl. by destruct (literal_to_json _ _).
  - intros [= <-]. simpl.
    pose proof (rendered_importWardrobe_cases text s) as Himp.
    destruct (JSON_parse text) as [j|] eqn:Hparse; [|by rewrite Himp].
    assert (j = JNull ∨ j ≠ JNull) as [-> | Hj] by (destruct j; [by left|by right..]).
    { by rewrite Himp. }
    destruct (rendered_importWardrobe_state text s j Hparse Hj) as [_ ->].
    destruct (from_json j (heap s)) as [v h1] eqn:Hfrom.
    by destruct (from_json_spec _ _ _ _ Hfrom).
  - intros [= <-]. unfold Rendered.on_load.
    assert (heap s ⊆ heap (loadFromLocalStorage s).2) as Hsub.
    { pose proof (loadFromLocalStorage_cases s) as Hload.
      destruct (localStorage s) as [stored|]; [|by rewrite Hload].
      destruct (truthy (VStr stored)); [|by rewrite Hload].
      destruct (JSON_parse stored) as [j|]; [|by rewrite Hload].
      assert (heap s ⊆ (from_json j (heap s)).2) as Hsub.
      { destruct (from_json j (heap s)) as [v h1] eqn:Hj.
        by destruct (from_json_spec _ _ _ _ Hj). }
      destruct j; rewrite Hload; done. }
    destruct (loadFromLocalStorage s) as [ok s1]. by rewrite rendered_final.
  - intros [= <-]. unfold Rendered.clearAllData. destruct confirmed; [|done].
    by destruct (renderUI_throws _).
Qed.

Lemma rendered_run_heap (actions : list Rendered.action) (s s' : state) :
  Rendered.run actions s = Some s' → heap s ⊆ heap s'.
Proof.
  revert s. induction actions as [|a actions IH]; intros s; simpl.
  - by intros [= <-].
  - destruct (Rendered.perform a s) as [o|] eqn:Ho; [|done]. simpl.
    intros Hrun. etrans; [by eapply rendered_perform_heap|by apply IH].
Qed.

End RenderedSessions.

(** ** Every page of a session is plain *)

Lemma plain_heap_insert (h : gmap loc object) (l : loc) (o : object) :
  plain_heap h → Forall (λ kv : string * value, plain_value kv.2 = true) o →
  plain_heap (<[l := o]> h).
Proof. intros Hh Ho. by apply map_Forall_insert_2. Qed.

Lemma plain_value_app (vs ws : list value) :
  plain_value (VArr vs) = true → plain_value (VArr ws) = true →
  plain_value (VArr (vs ++ ws)) = true.
Proof. simpl. rewrite forallb_app. by intros -> ->. Qed.

(** [JSON.parse] builds plain values. *)
Lemma from_json_plain (j : json) :
  ∀ h v h', from_json j h = (v, h') → plain_heap h → plain_heap h' ∧ plain_value v = true.
Proof.
  induction j as [|b|n|str|js IH|ps IH] using json_ind'; intros h v h'; simpl;
    try (intros [= <- <-]; done).
  - destruct (build_list from_json js h) as [vs h1] eqn:Hb. intros [= <- <-] Hh.
    simpl. rewrite forallb_Forall.
    clear -IH Hb Hh. revert h vs h1 Hb Hh.
    induction IH as [|j js Hj _ IHjs]; intros h vs h2; simpl.
    + intros [= <- <-]. by split.
    + destruct (from_json j h) as [v ha] eqn:Hv.
      destruct (build_list from_json js ha) as [vs' hb] eqn:Hvs.
      intros [= <- <-] Hh.
      destruct (Hj _ _ _ Hv Hh) as [Hha Hpv].
      destruct (IHjs _ _ _ Hvs Hha) as [Hhb Hall].
      split; [done|]. by constructor.
  - destruct (build_list _ ps h) as [o h1] eqn:Hb. intros [= <- <-] Hh.
    assert (plain_heap h1 ∧ Forall (λ kv : string * value, plain_value kv.2 = true) o)
      as [Hh1 Ho].
    { clear -IH Hb Hh. revert h o h1 Hb Hh.
      induction IH as [|[k j] ps Hj _ IHps]; intros h o h2; simpl.
      - intros [= <- <-]. by split.
      - destruct (from_json j h) as [v ha] eqn:Hv.
        destruct (build_list _ ps ha) as [o' hb] eqn:Ho.
        intros [= <- <-] Hh.
        destruct (Hj _ _ _ Hv Hh) as [Hha Hpv].
        destruct (IHps _ _ _ Ho Hha) as [Hhb Hall].
        split; [done|]. by constructor. }
    split; [|done]. by apply plain_heap_insert.
Qed.

(** What is read off a value of a plain store is plain or [undefined]. *)
Lemma get_prop_plain (h : gmap loc object) (v x : value) (k : string) :
  plain_heap h → get_prop h v k = Some x → plain_or_undefined x.
Proof.
  intros Hh. destruct v as [| |b|n|str|vs|l]; simpl; try (intros [= <-]; by left).
  destruct (h !! l) as [o|] eqn:Hl; [|intros [= <-]; by left].
  intros [= <-]. specialize (Hh l o Hl). simpl in Hh. clear Hl.
  induction Hh as [|[k' v'] o' Hv _ IH]; simpl; [by left|].
  destruct (String.eqb k k'); [by right|exact IH].
Qed.

Lemma truthy_plain (v : value) :
  plain_or_undefined v → truthy v = true → plain_value v = true.
Proof. by intros [-> | ?]. Qed.

Lemma js_or_plain (v : value) :
  plain_or_undefined v → plain_value (js_or v (VArr [])) = true.
Proof.
  intros Hv. unfold js_or. destruct (truthy v) eqn:Ht; [by apply truthy_plain|done].
Qed.

Lemma field_or_empty_plain (h : gmap loc object) (v : value) (k : string) :
  plain_heap h → plain_value (field_or_empty h v k) = true.
Proof.
  intros Hh. unfold field_or_empty. apply js_or_plain.
  destruct (get_prop h v k) as [x|] eqn:Hx; [by eapply get_prop_plain|by left].
Qed.

Lemma js_index_plain (vs : list value) (i : Z) :
  plain_value (VArr vs) = true → plain_or_undefined (js_index vs i).
Proof.
  simpl. rewrite forallb_Forall, Forall_forall. intros Hvs. unfold js_index.
  destruct (i <? 0); [by left|].
  destruct (vs !! Z.to_nat i) as [v|] eqn:Hv; [|by left].
  right. apply Hvs. by eapply list_elem_of_lookup_2.
Qed.

Lemma plain_state_frame (s s' : state) :
  app s' = app s → heap s' = heap s → plain_state s → plain_state s'.
Proof. unfold plain_state, plain_page. by intros -> ->. Qed.

(** A new object with plain properties is made and pushed to a collection. *)
Lemma plain_state_push (category : string) (o : object) (s s1 s2 : state) :
  plain_state s → app s1 = app s → heap s1 = heap s →
  Forall (λ kv : string * value, plain_value kv.2 = true) o →
  let l := fresh (dom (heap s1)) in
  let s3 := set_heap (<[l := o]> (heap s1)) s1 in
  plain_state s3 ∧
  (push_item category (VRef l) s3 = Some s2 → plain_state s2).
Proof.
  intros ((Hh & Ht & Hb & Ho) & Hst & Hsb) Ha1 Hh1 Hobj l s3.
  assert (plain_state s3) as Hs3.
  { unfold plain_state, plain_page, s3. simpl. rewrite Ha1, Hh1.
    repeat split; try done. by apply plain_heap_insert. }
  split; [done|].
  unfold push_item, push. destruct Hs3 as ((Hh3 & Ht3 & Hb3 & Ho3) & Hst3 & Hsb3).
  destruct (String.eqb _ _).
  - destruct (topwear (app s3)) as [| | | | |tops|] eqn:Htops; try done.
    simpl. intros [= <-]. unfold plain_state, plain_page. simpl.
    repeat split; try done. by apply plain_value_app.
  - destruct (bottomwear (app s3)) as [| | | | |bottoms|] eqn:Hbottoms; try done.
    simpl. intros [= <-]. unfold plain_state, plain_page. simpl.
    repeat split; try done. by apply plain_value_app.
Qed.

Section PlainSessions.

Context `{Browser} `{Display}.

Lemma bulkImport_loop_plain (category : string) (files : list File) :
  ∀ i successCount failCount s,
    plain_state s →
    plain_state (bulkImport_loop category i files successCount failCount s).2.
Proof.
  induction files as [|file files IH]; intros i sc fc s Hs; [done|].
  simpl.
  destruct (validateImageFile_frame file s) as (_ & Ha & Hh & _).
  destruct (validateImageFile file s) as [valid s1]. simpl in Ha, Hh.
  assert (plain_state s1) as Hs1 by (by apply (plain_state_frame s)).
  destruct valid; simpl; [|by apply IH].
  destruct (f_dataURL file) as [img|]; [|by apply IH]. simpl.
  destruct (plain_state_push category
              [("id", VNum (clock (ticks s1) + Z.of_nat i)); ("brand", VStr "Imported");
               ("name", VStr (before_dot (f_name file))); ("image", VStr img);
               ("link", VNull); ("source", VStr "local");
               ("uploadedAt", VStr (toISOString (clock (S (ticks s1)))))]
              s1 (tick (tick s1))
              (default s1 (push_item category (VRef (fresh (dom (heap s1))))
                 (set_heap (<[fresh (dom (heap s1)) :=
                    [("id", VNum (clock (ticks s1) + Z.of_nat i)); ("brand", VStr "Imported");
                     ("name", VStr (before_dot (f_name file))); ("image", VStr img);
                     ("link", VNull); ("source", VStr "local");
                     ("uploadedAt", VStr (toISOString (clock (S (ticks s1)))))]]>
                    (heap s1)) (tick (tick s1))))) Hs1 eq_refl eq_refl)
    as [Hs3 Hpush].
  { by repeat constructor. }
  simpl in Hs3, Hpush.
  destruct (push_item _ _ _) as [s4|] eqn:Hp; apply IH; [by apply Hpush|done].
Qed.

Lemma rendered_perform_plain (a : Rendered.action) (s : state) (o : outcome) :
  plain_state s → Rendered.perform a s = Some o → plain_state (final o).
Proof.
  intros Hs. pose proof Hs as ((Hh & Ht & Hb & Ho) & Hst & Hsb).
  destruct a as [imageFile brand productName category shoppingLink|files category
                |i|i|r1 r2| |outfitId|outfitId| |text| |confirmed]; simpl.
  - intros [= <-]. simpl.
    unfold Rendered.addItem. destruct imageFile as [file|]; [|done].
    destruct (_ || _); [done|].
    destruct (validateImageFile_frame file s) as (_ & Ha & Hh1 & _).
    destruct (validateImageFile file s) as [valid s1]. simpl in Ha, Hh1.
    assert (plain_state s1) as Hs1 by (by apply (plain_state_frame s)).
    destruct valid; simpl; [|done].
    destruct (f_dataURL file) as [img|]; [|done]. simpl.
    match goal with |- context [set_heap (<[_ := ?o]> _) _] =>
      destruct (plain_state_push category o s1 (tick (tick s1))
                  (default s1 (push_item category (VRef (fresh (dom (heap s1))))
                     (set_heap (<[fresh (dom (heap s1)) := o]> (heap s1)) (tick (tick s1)))))
                  Hs1 eq_refl eq_refl)
        as [Hs3 Hpush] end.
    { repeat constructor. simpl. unfold js_or. by destruct (truthy _). }
    simpl in Hs3, Hpush.
    destruct (push_item _ _ _) as [s5|] eqn:Hp; [|done].
    specialize (Hpush eq_refl). simpl in Hpush.
    assert (plain_state (showNotification "✓ Item added successfully!" "success"
                           (Rendered.saveToLocalStorage s5))) as Hs6.
    { destruct (rendered_saveToLocalStorage_frame s5) as (Ha5 & Hh5 & _).
      by apply (plain_state_frame s5). }
    by destruct (renderUI_throws _).
  - intros [= <-]. simpl.
    unfold Rendered.bulkImportImages. destruct (_ =? _)%nat; [done|].
    pose proof (bulkImport_loop_plain category files 0 0 0 s Hs) as Hloop.
    destruct (bulkImport_loop _ _ _ _ _ _) as [[sc fc] s1]. simpl in Hloop.
    assert (plain_state (showNotification (bulk_message sc fc) "success"
                           (Rendered.saveToLocalStorage s1))) as Hs3.
    { destruct (rendered_saveToLocalStorage_frame s1) as (Ha1 & Hh1 & _).
      by apply (plain_state_frame s1). }
    by destruct (renderUI_throws _).
  - unfold thumbnail. destruct (topwear (app s)) as [| | | | |tops|] eqn:Htops;
      try (intros [= <-]; done).
    destruct (tops !! i) as [item|] eqn:Hi; intros [= <-]; [|done].
    unfold Rendered.selectTop. rewrite rendered_final.
    unfold plain_state, plain_page. simpl. rewrite Htops.
    repeat split; try done. right.
    simpl in Ht. rewrite forallb_Forall, Forall_forall in Ht.
    apply Ht. by eapply list_elem_of_lookup_2.
  - unfold thumbnail. destruct (bottomwear (app s)) as [| | | | |bottoms|] eqn:Hbottoms;
      try (intros [= <-]; done).
    destruct (bottoms !! i) as [item|] eqn:Hi; intros [= <-]; [|done].
    unfold Rendered.selectBottom. rewrite rendered_final.
    unfold plain_state, plain_page. simpl. rewrite Hbottoms.
    repeat split; try done. right.
    simpl in Hb. rewrite forallb_Forall, Forall_forall in Hb.
    apply Hb. by eapply list_elem_of_lookup_2.
  - unfold Rendered.shuffleOutfit.
    destruct (topwear (app s)) as [| | | | |tops|] eqn:Htops; try done.
    destruct (length tops =? 0)%nat; [by intros [= <-]|].
    destruct (bottomwear (app s)) as [| | | | |bottoms|] eqn:Hbottoms; try done.
    destruct (length bottoms =? 0)%nat; intros [= <-]; [done|].
    rewrite rendered_final. unfold plain_state, plain_page. simpl.
    rewrite Htops, Hbottoms. repeat split; try done; by apply js_index_plain.
  - intros [= <-]. unfold Rendered.saveOutfit.
    destruct (negb (truthy (selectedTop (app s))) || negb (truthy (selectedBottom (app s))))
      eqn:Hsel; [done|].
    apply orb_false_elim in Hsel as [Hseltop Hselbottom].
    apply negb_false_iff in Hseltop, Hselbottom.
    simpl.
    assert (plain_heap (<[fresh (dom (heap s)) :=
              [("id", VNum (clock (ticks s))); ("top", selectedTop (app s));
               ("bottom", selectedBottom (app s))]]> (heap s))) as Hh2.
    { apply plain_heap_insert; [done|].
      repeat constructor; simpl; by apply truthy_plain. }
    destruct (savedOutfits (app s)) as [| | | | |outfits|] eqn:Houtfits; simpl;
      try (unfold plain_state, plain_page; simpl; by rewrite Houtfits).
    rewrite rendered_final.
    match goal with |- context [Rendered.saveToLocalStorage ?s2] =>
      destruct (rendered_saveToLocalStorage_frame s2) as (Ha2 & Hh2' & _);
      apply (plain_state_frame s2); [done..|] end.
    unfold plain_state, plain_page. simpl. repeat split; try done.
    by apply plain_value_app.
  - intros [= <-]. unfold Rendered.removeOutfit.
    destruct (savedOutfits (app s)) as [| | | | |outfits|] eqn:Houtfits; try done.
    destruct (filter_outfits _ _ _) as [kept|] eqn:Hkept; [|done]. simpl.
    rewrite rendered_final.
    match goal with |- context [Rendered.saveToLocalStorage ?s2] =>
      destruct (rendered_saveToLocalStorage_frame s2) as (Ha2 & Hh2' & _);
      apply (plain_state_frame s2); [done..|] end.
    unfold plain_state, plain_page. simpl. repeat split; try done.
    simpl in Ho. rewrite forallb_Forall, Forall_forall in Ho |- *.
    intros v Hv. apply Ho. by eapply filter_outfits_sublist.
  - intros [= <-]. unfold Rendered.loadSavedOutfit.
    destruct (savedOutfits (app s)) as [| | | | |outfits|] eqn:Houtfits; try done.
    destruct (find_outfit _ _ _) as [outfit|] eqn:Hfind; [|done].
    destruct (truthy outfit); [|done].
    destruct (get_prop (heap s) outfit "top") as [top|] eqn:Htop; [|done]. simpl.
    destruct (get_prop (heap s) outfit "bottom") as [bottom|] eqn:Hbottom; simpl.
    + rewrite rendered_final. unfold plain_state, plain_page. simpl.
      repeat split; rewrite ?Houtfits; try done; by eapply get_prop_plain.
    + unfold plain_state, plain_page. simpl.
      repeat split; rewrite ?Houtfits; try done; by eapply get_prop_plain.
  - intros [= <-]. unfold exportWardrobe. simpl. by destruct (literal_to_json _ _).
  - intros [= <-]. simpl.
    pose proof (rendered_importWardrobe_cases text s) as Himp.
    destruct (JSON_parse text) as [j|] eqn:Hparse; [|by rewrite Himp].
    assert (j = JNull ∨ j ≠ JNull) as [-> | Hj] by (destruct j; [by left|by right..]).
    { by rewrite Himp. }
    destruct (rendered_importWardrobe_state text s j Hparse Hj) as [Happ Hheap].
    destruct (from_json j (heap s)) as [v h1] eqn:Hfrom.
    destruct (from_json_plain _ _ _ _ Hfrom Hh) as [Hh1 _]. simpl in Happ, Hheap.
    unfold plain_state, plain_page. rewrite Happ, Hheap. unfold assigned. simpl.
    repeat split; try done; by apply field_or_empty_plain.
  - intros [= <-]. unfold Rendered.on_load.
    assert (plain_state (loadFromLocalStorage s).2) as Hload.
    { pose proof (loadFromLocalStorage_cases s) as Hload.
      destruct (localStorage s) as [stored|]; [|by rewrite Hload].
      destruct (truthy (VStr stored)); [|by rewrite Hload].
      destruct (JSON_parse stored) as [j|]; [|by rewrite Hload].
      assert (plain_state
                (set_app (assigned (from_json j (heap s)).2 (from_json j (heap s)).1 (app s))
                   (set_heap (from_json j (heap s)).2 s))) as Hj.
      { destruct (from_json j (heap s)) as [v h1] eqn:Hfrom.
        destruct (from_json_plain _ _ _ _ Hfrom Hh) as [Hh1 _].
        unfold plain_state, plain_page, assigned. simpl.
        repeat split; try done; by apply field_or_empty_plain. }
      destruct j; rewrite Hload; done. }
    destruct (loadFromLocalStorage s) as [ok s1]. by rewrite rendered_final.
  - intros [= <-]. unfold Rendered.clearAllData. destruct confirmed; [|done].
    assert (plain_heap (heap s)) by done.
    destruct (renderUI_throws _); unfold plain_state, plain_page; simpl;
      repeat split; try done; by right.
Qed.

(** Every page a session reaches from the initial one is plain. *)
Lemma rendered_run_plain (actions : list Rendered.action) (s s' : state) :
  plain_state s → Rendered.run actions s = Some s' → plain_state s'.
Proof.
  revert s. induction actions as [|a actions IH]; intros s Hs; simpl.
  - by intros [= <-].
  - destruct (Rendered.perform a s) as [o|] eqn:Ho; [|done]. simpl.
    apply IH. by eapply rendered_perform_plain.
Qed.

Lemma initial_state_plain : plain_state initial_state.
Proof.
  unfold plain_state, plain_page. simpl.
  split; [split; [apply map_Forall_empty|done]|]. split; by right.
Qed.

End PlainSessions.

(** ** Pages of the script's own making render *)

Lemma is_item_mono (h h' : gmap loc object) (v : value) :
  h ⊆ h' → is_item h v → is_item h' v.
Proof.
  intros Hsub (l & o & -> & Hl & Ho). exists l, o.
  split; [done|]. split; [by eapply lookup_weaken|done].
Qed.

Lemma is_outfit_mono (h h' : gmap loc object) (v : value) :
  h ⊆ h' → is_outfit h v → is_outfit h' v.
Proof.
  intros Hsub (l & o & top & bottom & -> & Hl & Ho & Htop & Hbottom & Ht & Hb).
  exists l, o, top, bottom.
  split; [done|]. split; [by eapply lookup_weaken|].
  split; [|split; [done|split; [done|split; by eapply is_item_mono]]].
  eapply Forall_impl; [exact Ho|]. intros kv [?|?]; [by left|right; by eapply is_item_mono].
Qed.

Lemma primitive_coercible (h : gmap loc object) (v : value) :
  primitive v = true → coercible h v = true.
Proof. by destruct v. Qed.

(** A property of an item is a primitive. *)
Lemma item_prop (h : gmap loc object) (v : value) (k : string) :
  is_item h v → primitive (prop h v k) = true.
Proof.
  intros (l & o & -> & Hl & Ho). unfold prop. simpl. rewrite Hl. simpl.
  clear Hl. induction Ho as [|[k' v'] o Hv _ IH]; simpl; [done|].
  by destruct (String.eqb k k').
Qed.

Lemma item_renders (h : gmap loc object) (v : value) :
  is_item h v →
  reads v = true ∧ createImageElement h v = true ∧ details h v = true.
Proof.
  intros Hv.
  assert (∀ k, coercible h (prop h v k) = true) as Hk
    by (intros k; by apply primitive_coercible, item_prop).
  split; [by destruct Hv as (l & o & -> & _)|].
  unfold createImageElement, details. rewrite !Hk. by destruct (truthy _).
Qed.

Lemma items_render (h : gmap loc object) (items : list value) :
  Forall (is_item h) items → thumbnails h (VArr items) = true.
Proof.
  intros Hitems. unfold thumbnails. simpl.
  assert (forallb (λ item, reads item && createImageElement h item) items = true) as ->.
  { apply forallb_Forall. eapply Forall_impl; [exact Hitems|].
    intros v Hv. by destruct (item_renders h v Hv) as (-> & -> & _). }
  by destruct (Z.of_nat (length items)).
Qed.

Lemma outfit_renders (h : gmap loc object) (v : value) :
  is_outfit h v → card h v = true.
Proof.
  intros (l & o & top & bottom & -> & Hl & _ & Htop & Hbottom & Ht & Hb).
  unfold card, prop. simpl. rewrite Hl. simpl. rewrite Htop, Hbottom. simpl.
  destruct (item_renders h top Ht) as (-> & -> & _).
  by destruct (item_renders h bottom Hb) as (-> & -> & _).
Qed.

(** On a page of the script's own making no render function throws. *)
Lemma homemade_renders (s : state) :
  homemade s → renderUI s = true ∧ renderOutfit s = true ∧ updateStorageInfo s = true.
Proof.
  intros (tops & bottoms & outfits & Ht & Hb & Ho & Hts & Hbs & Hos & Hst & Hsb).
  assert (renderTopwear s = true) as Hrt
    by (unfold renderTopwear; rewrite Ht; by apply items_render).
  assert (renderBottomwear s = true) as Hrb
    by (unfold renderBottomwear; rewrite Hb; by apply items_render).
  assert (renderOutfit s = true) as Hro.
  { unfold renderOutfit. rewrite Hrt, Hrb.
    destruct Hst as [-> | Hst]; [done|]. destruct Hsb as [-> | Hsb]; [by rewrite orb_true_r|].
    destruct (item_renders _ _ Hst) as (_ & -> & ->).
    destruct (item_renders _ _ Hsb) as (_ & -> & ->).
    by destruct (_ || _). }
  assert (renderSavedOutfits s = true) as Hrs.
  { unfold renderSavedOutfits. rewrite Ho. simpl.
    assert (forallb (card (heap s)) outfits = true) as ->.
    { apply forallb_Forall. eapply Forall_impl; [exact Hos|]. apply outfit_renders. }
    by destruct (Z.of_nat (length outfits)). }
  assert (updateStorageInfo s = true) as Hu
    by (unfold updateStorageInfo; by rewrite Ht, Hb, Ho).
  unfold renderUI. by rewrite Hrt, Hrb, Hro, Hrs, Hu.
Qed.

Lemma homemade_frame (s s' : state) :
  app s' = app s → heap s' = heap s → homemade s → homemade s'.
Proof. unfold homemade. by intros -> ->. Qed.

Lemma homemade_mono (s : state) (h' : gmap loc object) :
  heap s ⊆ h' → homemade s → homemade (set_heap h' s).
Proof.
  intros Hsub (tops & bottoms & outfits & Ht & Hb & Ho & Hts & Hbs & Hos & Hst & Hsb).
  exists tops, bottoms, outfits. simpl.
  split; [done|]. split; [done|]. split; [done|].
  split; [eapply Forall_impl; [exact Hts|]; intros v; by apply is_item_mono|].
  split; [eapply Forall_impl; [exact Hbs|]; intros v; by apply is_item_mono|].
  split; [eapply Forall_impl; [exact Hos|]; intros v; by apply is_outfit_mono|].
  split; [destruct Hst; [by left|right; by eapply is_item_mono]|].
  destruct Hsb; [by left|right; by eapply is_item_mono].
Qed.

(** A new item is made and pushed to a collection. *)
Lemma homemade_push (category : string) (o : object) (s s1 : state) :
  homemade s → app s1 = app s → heap s1 = heap s →
  Forall (λ kv : string * value, primitive kv.2 = true) o →
  let l := fresh (dom (heap s1)) in
  let s3 := set_heap (<[l := o]> (heap s1)) s1 in
  ∃ s2, push_item category (VRef l) s3 = Some s2 ∧ homemade s2.
Proof.
  intros Hs Ha1 Hh1 Hobj l s3.
  assert (heap s1 !! l = None) as Hl by (apply not_elem_of_dom, is_fresh).
  assert (homemade s3) as Hs3.
  { apply homemade_mono; [by apply insert_subseteq|]. by apply (homemade_frame s). }
  assert (is_item (heap s3) (VRef l)) as Hitem.
  { exists l, o. split; [done|]. split; [apply lookup_insert_eq|done]. }
  destruct Hs3 as (tops & bottoms & outfits & Ht & Hb & Ho & Hts & Hbs & Hos & Hst & Hsb).
  unfold push_item, push. destruct (String.eqb _ _).
  - rewrite Ht. simpl. eexists. split; [done|].
    exists (tops ++ [VRef l])%list, bottoms, outfits. simpl.
    repeat split; try done. apply Forall_app. split; [done|by constructor].
  - rewrite Hb. simpl. eexists. split; [done|].
    exists tops, (bottoms ++ [VRef l])%list, outfits. simpl.
    repeat split; try done. apply Forall_app. split; [done|by constructor].
Qed.

(** A page of the script's own making prints. *)
Lemma item_prints (h : gmap loc object) (v : value) (n : nat) :
  is_item h v → is_Some (to_json_fuel (S n) h v).
Proof.
  intros (l & o & -> & Hl & Ho). rewrite to_json_fuel_unfold, Hl. simpl.
  apply fmap_is_Some, props_to_json_is_Some.
  eapply Forall_impl; [exact Ho|]. intros [k v] Hv. simpl in *.
  destruct v; try done; rewrite to_json_fuel_unfold; by eexists.
Qed.

Lemma outfit_prints (h : gmap loc object) (v : value) (n : nat) :
  is_outfit h v → is_Some (to_json_fuel (S (S n)) h v).
Proof.
  intros (l & o & top & bottom & -> & Hl & Ho & _).
  rewrite to_json_fuel_unfold, Hl. simpl.
  apply fmap_is_Some, props_to_json_is_Some.
  eapply Forall_impl; [exact Ho|]. intros [k v] [Hv|Hv]; simpl in *.
  - destruct v; try done; rewrite to_json_fuel_unfold; by eexists.
  - by apply item_prints.
Qed.

Lemma homemade_printable (s : state) : homemade s → printable s.
Proof.
  intros (tops & bottoms & outfits & Ht & Hb & Ho & Hts & Hbs & Hos & Hst & Hsb).
  assert (∀ v, is_item (heap s) v → is_Some (to_json (heap s) v)) as Hitem.
  { intros v Hv. by apply item_prints. }
  assert (∀ v, is_outfit (heap s) v → is_Some (to_json (heap s) v)) as Houtfit.
  { intros v Hv. unfold to_json.
    destruct Hv as (l & o & top & bottom & -> & Hl & Hrest).
    assert (size (heap s) ≠ 0%nat) as Hsize.
    { intros Hzero. apply map_size_empty_iff in Hzero. by rewrite Hzero in Hl. }
    destruct (size (heap s)) as [|n]; [done|].
    apply outfit_prints. by exists l, o, top, bottom. }
  unfold printable, printable_in. rewrite Ht, Hb, Ho.
  split; [apply to_json_array; eapply Forall_impl; [exact Hts|done]|].
  split; [apply to_json_array; eapply Forall_impl; [exact Hbs|done]|].
  split; [destruct Hst as [-> | ?]; [by eexists|by apply Hitem]|].
  split; [destruct Hsb as [-> | ?]; [by eexists|by apply Hitem]|].
  apply to_json_array. eapply Forall_impl; [exact Hos|done].
Qed.

(** ** Sessions on pages of the script's own making *)

Section OwnSessions.

Context `{Browser}.

Lemma homemade_save (s : state) :
  homemade s → homemade (Rendered.saveToLocalStorage (H0 := script_display) s).
Proof.
  destruct (rendered_saveToLocalStorage_frame (H0 := script_display) s) as (Ha & Hh & _).
  by apply homemade_frame.
Qed.

Ltac renders Hs :=
  let Hui := fresh "Hui" in
  let Hro := fresh "Hro" in
  destruct (homemade_renders _ Hs) as (Hui & Hro & _);
  cbn [renderUI_throws renderOutfit_throws script_display];
  rewrite ?Hui, ?Hro; cbn [rendered].

Lemma bulkImport_loop_homemade (category : string) (files : list File) :
  ∀ i successCount failCount s,
    homemade s →
    homemade (bulkImport_loop category i files successCount failCount s).2.
Proof.
  induction files as [|file files IH]; intros i sc fc s Hs; [done|].
  simpl.
  destruct (validateImageFile_frame file s) as (_ & Ha & Hh & _).
  destruct (validateImageFile file s) as [valid s1]. simpl in Ha, Hh.
  assert (homemade s1) as Hs1 by (by apply (homemade_frame s)).
  destruct valid; simpl; [|by apply IH].
  destruct (f_dataURL file) as [img|]; [|by apply IH]. simpl.
  destruct (homemade_push category
              [("id", VNum (clock (ticks s1) + Z.of_nat i)); ("brand", VStr "Imported");
               ("name", VStr (before_dot (f_name file))); ("image", VStr img);
               ("link", VNull); ("source", VStr "local");
               ("uploadedAt", VStr (toISOString (clock (S (ticks s1)))))]
              s1 (tick (tick s1)) Hs1 eq_refl eq_refl)
    as (s4 & Hpush & Hs4).
  { by repeat constructor. }
  simpl in Hpush. rewrite Hpush. by apply IH.
Qed.

(** An own action on a page of the script's own making ends normally and
    leaves such a page. *)
Lemma own_perform (a : Rendered.action) (s : state) :
  homemade s → own a →
  ∃ s', Rendered.perform (H0 := script_display) a s = Some (Done s') ∧ homemade s'.
Proof.
  intros Hs Hown.
  pose proof Hs as (tops & bottoms & outfits & Ht & Hb & Ho & Hts & Hbs & Hos & Hst & Hsb).
  destruct a as [imageFile brand productName category shoppingLink|files category
                |i|i|r1 r2| |outfitId|outfitId| |text| |confirmed]; simpl; try done.
  - eexists. split; [done|].
    unfold Rendered.addItem. destruct imageFile as [file|]; [|done].
    destruct (_ || _); [done|].
    destruct (validateImageFile_frame file s) as (_ & Ha & Hh & _).
    destruct (validateImageFile file s) as [valid s1]. simpl in Ha, Hh.
    assert (homemade s1) as Hs1 by (by apply (homemade_frame s)).
    destruct valid; simpl; [|done].
    destruct (f_dataURL file) as [img|]; [|done]. simpl.
    match goal with |- context [set_heap (<[_ := ?o]> _) _] =>
      destruct (homemade_push category o s1 (tick (tick s1)) Hs1 eq_refl eq_refl)
        as (s5 & Hpush & Hs5) end.
    { repeat constructor. simpl. unfold js_or. by destruct (truthy _). }
    simpl in Hpush. rewrite Hpush.
    apply homemade_save in Hs5.
    assert (homemade (showNotification "✓ Item added successfully!" "success"
                        (Rendered.saveToLocalStorage (H0 := script_display) s5))) as Hs6
      by done.
    destruct (homemade_renders _ Hs6) as (Hui & _). by rewrite Hui.
  - eexists. split; [done|].
    unfold Rendered.bulkImportImages. destruct (_ =? _)%nat; [done|].
    pose proof (bulkImport_loop_homemade category files 0 0 0 s Hs) as Hloop.
    destruct (bulkImport_loop _ _ _ _ _ _) as [[sc fc] s1]. simpl in Hloop.
    apply homemade_save in Hloop.
    assert (homemade (showNotification (bulk_message sc fc) "success"
                        (Rendered.saveToLocalStorage (H0 := script_display) s1))) as Hs3
      by done.
    destruct (homemade_renders _ Hs3) as (Hui & _).
    cbn [renderUI_throws script_display]. by rewrite Hui.
  - unfold thumbnail. rewrite Ht.
    destruct (tops !! i) as [item|] eqn:Hi; [|by eexists].
    assert (homemade (set_app (set_selectedTop item (app s)) s)) as Hs1.
    { exists tops, bottoms, outfits. simpl. repeat split; try done. right.
      rewrite Forall_forall in Hts. apply Hts. by eapply list_elem_of_lookup_2. }
    unfold Rendered.selectTop. renders Hs1. by eexists.
  - unfold thumbnail. rewrite Hb.
    destruct (bottoms !! i) as [item|] eqn:Hi; [|by eexists].
    assert (homemade (set_app (set_selectedBottom item (app s)) s)) as Hs1.
    { exists tops, bottoms, outfits. simpl. repeat split; try done. right.
      rewrite Forall_forall in Hbs. apply Hbs. by eapply list_elem_of_lookup_2. }
    unfold Rendered.selectBottom. renders Hs1. by eexists.
  - destruct Hown as [Hr1 Hr2]. unfold Rendered.shuffleOutfit. rewrite Ht, Hb.
    destruct tops as [|t0 tops']; [by eexists|].
    destruct bottoms as [|b0 bottoms']; [by eexists|].
    change (length (t0 :: tops') =? 0)%nat with false.
    change (length (b0 :: bottoms') =? 0)%nat with false. cbv iota.
    assert (∀ vs r, Forall (is_item (heap s)) vs → vs ≠ [] → is_draw r →
              is_item (heap s) (js_index vs (Rendered.random_index r (length vs)))) as Hpick.
    { intros vs r Hvs Hne Hr.
      assert (0 < length vs)%nat as Hlen by (destruct vs; [done|simpl; lia]).
      destruct (random_index_binary64 r (length vs) Hr Hlen) as [[Hlo Hhi] _].
      unfold js_index. destruct (Z.ltb_spec (Rendered.random_index r (length vs)) 0); [lia|].
      destruct (lookup_lt_is_Some_2 vs (Z.to_nat (Rendered.random_index r (length vs))))
        as [v Hv]; [lia|].
      rewrite Hv. simpl. rewrite Forall_forall in Hvs.
      apply Hvs. by eapply list_elem_of_lookup_2. }
    match goal with |- context [rendered _ ?s2] =>
      assert (homemade s2) as Hs2 end.
    { exists (t0 :: tops'), (b0 :: bottoms'), outfits. simpl.
      repeat split; try done; right; by apply Hpick. }
    renders Hs2. by eexists.
  - unfold Rendered.saveOutfit.
    destruct (negb (truthy (selectedTop (app s))) || negb (truthy (selectedBottom (app s))))
      eqn:Hsel; [by eexists|].
    apply orb_false_elim in Hsel as [Hseltop Hselbottom].
    apply negb_false_iff in Hseltop, Hselbottom.
    destruct Hst as [Hst|Hst]; [by rewrite Hst in Hseltop|].
    destruct Hsb as [Hsb|Hsb]; [by rewrite Hsb in Hselbottom|].
    simpl. rewrite Ho. simpl.
    set (l := fresh (dom (heap s))).
    assert (heap s !! l = None) as Hl by (apply not_elem_of_dom, is_fresh).
    set (outfit := [("id", VNum (clock (ticks s))); ("top", selectedTop (app s));
                    ("bottom", selectedBottom (app s))]).
    assert (heap s ⊆ <[l := outfit]> (heap s)) as Hsub by (by apply insert_subseteq).
    match goal with |- context [Rendered.saveToLocalStorage ?s3] =>
      assert (homemade s3) as Hs3 end.
    { exists tops, bottoms, (outfits ++ [VRef l])%list. simpl.
      split; [done|]. split; [done|]. split; [done|].
      split; [eapply Forall_impl; [exact Hts|]; intros v; by apply is_item_mono|].
      split; [eapply Forall_impl; [exact Hbs|]; intros v; by apply is_item_mono|].
      split; [|split; right; by eapply is_item_mono].
      apply Forall_app. split.
      - eapply Forall_impl; [exact Hos|]. intros v. by apply is_outfit_mono.
      - constructor; [|done].
        exists l, outfit, (selectedTop (app s)), (selectedBottom (app s)).
        split; [done|]. split; [apply lookup_insert_eq|].
        split; [|split; [done|split; [done|split; by eapply is_item_mono]]].
        constructor; [by left|]. constructor; [right; by eapply is_item_mono|].
        constructor; [right; by eapply is_item_mono|]. constructor. }
    apply homemade_save in Hs3.
    match goal with |- context [rendered _ ?s5] =>
      assert (homemade s5) as Hs5 by done end.
    renders Hs5. by eexists.
  - unfold Rendered.removeOutfit. rewrite Ho.
    assert (Forall non_null outfits) as Hnn.
    { eapply Forall_impl; [exact Hos|]. by intros v (l & o & ? & ? & -> & _). }
    rewrite filter_outfits_filter by done.
    match goal with |- context [Rendered.saveToLocalStorage ?s1] =>
      assert (homemade s1) as Hs1 end.
    { eexists tops, bottoms, _. simpl. repeat split; try done.
      rewrite Forall_forall in Hos |- *.
      intros v [_ Hin]%list_elem_of_filter. by apply Hos. }
    apply homemade_save in Hs1.
    renders Hs1. by eexists.
  - unfold Rendered.loadSavedOutfit. rewrite Ho.
    assert (∃ o, find_outfit (heap s) outfitId outfits = Some o ∧
                 (o = VUndef ∨ is_outfit (heap s) o)) as (o & -> & Hcase).
    { clear Ho. induction Hos as [|o outfits Hout _ IH]; simpl.
      - exists VUndef. by split; [|left].
      - assert (non_null o) as [Hnull Hundef] by (by destruct Hout as (l & ? & ? & ? & -> & _)).
        rewrite has_id_same_id by done.
        destruct (same_id _ _ o); [|done]. exists o. by split; [|right]. }
    destruct Hcase as [-> | Hout]; [by eexists|].
    destruct Hout as (l & obj & top & bottom & -> & Hl & _ & Htop & Hbottom & Hit & Hib).
    simpl. rewrite Hl. simpl. rewrite Htop, Hbottom. simpl.
    match goal with |- context [rendered _ ?s2] =>
      assert (homemade s2) as Hs2 end.
    { exists tops, bottoms, outfits. simpl. repeat split; try done; by right. }
    renders Hs2. by eexists.
  - destruct (exportWardrobe_returns s (homemade_printable s Hs)) as (d & text & s1 & Hexp).
    rewrite Hexp. simpl. exists s1. split; [done|].
    rewrite exportWardrobe_cases in Hexp.
    destruct (literal_to_json _ _); [|done]. injection Hexp as _ _ <-.
    by apply (homemade_frame s).
  - unfold Rendered.clearAllData. destruct confirmed; [|by eexists].
    match goal with |- context [renderUI_throws ?s6] =>
      assert (homemade s6) as Hs6 end.
    { exists [], [], []. simpl. repeat split; try done; by left. }
    renders Hs6. eexists. split; [done|]. by apply (homemade_frame _ _ eq_refl eq_refl) in Hs6.
Qed.

(** X13. A session that brings in no data from outside (no import of a
    file, no load of the slot; the draws of a shuffle are doubles from 0 to
    1), from a page of the script's own making: the page stays one, and on
    every page of the session every such action ends without an uncaught
    exception, its render calls included: [renderUI()] and
    [renderOutfit()] read nothing that throws. *)
Theorem own_sessions_render (actions : list Rendered.action) (s : state) :
  homemade s →
  Forall own actions →
  ∃ s',
    Rendered.run (H0 := script_display) actions s = Some s' ∧
    homemade s' ∧
    renderUI s' = true ∧
    ∀ a, own a → ∃ s'', Rendered.perform (H0 := script_display) a s' = Some (Done s'').
Proof.
  intros Hs Hown. revert s Hs.
  induction Hown as [|a actions Ha _ IH]; intros s Hs; simpl.
  - exists s. split; [done|]. split; [done|].
    split; [by destruct (homemade_renders s Hs)|].
    intros a Ha. destruct (own_perform a s Hs Ha) as (s'' & Hperform & _). by exists s''.
  - destruct (own_perform a s Hs Ha) as (s1 & -> & Hs1). simpl. by apply IH.
Qed.

End OwnSessions.

(** ** Every page of a session with rendering prints *)

Section PrintableSessions.

Context `{Browser} `{Display}.

Lemma printable_rendered_save (s : state) :
  printable s → printable (Rendered.saveToLocalStorage s).
Proof.
  destruct (rendered_saveToLocalStorage_frame s) as (Ha & Hh & _). by apply printable_eq.
Qed.

Lemma rendered_perform_printable (a : Rendered.action) (s : state) (o : outcome) :
  printable s → Rendered.perform a s = Some o → printable (final o).
Proof.
  intros Hs. pose proof Hs as (Ht & Hb & Hst & Hsb & Ho).
  destruct a as [imageFile brand productName category shoppingLink|files category
                |i|i|r1 r2| |outfitId|outfitId| |text| |confirmed]; simpl.
  - intros [= <-]. simpl.
    unfold Rendered.addItem. destruct imageFile as [file|]; [|done].
    destruct (_ || _); [done|].
    destruct (validateImageFile_frame file s) as (_ & Ha & Hh & _).
    destruct (validateImageFile file s) as [valid s1]. simpl in Ha, Hh.
    assert (printable s1) as Hs1 by (by apply (printable_eq s)).
    destruct valid; simpl; [|done].
    destruct (f_dataURL file) as [img|]; [|done]. simpl.
    match goal with |- context [set_heap (<[_ := ?o]> _) _] =>
      destruct (printable_new_item category o s1 (tick (tick s1)) Hs1 eq_refl eq_refl)
        as [Hs3 Hpush] end.
    { repeat constructor; try by eexists.
      simpl. unfold js_or. destruct (truthy _); by eexists. }
    simpl in Hs3, Hpush.
    destruct (push_item _ _ _) as [s5|] eqn:Hp; [|done].
    assert (printable (showNotification "✓ Item added successfully!" "success"
                         (Rendered.saveToLocalStorage s5))) as Hs6.
    { apply (printable_eq (Rendered.saveToLocalStorage s5)); [done..|].
      apply printable_rendered_save. by apply Hpush. }
    by destruct (renderUI_throws _).
  - intros [= <-]. simpl.
    unfold Rendered.bulkImportImages. destruct (_ =? _)%nat; [done|].
    pose proof (bulkImport_loop_printable category files 0 0 0 s Hs) as Hloop.
    destruct (bulkImport_loop _ _ _ _ _ _) as [[sc fc] s1]. simpl in Hloop.
    assert (printable (showNotification (bulk_message sc fc) "success"
                         (Rendered.saveToLocalStorage s1))) as Hs3.
    { apply (printable_eq (Rendered.saveToLocalStorage s1)); [done..|].
      by apply printable_rendered_save. }
    by destruct (renderUI_throws _).
  - unfold thumbnail. destruct (topwear (app s)) as [| | | | |tops|] eqn:Htops;
      try (intros [= <-]; done).
    destruct (tops !! i) as [item|] eqn:Hi; intros [= <-]; [|done].
    unfold Rendered.selectTop. rewrite rendered_final.
    unfold printable, printable_in. simpl. rewrite Htops.
    repeat split; try done.
    apply to_json_array in Ht. rewrite Forall_forall in Ht.
    apply Ht. by eapply list_elem_of_lookup_2.
  - unfold thumbnail. destruct (bottomwear (app s)) as [| | | | |bottoms|] eqn:Hbottoms;
      try (intros [= <-]; done).
    destruct (bottoms !! i) as [item|] eqn:Hi; intros [= <-]; [|done].
    unfold Rendered.selectBottom. rewrite rendered_final.
    unfold printable, printable_in. simpl. rewrite Hbottoms.
    repeat split; try done.
    apply to_json_array in Hb. rewrite Forall_forall in Hb.
    apply Hb. by eapply list_elem_of_lookup_2.
  - unfold Rendered.shuffleOutfit.
    destruct (topwear (app s)) as [| | | | |tops|] eqn:Htops; try done.
    destruct (length tops =? 0)%nat; [by intros [= <-]|].
    destruct (bottomwear (app s)) as [| | | | |bottoms|] eqn:Hbottoms; try done.
    destruct (length bottoms =? 0)%nat; intros [= <-]; [done|].
    assert (∀ vs k, is_Some (to_json (heap s) (VArr vs)) →
                    is_Some (to_json (heap s) (js_index vs k))) as Hindex.
    { intros vs k Hvs. unfold js_index. destruct (k <? 0); [by eexists|].
      destruct (vs !! Z.to_nat k) as [v|] eqn:Hv; [|by eexists]. simpl.
      apply to_json_array in Hvs. rewrite Forall_forall in Hvs.
      apply Hvs. by eapply list_elem_of_lookup_2. }
    rewrite rendered_final. unfold printable, printable_in. simpl.
    rewrite Htops, Hbottoms. repeat split; try done; by apply Hindex.
  - intros [= <-]. unfold Rendered.saveOutfit. destruct (_ || _); [done|]. simpl.
    destruct (printable_alloc (tick s)
                [("id", VNum (clock (ticks s))); ("top", selectedTop (app s));
                 ("bottom", selectedBottom (app s))]) as [Hs2 Hl].
    { done. }
    { simpl. repeat constructor; try done; by eexists. }
    simpl in Hs2, Hl.
    destruct (savedOutfits (app s)) as [| | | | |outfits|] eqn:Houtfits;
      try (simpl; exact Hs2).
    simpl. rewrite rendered_final.
    match goal with |- context [Rendered.saveToLocalStorage ?s3] =>
      apply (printable_eq (Rendered.saveToLocalStorage s3)); [done..|];
      apply printable_rendered_save end.
    destruct Hs2 as (? & ? & ? & ? & Ho2). simpl in *. rewrite Houtfits in Ho2.
    unfold printable, printable_in. simpl. repeat split; try done.
    apply to_json_array, Forall_app. split; [by apply to_json_array|by constructor].
  - intros [= <-]. unfold Rendered.removeOutfit.
    destruct (savedOutfits (app s)) as [| | | | |outfits|] eqn:Houtfits; try done.
    destruct (filter_outfits _ _ _) as [kept|] eqn:Hkept; [|done]. simpl.
    rewrite rendered_final. apply printable_rendered_save.
    unfold printable, printable_in. simpl. repeat split; try done.
    apply to_json_array. apply to_json_array in Ho. rewrite Forall_forall in Ho |- *.
    intros v Hv. apply Ho. by eapply filter_outfits_sublist.
  - intros [= <-]. unfold Rendered.loadSavedOutfit.
    destruct (savedOutfits (app s)) as [| | | | |outfits|] eqn:Houtfits; try done.
    destruct (find_outfit _ _ _) as [outfit|] eqn:Hfind; [|done].
    destruct (truthy outfit); [|done].
    assert (is_Some (to_json (heap s) outfit)) as Houtfit.
    { destruct (find_outfit_elem _ _ _ _ Hfind) as [-> | Hin]; [by eexists|].
      apply to_json_array in Ho. rewrite Forall_forall in Ho. by apply Ho. }
    destruct (get_prop (heap s) outfit "top") as [top|] eqn:Htop; [|done]. simpl.
    destruct (get_prop (heap s) outfit "bottom") as [bottom|] eqn:Hbottom; simpl.
    + rewrite rendered_final. unfold printable, printable_in. simpl.
      repeat split; rewrite ?Houtfits; try done; by eapply to_json_get_prop.
    + unfold printable, printable_in. simpl.
      repeat split; rewrite ?Houtfits; try done; by eapply to_json_get_prop.
  - intros [= <-]. unfold exportWardrobe. simpl. by destruct (literal_to_json _ _).
  - intros [= <-]. simpl.
    pose proof (rendered_importWardrobe_cases text s) as Himp.
    destruct (JSON_parse text) as [j|] eqn:Hparse; [|by rewrite Himp].
    assert (j = JNull ∨ j ≠ JNull) as [-> | Hj] by (destruct j; [by left|by right..]).
    { by rewrite Himp. }
    destruct (rendered_importWardrobe_state text s j Hparse Hj) as [Happ Hheap].
    pose proof (printable_assigned j s Hs) as Hassigned.
    unfold printable in Hassigned |- *. simpl in Hassigned.
    by rewrite Happ, Hheap.
  - intros [= <-]. unfold Rendered.on_load.
    assert (printable (loadFromLocalStorage s).2) as Hload.
    { pose proof (loadFromLocalStorage_cases s) as Hload.
      destruct (localStorage s) as [stored|]; [|by rewrite Hload].
      destruct (truthy (VStr stored)); [|by rewrite Hload].
      destruct (JSON_parse stored) as [j|]; [|by rewrite Hload].
      pose proof (printable_assigned j s Hs) as Hj.
      destruct j; rewrite Hload; done. }
    destruct (loadFromLocalStorage s) as [ok s1]. by rewrite rendered_final.
  - intros [= <-]. unfold Rendered.clearAllData. destruct confirmed; [|done].
    destruct (renderUI_throws _); unfold printable, printable_in; simpl;
      repeat split; by eexists.
Qed.

(** Every page a session reaches from a printable one is printable. *)
Lemma rendered_run_printable (actions : list Rendered.action) (s s' : state) :
  printable s → Rendered.run actions s = Some s' → printable s'.
Proof.
  revert s. induction actions as [|a actions IH]; intros s Hs; simpl.
  - by intros [= <-].
  - destruct (Rendered.perform a s) as [o|] eqn:Ho; [|done]. simpl.
    apply IH. by eapply rendered_perform_printable.
Qed.

End PrintableSessions.

(** ** The contracts of the handlers with their render calls *)

Section RenderedClaims.

Context `{Browser} `{Display}.

(** C1 (as amended). With an empty selection [saveOutfit] only shows the
    error toast and returns.  With both selections set and [savedOutfits] an
    array it appends to it one new object whose [top] and [bottom] are the
    values of the two selections themselves: for a garment, the reference
    to the very object that the wardrobe array holds, not a copy.  The rest
    of the store is untouched, the last toast is the one of success, and
    the call returns exactly when the closing [renderUI()] does.  Since the
    actions of the script only add objects, the new outfit prints as the
    same document after any later actions, with or without their
    rendering.  With both selections set and
    [savedOutfits] not an array, [push] throws: nothing is appended, nothing
    is saved and no toast is shown. *)
Theorem saveOutfit_spec (s : state) :
  (truthy (selectedTop (app s)) = false ∨ truthy (selectedBottom (app s)) = false →
     Rendered.saveOutfit s =
       Done (showNotification "Please select a complete outfit first" "error" s)) ∧
  (truthy (selectedTop (app s)) = true →
   truthy (selectedBottom (app s)) = true →
   (∀ outfits,
      savedOutfits (app s) = VArr outfits →
      ∃ outfit s',
        Rendered.saveOutfit s = rendered (renderUI_throws s') s' ∧
        heap s !! outfit = None ∧
        heap s' =
          <[outfit := [("id", VNum (clock (ticks s)));
                       ("top", selectedTop (app s));
                       ("bottom", selectedBottom (app s))]]> (heap s) ∧
        app s' = set_savedOutfits (VArr (outfits ++ [VRef outfit])) (app s) ∧
        last (notifications s') = Some ("❤️ Outfit saved!", "success") ∧
        (∀ actions j,
           to_json (heap s') (VRef outfit) = Some j →
           to_json (heap (run actions s')) (VRef outfit) = Some j) ∧
        (∀ actions s'' j,
           Rendered.run actions s' = Some s'' →
           to_json (heap s') (VRef outfit) = Some j →
           to_json (heap s'') (VRef outfit) = Some j)) ∧
   ((∀ outfits, savedOutfits (app s) ≠ VArr outfits) →
      ∃ s',
        Rendered.saveOutfit s = Uncaught "TypeError" s' ∧
        app s' = app s ∧
        localStorage s' = localStorage s ∧
        notifications s' = notifications s)).
Proof.
  split.
  - intros Hempty. unfold Rendered.saveOutfit.
    destruct Hempty as [-> | ->]; [done|]. by rewrite orb_true_r.
  - intros Htop Hbottom. split.
    + intros outfits Houtfits.
      unfold Rendered.saveOutfit. rewrite Htop, Hbottom. simpl. rewrite Houtfits. simpl.
      eexists _, _. split; [done|].
      match goal with |- context [Rendered.saveToLocalStorage ?s2] =>
        destruct (rendered_saveToLocalStorage_frame s2) as (Ha & Hh & _ & _) end.
      simpl. rewrite Ha, Hh. simpl.
      split; [apply not_elem_of_dom, is_fresh|]. split; [done|]. split; [done|].
      split; [by rewrite last_snoc|]. split.
      * intros actions j Hj. eapply to_json_mono; [|exact Hj].
        etrans; [|apply run_heap]. simpl. by rewrite Hh.
      * intros actions s'' j Hrun Hj. eapply to_json_mono; [|exact Hj].
        apply rendered_run_heap in Hrun. etrans; [|exact Hrun]. simpl. by rewrite Hh.
    + intros Hnot. unfold Rendered.saveOutfit. rewrite Htop, Hbottom. simpl.
      destruct (savedOutfits (app s)) as [| | | | |outfits|] eqn:Houtfits;
        try (by eexists); by destruct (Hnot outfits).
Qed.


(** C2. On every page a session reaches, with or without the render calls
    of its handlers, [exportWardrobe] returns a file, and no collection and
    no object of the page holds [undefined].
    Importing the text that [exportWardrobe] produced for a wardrobe (three
    arrays) gives three arrays that print as the same documents as the
    exported ones and, the wardrobe holding no [undefined], hold the same
    data as the exported ones: the same primitives at the same places, in
    arrays of the same lengths and objects with the same property names;
    [exportDate] plays no part.  A text that does not parse as a wardrobe
    document (it is not JSON, or it is the document [null]) leaves [app],
    the objects and the slot as they are.  In every other case a top-level
    field that the parsed document lacks becomes the empty array. *)
Theorem import_export_roundtrip :
  (∀ actions,
     ∃ download text s1,
       exportWardrobe (run actions initial_state) = (Some (download, text), Done s1)) ∧
  (∀ actions s,
     Rendered.run actions initial_state = Some s →
     plain_page s ∧
     ∃ download text s1, exportWardrobe s = (Some (download, text), Done s1)) ∧
  (∀ s s0 tops bottoms outfits download text s1,
     topwear (app s) = VArr tops →
     bottomwear (app s) = VArr bottoms →
     savedOutfits (app s) = VArr outfits →
     exportWardrobe s = (Some (download, text), Done s1) →
     (∀ config, literal_to_json (heap s) (exported_config s) = Some config →
                JSON_parse (JSON_stringify 2 config) = Some config) →
     let s' := Rendered.importWardrobe text s0 in
     (∃ tops' bottoms' outfits',
        topwear (app s') = VArr tops' ∧
        bottomwear (app s') = VArr bottoms' ∧
        savedOutfits (app s') = VArr outfits') ∧
     is_Some (to_json (heap s) (topwear (app s))) ∧
     is_Some (to_json (heap s) (bottomwear (app s))) ∧
     is_Some (to_json (heap s) (savedOutfits (app s))) ∧
     to_json (heap s') (topwear (app s')) = to_json (heap s) (topwear (app s)) ∧
     to_json (heap s') (bottomwear (app s')) = to_json (heap s) (bottomwear (app s)) ∧
     to_json (heap s') (savedOutfits (app s')) = to_json (heap s) (savedOutfits (app s)) ∧
     (plain_page s →
      same_data (heap s) (heap s') (topwear (app s)) (topwear (app s')) ∧
      same_data (heap s) (heap s') (bottomwear (app s)) (bottomwear (app s')) ∧
      same_data (heap s) (heap s') (savedOutfits (app s)) (savedOutfits (app s')))) ∧
  (∀ text s,
     JSON_parse text = None ∨ JSON_parse text = Some JNull →
     Rendered.importWardrobe text s =
       showNotification "✗ Error importing config" "error" s ∧
     app (Rendered.importWardrobe text s) = app s ∧
     heap (Rendered.importWardrobe text s) = heap s ∧
     localStorage (Rendered.importWardrobe text s) = localStorage s) ∧
  (∀ text s j,
     JSON_parse text = Some j → j ≠ JNull →
     let s' := Rendered.importWardrobe text s in
     (document_field j "topwear" = None → topwear (app s') = VArr []) ∧
     (document_field j "bottomwear" = None → bottomwear (app s') = VArr []) ∧
     (document_field j "savedOutfits" = None → savedOutfits (app s') = VArr [])).
Proof.
  split; [|split; [|split; [|split]]].
  - intros actions. apply exportWardrobe_returns, run_printable, initial_state_printable.
  - intros actions s Hrun. split.
    + by destruct (rendered_run_plain actions initial_state s initial_state_plain Hrun).
    + eapply exportWardrobe_returns, rendered_run_printable; [|exact Hrun].
      apply initial_state_printable.
  - intros s s0 tops bottoms outfits download text s1 Ht Hb Ho Hexp Hcodec s'.
    unfold exportWardrobe in Hexp. simpl in Hexp.
    change (literal_to_json (heap s) (exported_config s)) with
      (literal_to_json (heap s)
         [("topwear", topwear (app s)); ("bottomwear", bottomwear (app s));
          ("savedOutfits", savedOutfits (app s));
          ("exportDate", VStr (toISOString (clock (ticks s))))]) in Hcodec.
    destruct (literal_to_json _ _) as [config|] eqn:Hconfig; [|done].
    injection Hexp as _ <- _.
    specialize (Hcodec config eq_refl).
    unfold literal_to_json in Hconfig. rewrite Ht, Hb, Ho in Hconfig. simpl in Hconfig.
    destruct (to_json (heap s) (VArr tops)) as [jt|] eqn:Hjt; [|done].
    destruct (to_json (heap s) (VArr bottoms)) as [jb|] eqn:Hjb; [|done].
    destruct (to_json (heap s) (VArr outfits)) as [jo|] eqn:Hjo; [|done].
    simpl in Hconfig. injection Hconfig as <-.
    destruct (to_json_VArr _ _ _ Hjt) as [jts ->].
    destruct (to_json_VArr _ _ _ Hjb) as [jbs ->].
    destruct (to_json_VArr _ _ _ Hjo) as [jos ->].
    set (ps := [("topwear", JArr jts); ("bottomwear", JArr jbs); ("savedOutfits", JArr jos);
                ("exportDate", JStr (toISOString (clock (ticks s))))]) in *.
    destruct (rendered_importWardrobe_state (JSON_stringify 2 (JObj ps)) s0 (JObj ps) Hcodec)
      as [Happ Hheap]; [done|]. fold s' in Happ, Hheap.
    pose proof (assigned_arrays ps (heap s0) (app s0) jts jbs jos eq_refl eq_refl eq_refl)
      as Harrays. cbv zeta in Harrays. rewrite <- Happ, <- Hheap in Harrays.
    destruct Harrays as (Harr & Hvt & Hvb & Hvo).
    rewrite Ht, Hb, Ho, Hjt, Hjb, Hjo.
    split; [exact Harr|].
    split; [by eexists|]. split; [by eexists|]. split; [by eexists|].
    split; [done|]. split; [done|]. split; [done|].
    intros (Hheap_plain & Hpt & Hpb & Hpo). rewrite Ht, Hb, Ho in *.
    assert (∀ k vs js,
              assoc k ps = Some (JArr js) →
              to_json (heap s) (VArr vs) = Some (JArr js) →
              plain_value (VArr vs) = true →
              same_data (heap s) (heap s') (VArr vs) (field_or_empty (heap s') (from_json (JObj ps) (heap s0)).1 k))
      as Hfield.
    { intros k vs js Hk Hvs Hplain. rewrite Hheap.
      destruct (from_json_object_field ps (heap s0) k (JArr js) Hk)
        as (v & ha & hb & Hv & Hfrom & Hsub).
      unfold field_or_empty. rewrite Hv. cbn [default id].
      assert (same_data (heap s) hb (VArr vs) v) as Hsame
        by (eapply from_json_same_data; [exact Hheap_plain|exact Hvs|exact Hplain|exact Hfrom]).
      assert (js_or v (VArr []) = v) as ->.
      { inversion Hsame; subst. done. }
      eapply same_data_mono; [|exact Hsame]. exact Hsub. }
    rewrite Happ. unfold assigned. cbn [topwear bottomwear savedOutfits].
    rewrite <- Hheap.
    split; [|split]; eapply Hfield; done.
  - intros text s Hparse. pose proof (rendered_importWardrobe_cases text s) as Himp.
    destruct Hparse as [Hparse|Hparse]; rewrite Hparse in Himp; by rewrite Himp.
  - intros text s j Hparse Hj s'.
    destruct (rendered_importWardrobe_state text s j Hparse Hj) as [Happ _].
    fold s' in Happ. rewrite Happ.
    destruct j as [|b|n|str|js|ps]; try done.
    + simpl. by destruct (build_list from_json js (heap s)).
    + destruct (from_json_object ps (heap s)) as (o & l & h1 & Hfrom & _ & Hl & Hall).
      rewrite Hfrom. unfold assigned. cbn [topwear bottomwear savedOutfits fst snd].
      pose proof (parsed_object_field _ _ _ _ "topwear" Hall Hl) as Ht.
      pose proof (parsed_object_field _ _ _ _ "bottomwear" Hall Hl) as Hb.
      pose proof (parsed_object_field _ _ _ _ "savedOutfits" Hall Hl) as Ho.
      simpl document_field.
      repeat split; intros Habs;
        [rewrite Habs in Ht|rewrite Habs in Hb|rewrite Habs in Ho]; done.
Qed.

End RenderedClaims.

(** ** Worked examples with the render calls *)


(** C1 on the page with the shirt and the jeans selected, which renders:
    the handler returns, and the [top] of the new outfit is the reference
    to the shirt object of the wardrobe. *)
Lemma saveOutfit_witness :
  ∃ outfit s',
    Rendered.saveOutfit (H := Demo.browser) (H0 := script_display) Demo.dressed = Done s' ∧
    app s' = set_savedOutfits (VArr [VRef outfit]) (app Demo.dressed) ∧
    get_prop (heap s') (VRef outfit) "top" = Some (VRef Demo.shirt) ∧
    last (notifications s') = Some ("❤️ Outfit saved!", "success").
Proof.
  destruct (saveOutfit_spec (H := Demo.browser) (H0 := script_display) Demo.dressed)
    as [_ Hsave].
  destruct (Hsave eq_refl eq_refl) as [Harray _].
  destruct (Harray [] eq_refl) as (outfit & s' & Hdone & _ & Hheap & Happ & Hlast & _).
  exists outfit, s'.
  assert (∃ s'', Rendered.saveOutfit (H := Demo.browser) (H0 := script_display) Demo.dressed
                 = Done s'') as [s'' Hreturns] by (eexists; vm_compute; reflexivity).
  rewrite Hreturns in Hdone. rewrite Hreturns.
  destruct (renderUI_throws (Display := script_display) s'); [discriminate Hdone|].
  injection Hdone as ->.
  split; [reflexivity|]. split; [exact Happ|]. split; [|exact Hlast].
  rewrite Hheap. simpl. rewrite lookup_insert_eq. reflexivity.
Defined.


(** C2: the page with one saved outfit, exported and imported into a new
    page, with the printer and the parser of the stand-in browser: the
    imported outfits hold the same data as the exported ones. *)
Lemma import_export_witness :
  let text := default "" (snd <$> (exportWardrobe (H := Demo.browser) Demo.saved).1) in
  let s' := Rendered.importWardrobe (H := Demo.browser) (H0 := script_display) text
              initial_state in
  same_data (heap Demo.saved) (heap s') (topwear (app Demo.saved)) (topwear (app s')) ∧
  same_data (heap Demo.saved) (heap s') (bottomwear (app Demo.saved)) (bottomwear (app s')) ∧
  same_data (heap Demo.saved) (heap s') (savedOutfits (app Demo.saved))
    (savedOutfits (app s')).
Proof.
  destruct (import_export_roundtrip (H := Demo.browser) (H0 := script_display))
    as (_ & _ & Hround & _).
  edestruct (Hround Demo.saved initial_state) as (_ & _ & _ & _ & _ & _ & _ & Hsame).
  - reflexivity.
  - reflexivity.
  - reflexivity.
  - reflexivity.
  - intros config Hconfig. vm_compute in Hconfig. injection Hconfig as <-.
    vm_compute. reflexivity.
  - apply Hsame. split; [|by vm_compute].
    apply (bool_decide_unpack _). vm_compute. exact I.
Defined.

(** X13 on a session of a new page. *)
Lemma own_sessions_render_witness :
  ∃ s',
    Rendered.run (H := Demo.browser) (H0 := script_display) Demo.evening initial_state
      = Some s' ∧
    renderUI s' = true.
Proof.
  destruct (own_sessions_render (H := Demo.browser) Demo.evening initial_state)
    as (s' & Hrun & _ & Hui & _).
  - exists [], [], []. simpl.
    split; [reflexivity|]. split; [reflexivity|]. split; [reflexivity|].
    split; [constructor|]. split; [constructor|]. split; [constructor|].
    split; left; reflexivity.
  - repeat constructor; unfold is_draw; simpl; lia.
  - exists s'. split; [exact Hrun|exact Hui].
Defined.
